(** * ms-user: the Keycloak service and its HTTP handlers

    A shallow embedding of [services/keycloak_service.go] and of the
    handlers of package [handlers], with the properties of the admin-token
    refresh, of the resource operations and of the status mapping at the
    request boundary.

    The Go standard library ([net/http], [encoding/json], [fmt]) and gin
    are outside the repository.  What the code needs from them is gathered
    in the class [Platform]: the transport behind [http.Client.Do], the
    JSON codecs and the formatting of a decoded JSON object.  Everything
    else -- the control flow of every function, the error messages, the
    state of the service -- is transcribed from the source. *)

From Stdlib Require Import String Ascii ZArith List Bool Lia DecimalString.
Import ListNotations.

Local Open Scope Z_scope.
Local Open Scope string_scope.

(** ** Go values *)

(** A Go [error], identified with the message [err.Error()] returns. *)
Definition error := string.

(** The pair [(T, error)] a fallible Go function returns, in the usual case
    where the value is meaningless once the error is set. *)
Inductive result (A : Type) : Type :=
| Ok (a : A)
| Err (e : error).
Arguments Ok {A} a.
Arguments Err {A} e.

Definition is_ok {A} (r : result A) : bool :=
  match r with Ok _ => true | Err _ => false end.

(** [fmt]'s verb [%d] on an [int]. *)
Definition fmt_d (n : Z) : string := NilZero.string_of_int (Z.to_int n).

(** A decoded JSON value, as [encoding/json] stores it in an [interface{}]. *)
#[local] Unset Elimination Schemes.
Inductive JSON : Type :=
| JNull
| JBool (b : bool)
| JNumber (literal : string)
| JString (s : string)
| JArray (items : list JSON)
| JObject (fields : list (string * JSON)).
#[local] Set Elimination Schemes.

(** [map[string]interface{}] *)
Definition object := list (string * JSON).

Fixpoint object_get (m : object) (key : string) : option JSON :=
  match m with
  | [] => None
  | (k', v) :: rest => if String.eqb k' key then Some v else object_get rest key
  end.

(** ** package config *)
Module config.
Record Config := {
  KeycloakURL : string;
  KeycloakRealm : string;
  KeycloakUsername : string;
  KeycloakPassword : string
}.

(** The environment of the process, as [os.LookupEnv] reads it: the value
    of a variable that is set, possibly the empty string. *)
Definition Environ := string -> option string.

Definition getEnv (environ : Environ) (key defaultValue : string) : string :=
  match environ key with
  | Some value => value
  | None => defaultValue
  end.

Definition LoadConfig (environ : Environ) : Config :=
  {| KeycloakURL := getEnv environ "KEYCLOAK_URL" "http://localhost:8080";
     KeycloakRealm := getEnv environ "KEYCLOAK_REALM" "master";
     KeycloakUsername := getEnv environ "KEYCLOAK_USERNAME" "admin";
     KeycloakPassword := getEnv environ "KEYCLOAK_PASSWORD" "admin" |}.
End config.
Import config.

(** ** package models *)
Module models.
(** Modelled from the spec: the declaration of [models.User], which is not
    among the sources (section 3: a user is an identifier, a username, an
    email, a first and a last name; the tests build one with the fields
    [ID], [Username] and [Email]).  An identifier that is absent is Go's
    empty string. *)
Record User := {
  User_ID : string;
  Username : string;
  Email : string;
  FirstName : string;
  LastName : string
}.

(** Modelled from the spec: the declaration of [models.Group], which is not
    among the sources (section 3: a group is an identifier and a name; the
    tests build one with the fields [ID] and [Name]). *)
Record Group := {
  Group_ID : string;
  Name : string
}.

(** [models.GroupWithUsers] *)
Record GroupWithUsers := {
  Group_ : Group;
  Users : list User
}.
End models.
Import models.

(** ** net/http, as far as the service uses it *)
Module http.
Definition StatusOK := 200.
Definition StatusCreated := 201.
Definition StatusNoContent := 204.
Definition StatusBadRequest := 400.
Definition StatusUnauthorized := 401.
Definition StatusNotFound := 404.
Definition StatusInternalServerError := 500.

(** [http.Header], with [Set] replacing and [Add] appending. *)
Definition Header := list (string * string).

Definition Header_Set (h : Header) (key value : string) : Header :=
  (filter (fun kv => negb (String.eqb (fst kv) key)) h ++ [(key, value)])%list.

Definition Header_Add (h : Header) (key value : string) : Header :=
  (h ++ [(key, value)])%list.

Fixpoint Header_Get (h : Header) (key : string) : string :=
  match h with
  | [] => EmptyString
  | (k', v) :: rest => if String.eqb k' key then v else Header_Get rest key
  end.

Record Request := {
  Method : string;
  URL : string;
  Headers : Header;
  Payload : option string
}.

Definition set_Headers (req : Request) (h : Header) : Request :=
  {| Method := Method req; URL := URL req; Headers := h; Payload := Payload req |}.

(** A response body is a stream: reading it to the end gives the bytes
    received and, when the connection broke, the read error. *)
Record Body := {
  bytes : string;
  readErr : option error
}.

Record Response := {
  StatusCode : Z;
  RespBody : Body
}.
End http.
Import http.

Module ioutil.
(** [ioutil.ReadAll]: the data read and the error that stopped the read. *)
Definition ReadAll (b : Body) : string * option error := (bytes b, readErr b).
End ioutil.

(** zerolog's global logger: the level and the message of each event, with
    the error attached by [Err(err)]. *)
Inductive LogLevel := LInfo | LError.
Record LogEvent := {
  level : LogLevel;
  attached : option error;
  msg : string
}.

(** ** The environment of the program *)

(** What the code takes from outside the repository. *)
Class Platform := {
  (* the network and the identity backend behind it *)
  W : Type;
  (* http.Client.Do: a transport error, or the response whatever its status *)
  client_Do : Request -> W -> result Response * W;
  (* the error of http.NewRequest for a method and a URL, if any *)
  NewRequest_err : string -> string -> option error;
  (* json.Marshal *)
  json_Marshal_User : User -> result string;
  json_Marshal_Group : Group -> result string;
  (* json.Unmarshal into a map, a []models.User, a []models.Group *)
  json_Unmarshal_object : string -> result object;
  json_Unmarshal_Users : string -> result (list User);
  json_Unmarshal_Groups : string -> result (list Group);
  (* json.NewDecoder(body).Decode into a map, a user, a group *)
  json_Decode_object : Body -> result object;
  json_Decode_User : Body -> result User;
  json_Decode_Group : Body -> result Group;
  (* fmt's verb %v on a map[string]interface{} *)
  fmt_v_object : object -> string;
  (* gin's c.ShouldBindJSON on the body of the inbound request *)
  ShouldBindJSON_User : string -> result User;
  ShouldBindJSON_Group : string -> result Group
}.

(** ** A state monad for the code that reads and writes the service *)

Definition stateM (S A : Type) : Type := S -> A * S.

Definition ret {S A} (a : A) : stateM S A := fun s => (a, s).

Definition bind {S A B} (m : stateM S A) (f : A -> stateM S B) : stateM S B :=
  fun s => let (a, s') := m s in f a s'.

Notation "x <- m ;; k" := (bind m (fun x => k))
  (at level 61, m at next level, right associativity).
Notation "m ;; k" := (bind m (fun _ => k))
  (at level 61, right associativity).
(** Go's [x, err := f(); if err != nil { return nil, err }], for a call that
    touches the state and for one that does not. *)
Notation "'try' x <- m ;; k" :=
  (bind m (fun r => match r with Err err => ret (Err err) | Ok x => k end))
  (at level 61, x name, m at next level, right associativity).
Notation "'try' x <-- r ;; k" :=
  (match r with Err err => ret (Err err) | Ok x => k end)
  (at level 61, x name, r at next level, right associativity).

(** ** package services *)
Module services.
Section Service.
Context {P : Platform}.

Record KeycloakService := {
  config : Config;
  token : string
}.

(** The service, the outside world, and two ghost logs: every request
    handed to [client.Do], oldest first, and every log event. *)
Record State := {
  svc : KeycloakService;
  net : W;
  calls : list Request;
  logs : list LogEvent
}.

Definition M (A : Type) : Type := stateM State A.

Definition getConfig : M Config := fun s => (config (svc s), s).

Definition getToken : M string := fun s => (token (svc s), s).

(** [k.token = t] *)
Definition setToken (t : string) : M unit := fun s =>
  (tt, {| svc := {| config := config (svc s); token := t |};
          net := net s; calls := calls s; logs := logs s |}).

(** [k.client.Do(req)] *)
Definition clientDo (req : Request) : M (result Response) := fun s =>
  let (r, w') := client_Do req (net s) in
  (r, {| svc := svc s; net := w'; calls := (calls s ++ [req])%list; logs := logs s |}).

Definition logEvent (l : LogLevel) (e : option error) (m : string) : M unit := fun s =>
  (tt, {| svc := svc s; net := net s; calls := calls s;
          logs := (logs s ++ [{| level := l; attached := e; msg := m |}])%list |}).

(** [http.NewRequest(method, url, body)] *)
Definition NewRequest (method url : string) (body : option string) : result Request :=
  match NewRequest_err method url with
  | Some err => Err err
  | None => Ok {| Method := method; URL := url; Headers := []; Payload := body |}
  end.

(** [getAdminToken] returns Go's pair as it is: [NewKeycloakService] stores
    the string whatever the error. *)
Definition getAdminToken : M (string * option error) :=
  cfg <- getConfig ;;
  let url := KeycloakURL cfg ++ "/realms/" ++ KeycloakRealm cfg
             ++ "/protocol/openid-connect/token" in
  let data := "grant_type=password&client_id=admin-cli&username="
              ++ KeycloakUsername cfg ++ "&password=" ++ KeycloakPassword cfg in
  match NewRequest "POST" url (Some data) with
  | Err err => ret (EmptyString, Some err)
  | Ok req =>
    let req := set_Headers req
                 (Header_Add (Headers req) "Content-Type" "application/x-www-form-urlencoded") in
    r <- clientDo req ;;
    match r with
    | Err err => ret (EmptyString, Some err)
    | Ok resp =>
      if negb (StatusCode resp =? StatusOK)%Z then
        let (bodyBytes, _) := ioutil.ReadAll (RespBody resp) in
        ret (EmptyString, Some ("failed to get token, status: " ++ fmt_d (StatusCode resp)
                       ++ ", response: " ++ bodyBytes ++ " " ++ KeycloakUsername cfg))
      else
        match json_Decode_object (RespBody resp) with
        | Err err => ret (EmptyString, Some err)
        | Ok result =>
          match object_get result "access_token" with
          | Some (JString token) => ret (token, None)
          | _ => ret (EmptyString, Some "access token not found")
          end
        end
    end
  end.

(** [NewKeycloakService(cfg)], run in a world [w] with the ghost logs
    [cs] and [ls]: the new service and the world it leaves. *)
Definition NewKeycloakService (cfg : Config) (w : W) (cs : list Request)
    (ls : list LogEvent) : State :=
  let service := {| config := cfg; token := EmptyString |} in
  snd ((r <- getAdminToken ;;
        let (token, err) := (r : string * option error) in
        match err with
        | Some err => logEvent LError (Some err) "Failed to get admin token from Keycloak"
        | None => ret tt
        end ;;
        setToken token)
       {| svc := service; net := w; calls := cs; logs := ls |}).

Definition doRequest (req : Request) : M (result Response) :=
  tok <- getToken ;;
  let req := set_Headers req (Header_Set (Headers req) "Authorization" ("Bearer " ++ tok)) in
  r <- clientDo req ;;
  match r with
  | Err err => ret (Err err)
  | Ok resp =>
    if (StatusCode resp =? StatusUnauthorized)%Z then
      logEvent LInfo None "Token expired. Refreshing token and retrying request." ;;
      r <- getAdminToken ;;
      let (newToken, err) := (r : string * option error) in
      match err with
      | Some err => ret (Err ("failed to refresh token: " ++ err))
      | None =>
        setToken newToken ;;
        tok <- getToken ;;
        let req := set_Headers req
                     (Header_Set (Headers req) "Authorization" ("Bearer " ++ tok)) in
        clientDo req
      end
    else ret (Ok resp)
  end.

(** *** User CRUD operations *)

Definition ListUsers : M (result (list User)) :=
  cfg <- getConfig ;;
  let url := KeycloakURL cfg ++ "/admin/realms/" ++ KeycloakRealm cfg ++ "/users" in
  try req <-- NewRequest "GET" url None ;;
  try resp <- doRequest req ;;
  let (body, err) := ioutil.ReadAll (RespBody resp) in
  match err with
  | Some err => ret (Err err)
  | None =>
    if negb (StatusCode resp =? StatusOK)%Z then
      match json_Unmarshal_object body with
      | Err _ => ret (Err ("failed to list users: status " ++ fmt_d (StatusCode resp)
                           ++ ", unable to parse error"))
      | Ok errResp => ret (Err ("failed to list users: " ++ fmt_v_object errResp))
      end
    else
      match json_Unmarshal_Users body with
      | Err err =>
        logEvent LError None ("Unable to decode response into []models.User: " ++ body) ;;
        ret (Err ("json: " ++ err))
      | Ok users => ret (Ok users)
      end
  end.

Definition CreateUser (user : User) : M (result User) :=
  cfg <- getConfig ;;
  let url := KeycloakURL cfg ++ "/admin/realms/" ++ KeycloakRealm cfg ++ "/users" in
  try payload <-- json_Marshal_User user ;;
  try req <-- NewRequest "POST" url (Some payload) ;;
  let req := set_Headers req (Header_Add (Headers req) "Content-Type" "application/json") in
  try resp <- doRequest req ;;
  if negb (StatusCode resp =? StatusCreated)%Z && negb (StatusCode resp =? StatusNoContent)%Z then
    let (bodyBytes, _) := ioutil.ReadAll (RespBody resp) in
    ret (Err ("failed to create user, status: " ++ fmt_d (StatusCode resp)
              ++ ", response: " ++ bodyBytes))
  else ret (Ok user).

Definition GetUser (id : string) : M (result User) :=
  cfg <- getConfig ;;
  let url := KeycloakURL cfg ++ "/admin/realms/" ++ KeycloakRealm cfg ++ "/users/" ++ id in
  try req <-- NewRequest "GET" url None ;;
  try resp <- doRequest req ;;
  if negb (StatusCode resp =? StatusOK)%Z then
    ret (Err ("user not found, status: " ++ fmt_d (StatusCode resp)))
  else
    match json_Decode_User (RespBody resp) with
    | Err err => ret (Err err)
    | Ok user => ret (Ok user)
    end.

Definition SearchUserByEmail (email : string) : M (result (list User)) :=
  cfg <- getConfig ;;
  let url := KeycloakURL cfg ++ "/admin/realms/" ++ KeycloakRealm cfg ++ "/users?email=" ++ email in
  try req <-- NewRequest "GET" url None ;;
  try resp <- doRequest req ;;
  let (body, err) := ioutil.ReadAll (RespBody resp) in
  match err with
  | Some err => ret (Err err)
  | None =>
    if negb (StatusCode resp =? StatusOK)%Z then
      match json_Unmarshal_object body with
      | Err _ => ret (Err ("failed to search users: status " ++ fmt_d (StatusCode resp)
                           ++ ", unable to parse error"))
      | Ok errResp => ret (Err ("failed to search users: " ++ fmt_v_object errResp))
      end
    else
      match json_Unmarshal_Users body with
      | Err err =>
        logEvent LError None ("Unable to decode response into []models.User: " ++ body) ;;
        ret (Err ("json: " ++ err))
      | Ok users => ret (Ok users)
      end
  end.

Definition UpdateUser (id : string) (user : User) : M (result User) :=
  cfg <- getConfig ;;
  let url := KeycloakURL cfg ++ "/admin/realms/" ++ KeycloakRealm cfg ++ "/users/" ++ id in
  try payload <-- json_Marshal_User user ;;
  try req <-- NewRequest "PUT" url (Some payload) ;;
  let req := set_Headers req (Header_Add (Headers req) "Content-Type" "application/json") in
  try resp <- doRequest req ;;
  if negb (StatusCode resp =? StatusNoContent)%Z then
    let (bodyBytes, _) := ioutil.ReadAll (RespBody resp) in
    ret (Err ("failed to update user, status: " ++ fmt_d (StatusCode resp)
              ++ ", response: " ++ bodyBytes))
  else ret (Ok user).

Definition DeleteUser (id : string) : M (option error) :=
  cfg <- getConfig ;;
  let url := KeycloakURL cfg ++ "/admin/realms/" ++ KeycloakRealm cfg ++ "/users/" ++ id in
  match NewRequest "DELETE" url None with
  | Err err => ret (Some err)
  | Ok req =>
    r <- doRequest req ;;
    match r with
    | Err err => ret (Some err)
    | Ok resp =>
      if negb (StatusCode resp =? StatusNoContent)%Z then
        let (bodyBytes, _) := ioutil.ReadAll (RespBody resp) in
        ret (Some ("failed to delete user, status: " ++ fmt_d (StatusCode resp)
                   ++ ", response: " ++ bodyBytes))
      else ret None
    end
  end.

(** *** Group CRUD operations *)

Definition ListGroups : M (result (list Group)) :=
  cfg <- getConfig ;;
  let url := KeycloakURL cfg ++ "/admin/realms/" ++ KeycloakRealm cfg ++ "/groups" in
  try req <-- NewRequest "GET" url None ;;
  try resp <- doRequest req ;;
  let (body, err) := ioutil.ReadAll (RespBody resp) in
  match err with
  | Some err => ret (Err err)
  | None =>
    if negb (StatusCode resp =? StatusOK)%Z then
      match json_Unmarshal_object body with
      | Err _ => ret (Err ("failed to list groups: status " ++ fmt_d (StatusCode resp)
                           ++ ", unable to parse error"))
      | Ok errResp => ret (Err ("failed to list groups: " ++ fmt_v_object errResp))
      end
    else
      match json_Unmarshal_Groups body with
      | Err err =>
        logEvent LError None ("Unable to decode response into []models.Group: " ++ body) ;;
        ret (Err ("json: " ++ err))
      | Ok groups => ret (Ok groups)
      end
  end.

Definition CreateGroup (group : Group) : M (result Group) :=
  cfg <- getConfig ;;
  let url := KeycloakURL cfg ++ "/admin/realms/" ++ KeycloakRealm cfg ++ "/groups" in
  try payload <-- json_Marshal_Group group ;;
  try req <-- NewRequest "POST" url (Some payload) ;;
  let req := set_Headers req (Header_Add (Headers req) "Content-Type" "application/json") in
  try resp <- doRequest req ;;
  if negb (StatusCode resp =? StatusCreated)%Z && negb (StatusCode resp =? StatusNoContent)%Z then
    let (bodyBytes, _) := ioutil.ReadAll (RespBody resp) in
    ret (Err ("failed to create group, status: " ++ fmt_d (StatusCode resp)
              ++ ", response: " ++ bodyBytes))
  else ret (Ok group).

Definition GetGroup (id : string) : M (result Group) :=
  cfg <- getConfig ;;
  let url := KeycloakURL cfg ++ "/admin/realms/" ++ KeycloakRealm cfg ++ "/groups/" ++ id in
  try req <-- NewRequest "GET" url None ;;
  try resp <- doRequest req ;;
  if negb (StatusCode resp =? StatusOK)%Z then
    ret (Err ("group not found, status: " ++ fmt_d (StatusCode resp)))
  else
    match json_Decode_Group (RespBody resp) with
    | Err err => ret (Err err)
    | Ok group => ret (Ok group)
    end.

Definition UpdateGroup (id : string) (group : Group) : M (result Group) :=
  cfg <- getConfig ;;
  let url := KeycloakURL cfg ++ "/admin/realms/" ++ KeycloakRealm cfg ++ "/groups/" ++ id in
  try payload <-- json_Marshal_Group group ;;
  try req <-- NewRequest "PUT" url (Some payload) ;;
  let req := set_Headers req (Header_Add (Headers req) "Content-Type" "application/json") in
  try resp <- doRequest req ;;
  if negb (StatusCode resp =? StatusNoContent)%Z then
    let (bodyBytes, _) := ioutil.ReadAll (RespBody resp) in
    ret (Err ("failed to update group, status: " ++ fmt_d (StatusCode resp)
              ++ ", response: " ++ bodyBytes))
  else ret (Ok group).

Definition DeleteGroup (id : string) : M (option error) :=
  cfg <- getConfig ;;
  let url := KeycloakURL cfg ++ "/admin/realms/" ++ KeycloakRealm cfg ++ "/groups/" ++ id in
  match NewRequest "DELETE" url None with
  | Err err => ret (Some err)
  | Ok req =>
    r <- doRequest req ;;
    match r with
    | Err err => ret (Some err)
    | Ok resp =>
      if negb (StatusCode resp =? StatusNoContent)%Z then
        let (bodyBytes, _) := ioutil.ReadAll (RespBody resp) in
        ret (Some ("failed to delete group, status: " ++ fmt_d (StatusCode resp)
                   ++ ", response: " ++ bodyBytes))
      else ret None
    end
  end.

(** *** Membership functions *)

Definition ListUserGroups (userID : string) : M (result (list Group)) :=
  cfg <- getConfig ;;
  let url := KeycloakURL cfg ++ "/admin/realms/" ++ KeycloakRealm cfg ++ "/users/" ++ userID ++ "/groups" in
  try req <-- NewRequest "GET" url None ;;
  try resp <- doRequest req ;;
  let (body, err) := ioutil.ReadAll (RespBody resp) in
  match err with
  | Some err => ret (Err err)
  | None =>
    if negb (StatusCode resp =? StatusOK)%Z then
      match json_Unmarshal_object body with
      | Err _ => ret (Err ("failed to list user groups: status " ++ fmt_d (StatusCode resp)
                           ++ ", unable to parse error"))
      | Ok errResp => ret (Err ("failed to list user groups: " ++ fmt_v_object errResp))
      end
    else
      match json_Unmarshal_Groups body with
      | Err err =>
        logEvent LError None ("Unable to decode response into []models.Group: " ++ body) ;;
        ret (Err ("json: " ++ err))
      | Ok groups => ret (Ok groups)
      end
  end.

Definition AddUserToGroup (userID groupID : string) : M (option error) :=
  cfg <- getConfig ;;
  let url := KeycloakURL cfg ++ "/admin/realms/" ++ KeycloakRealm cfg ++ "/users/" ++ userID ++ "/groups/" ++ groupID in
  match NewRequest "PUT" url None with
  | Err err => ret (Some err)
  | Ok req =>
    r <- doRequest req ;;
    match r with
    | Err err => ret (Some err)
    | Ok resp =>
      if negb (StatusCode resp =? StatusNoContent)%Z then
        let (bodyBytes, _) := ioutil.ReadAll (RespBody resp) in
        ret (Some ("failed to add user to group, status: " ++ fmt_d (StatusCode resp)
                   ++ ", response: " ++ bodyBytes))
      else ret None
    end
  end.

Definition RemoveUserFromGroup (userID groupID : string) : M (option error) :=
  cfg <- getConfig ;;
  let url := KeycloakURL cfg ++ "/admin/realms/" ++ KeycloakRealm cfg ++ "/users/" ++ userID ++ "/groups/" ++ groupID in
  match NewRequest "DELETE" url None with
  | Err err => ret (Some err)
  | Ok req =>
    r <- doRequest req ;;
    match r with
    | Err err => ret (Some err)
    | Ok resp =>
      if negb (StatusCode resp =? StatusNoContent)%Z then
        let (bodyBytes, _) := ioutil.ReadAll (RespBody resp) in
        ret (Some ("failed to remove user from group, status: " ++ fmt_d (StatusCode resp)
                   ++ ", response: " ++ bodyBytes))
      else ret None
    end
  end.

Definition ListGroupUsers (groupID : string) : M (result (list User)) :=
  cfg <- getConfig ;;
  let url := KeycloakURL cfg ++ "/admin/realms/" ++ KeycloakRealm cfg ++ "/groups/" ++ groupID ++ "/members" in
  try req <-- NewRequest "GET" url None ;;
  try resp <- doRequest req ;;
  let (body, err) := ioutil.ReadAll (RespBody resp) in
  match err with
  | Some err => ret (Err err)
  | None =>
    if negb (StatusCode resp =? StatusOK)%Z then
      match json_Unmarshal_object body with
      | Err _ => ret (Err ("failed to list group users: status " ++ fmt_d (StatusCode resp)
                           ++ ", unable to parse error"))
      | Ok errResp => ret (Err ("failed to list group users: " ++ fmt_v_object errResp))
      end
    else
      match json_Unmarshal_Users body with
      | Err err =>
        logEvent LError None ("Unable to decode response into []models.User: " ++ body) ;;
        ret (Err ("json: " ++ err))
      | Ok users => ret (Ok users)
      end
  end.

Definition AddUserToGroupByEmail (email groupID : string) : M (option error) :=
  r <- SearchUserByEmail email ;;
  match r with
  | Err err => ret (Some ("error searching user by email: " ++ err))
  | Ok users =>
    if (length users =? 0)%nat then
      ret (Some "no user found with the provided email")
    else if (1 <? length users)%nat then
      ret (Some "multiple users found with the provided email")
    else
      match users with
      | u0 :: _ => AddUserToGroup (User_ID u0) groupID
      | [] => ret None (* users[0] out of range: excluded by the first test *)
      end
  end.

(** The body of the [for _, group := range groups] loop of
    [ListGroupsWithUsers], with [result] the slice built so far. *)
Fixpoint ListGroupsWithUsers_loop (groups : list Group) (result0 : list GroupWithUsers)
    : M (result (list GroupWithUsers)) :=
  match groups with
  | [] => ret (Ok result0)
  | group :: rest =>
    r <- ListGroupUsers (Group_ID group) ;;
    match r with
    | Err err =>
      ret (Err ("failed to get users for group " ++ Group_ID group ++ ": " ++ err))
    | Ok users =>
      ListGroupsWithUsers_loop rest
        (result0 ++ [{| Group_ := group; Users := users |}])%list
    end
  end.

Definition ListGroupsWithUsers : M (result (list GroupWithUsers)) :=
  try groups <- ListGroups ;;
  ListGroupsWithUsers_loop groups [].

(** *** Testing helpers *)

Definition SetToken (token : string) : M unit := setToken token.
End Service.
End services.

(** ** package handlers *)
Module handlers.
Section Handlers.
Context {P : Platform}.

Definition M (A : Type) : Type := services.M A.

(** The inbound side of a [gin.Context]: the path parameters, the query
    string and the body of the request. *)
Record gin_Context := {
  Params : list (string * string);
  QueryArgs : list (string * string);
  InBody : string
}.

Fixpoint lookup_or_empty (kvs : list (string * string)) (key : string) : string :=
  match kvs with
  | [] => EmptyString
  | (k', v) :: rest => if String.eqb k' key then v else lookup_or_empty rest key
  end.

Definition Param (c : gin_Context) (key : string) : string :=
  lookup_or_empty (Params c) key.

Definition Query (c : gin_Context) (key : string) : string :=
  lookup_or_empty (QueryArgs c) key.

(** The value handed to [c.JSON]. *)
Inductive JSONValue : Type :=
| H_error (message : string)  (* gin.H{"error": message} *)
| J_Users (users : list User)
| J_User (user : User)
| J_Groups (groups : list Group)
| J_Group (group : Group)
| J_GroupsWithUsers (groupsWithUsers : list GroupWithUsers)
| J_nil.

(** The outbound side: the one call of [c.JSON(code, obj)] a handler makes. *)
Record Reply := {
  code : Z;
  obj : JSONValue
}.

Definition c_JSON (status : Z) (v : JSONValue) : M Reply :=
  ret {| code := status; obj := v |}.

Definition log_Error (err : error) (m : string) : M unit :=
  services.logEvent LError (Some err) m.

(** *** UserHandler *)

Definition ListUsers (c : gin_Context) : M Reply :=
  r <- services.ListUsers ;;
  match r with
  | Err err =>
    log_Error err "Error listing users" ;;
    c_JSON StatusInternalServerError (H_error err)
  | Ok users => c_JSON StatusOK (J_Users users)
  end.

Definition CreateUser (c : gin_Context) : M Reply :=
  match ShouldBindJSON_User (InBody c) with
  | Err err => c_JSON StatusBadRequest (H_error err)
  | Ok user =>
    r <- services.CreateUser user ;;
    match r with
    | Err err =>
      log_Error err "Error creating user" ;;
      c_JSON StatusInternalServerError (H_error err)
    | Ok createdUser => c_JSON StatusCreated (J_User createdUser)
    end
  end.

Definition GetUser (c : gin_Context) : M Reply :=
  let id := Param c "id" in
  r <- services.GetUser id ;;
  match r with
  | Err err =>
    log_Error err "Error fetching user" ;;
    c_JSON StatusNotFound (H_error err)
  | Ok user => c_JSON StatusOK (J_User user)
  end.

Definition SearchUserByEmail (c : gin_Context) : M Reply :=
  let email := Query c "email" in
  if String.eqb email EmptyString then
    c_JSON StatusBadRequest (H_error "email query parameter is required")
  else
    r <- services.SearchUserByEmail email ;;
    match r with
    | Err err =>
      log_Error err "Error searching user by email" ;;
      c_JSON StatusInternalServerError (H_error err)
    | Ok users => c_JSON StatusOK (J_Users users)
    end.

Definition UpdateUser (c : gin_Context) : M Reply :=
  let id := Param c "id" in
  match ShouldBindJSON_User (InBody c) with
  | Err err => c_JSON StatusBadRequest (H_error err)
  | Ok user =>
    r <- services.UpdateUser id user ;;
    match r with
    | Err err =>
      log_Error err "Error updating user" ;;
      c_JSON StatusInternalServerError (H_error err)
    | Ok updatedUser => c_JSON StatusOK (J_User updatedUser)
    end
  end.

Definition DeleteUser (c : gin_Context) : M Reply :=
  let id := Param c "id" in
  r <- services.DeleteUser id ;;
  match r with
  | Some err =>
    log_Error err "Error deleting user" ;;
    c_JSON StatusInternalServerError (H_error err)
  | None => c_JSON StatusNoContent J_nil
  end.

(** *** GroupHandler *)

Definition ListGroups (c : gin_Context) : M Reply :=
  r <- services.ListGroups ;;
  match r with
  | Err err =>
    log_Error err "Error listing groups" ;;
    c_JSON StatusInternalServerError (H_error err)
  | Ok groups => c_JSON StatusOK (J_Groups groups)
  end.

Definition CreateGroup (c : gin_Context) : M Reply :=
  match ShouldBindJSON_Group (InBody c) with
  | Err err => c_JSON StatusBadRequest (H_error err)
  | Ok group =>
    r <- services.CreateGroup group ;;
    match r with
    | Err err =>
      log_Error err "Error creating group" ;;
      c_JSON StatusInternalServerError (H_error err)
    | Ok createdGroup => c_JSON StatusCreated (J_Group createdGroup)
    end
  end.

Definition ListGroupsWithUsers (c : gin_Context) : M Reply :=
  r <- services.ListGroupsWithUsers ;;
  match r with
  | Err err =>
    log_Error err "Error listing groups with users" ;;
    c_JSON StatusInternalServerError (H_error err)
  | Ok groupsWithUsers => c_JSON StatusOK (J_GroupsWithUsers groupsWithUsers)
  end.

Definition GetGroup (c : gin_Context) : M Reply :=
  let id := Param c "id" in
  r <- services.GetGroup id ;;
  match r with
  | Err err =>
    log_Error err "Error fetching group" ;;
    c_JSON StatusNotFound (H_error err)
  | Ok group => c_JSON StatusOK (J_Group group)
  end.

Definition UpdateGroup (c : gin_Context) : M Reply :=
  let id := Param c "id" in
  match ShouldBindJSON_Group (InBody c) with
  | Err err => c_JSON StatusBadRequest (H_error err)
  | Ok group =>
    r <- services.UpdateGroup id group ;;
    match r with
    | Err err =>
      log_Error err "Error updating group" ;;
      c_JSON StatusInternalServerError (H_error err)
    | Ok updatedGroup => c_JSON StatusOK (J_Group updatedGroup)
    end
  end.

Definition DeleteGroup (c : gin_Context) : M Reply :=
  let id := Param c "id" in
  r <- services.DeleteGroup id ;;
  match r with
  | Some err =>
    log_Error err "Error deleting group" ;;
    c_JSON StatusInternalServerError (H_error err)
  | None => c_JSON StatusNoContent J_nil
  end.

(** *** MembershipHandler *)

Definition ListUserGroups (c : gin_Context) : M Reply :=
  let userID := Param c "id" in
  r <- services.ListUserGroups userID ;;
  match r with
  | Err err =>
    log_Error err "Error listing groups for user" ;;
    c_JSON StatusInternalServerError (H_error err)
  | Ok groups => c_JSON StatusOK (J_Groups groups)
  end.

Definition AddUserToGroup (c : gin_Context) : M Reply :=
  let userID := Param c "id" in
  let groupID := Param c "groupId" in
  r <- services.AddUserToGroup userID groupID ;;
  match r with
  | Some err =>
    log_Error err "Error adding user to group" ;;
    c_JSON StatusInternalServerError (H_error err)
  | None => c_JSON StatusNoContent J_nil
  end.

Definition AddUserToGroupByEmail (c : gin_Context) : M Reply :=
  let email := Param c "email" in
  let groupID := Param c "groupId" in
  if String.eqb email EmptyString || String.eqb groupID EmptyString then
    c_JSON StatusBadRequest (H_error "email and groupId are required")
  else
    r <- services.SearchUserByEmail email ;;
    match r with
    | Err err =>
      log_Error err "Error searching user by email" ;;
      c_JSON StatusInternalServerError (H_error err)
    | Ok users =>
      if (length users =? 0)%nat then
        c_JSON StatusNotFound (H_error "no user found with the provided email")
      else if (1 <? length users)%nat then
        c_JSON StatusBadRequest (H_error "multiple users found with the provided email")
      else
        match users with
        | u0 :: _ =>
          let userID := User_ID u0 in
          r <- services.AddUserToGroup userID groupID ;;
          match r with
          | Some err =>
            log_Error err "Error adding user to group by email" ;;
            c_JSON StatusInternalServerError (H_error err)
          | None => c_JSON StatusNoContent J_nil
          end
        | [] => c_JSON StatusNoContent J_nil (* users[0] out of range: excluded above *)
        end
    end.

Definition RemoveUserFromGroup (c : gin_Context) : M Reply :=
  let userID := Param c "id" in
  let groupID := Param c "groupId" in
  r <- services.RemoveUserFromGroup userID groupID ;;
  match r with
  | Some err =>
    log_Error err "Error removing user from group" ;;
    c_JSON StatusInternalServerError (H_error err)
  | None => c_JSON StatusNoContent J_nil
  end.

Definition ListGroupUsers (c : gin_Context) : M Reply :=
  let groupID := Param c "id" in
  r <- services.ListGroupUsers groupID ;;
  match r with
  | Err err =>
    log_Error err "Error listing users in group" ;;
    c_JSON StatusInternalServerError (H_error err)
  | Ok users => c_JSON StatusOK (J_Users users)
  end.
End Handlers.
End handlers.

(** ** package middleware *)
Module strings.
(** [strings.Split(s, sep)] for a separator of one byte: the pieces of [s]
    between the separators, one more than there are separators. *)
Fixpoint Split (s : string) (sep : ascii) : list string :=
  match s with
  | EmptyString => [EmptyString]
  | String c rest =>
    if Ascii.eqb c sep then EmptyString :: Split rest sep
    else match Split rest sep with
         | first :: more => String c first :: more
         | [] => [String c EmptyString]
         end
  end.
End strings.

Module middleware.
(** [AuthMiddleware], on the headers of the inbound request: the reply it
    aborts with, or [None] when it calls [c.Next()].  Go evaluates the
    three tests from left to right and stops at the first that holds, so
    [parts[1]] is read only when there are two parts. *)
Definition AuthMiddleware (headers : Header) : option handlers.Reply :=
  let authHeader := Header_Get headers "Authorization" in
  if String.eqb authHeader EmptyString then
    Some {| handlers.code := StatusUnauthorized;
            handlers.obj := handlers.H_error "Missing Authorization header" |}
  else
    let parts := strings.Split authHeader " "%char in
    if negb (length parts =? 2)%nat
       || negb (String.eqb (nth 0 parts EmptyString) "Bearer")
       || negb (String.eqb (nth 1 parts EmptyString) "secret-token")
    then
      Some {| handlers.code := StatusUnauthorized;
              handlers.obj := handlers.H_error "Invalid token" |}
    else None.
End middleware.

(** ** cmd/app: the start of [main] *)
Module app.
Section Main.
Context {P : Platform}.

(** [handlers.NewUserHandler], [handlers.NewGroupHandler] and
    [handlers.NewMembershipHandler]: each handler is a struct whose one
    field is a service of its own, made by [services.NewKeycloakService]. *)
Definition NewUserHandler (cfg : Config) (w : W) (cs : list Request)
    (ls : list LogEvent) : services.State :=
  services.NewKeycloakService cfg w cs ls.

Definition NewGroupHandler (cfg : Config) (w : W) (cs : list Request)
    (ls : list LogEvent) : services.State :=
  services.NewKeycloakService cfg w cs ls.

Definition NewMembershipHandler (cfg : Config) (w : W) (cs : list Request)
    (ls : list LogEvent) : services.State :=
  services.NewKeycloakService cfg w cs ls.

(** [main] up to the registration of the routes: the configuration is
    loaded and the three handlers are made one after the other, in one
    world.  The result is the three services, the last one carrying the
    world and the ghost logs at the end. *)
Definition main_handlers (environ : Environ) (w : W)
    : services.State * services.State * services.State :=
  let cfg := LoadConfig environ in
  let userHandler := NewUserHandler cfg w [] [] in
  let groupHandler :=
    NewGroupHandler cfg (services.net userHandler) (services.calls userHandler)
      (services.logs userHandler) in
  let membershipHandler :=
    NewMembershipHandler cfg (services.net groupHandler) (services.calls groupHandler)
      (services.logs groupHandler) in
  (userHandler, groupHandler, membershipHandler).
End Main.
End app.

(** ** A simulated backend

    Concrete platforms on which the functions above run: a JSON codec over
    a small directory of users and groups, and backends given by what they
    answer to the [n]-th request they receive. *)
Module sim.
Definition dq : string := String (ascii_of_nat 34) EmptyString.

Definition quoted (s : string) : string := dq ++ s ++ dq.

Definition field (key value : string) : string := quoted key ++ ":" ++ quoted value.

Definition encode_fields (m : list (string * string)) : string :=
  "{" ++ String.concat "," (map (fun kv => field (fst kv) (snd kv)) m) ++ "}".

Definition encode_User (u : User) : string :=
  encode_fields [("id", User_ID u); ("username", Username u); ("email", Email u);
                 ("firstName", FirstName u); ("lastName", LastName u)].

Definition encode_Group (g : Group) : string :=
  encode_fields [("id", Group_ID g); ("name", Name g)].

Definition encode_list {A} (enc : A -> string) (l : list A) : string :=
  "[" ++ String.concat "," (map enc l) ++ "]".

Definition strings_only (m : list (string * string)) : object :=
  map (fun kv => (fst kv, JString (snd kv))) m.

(** Decoding inverts the encoding on a finite directory of values. *)
Definition decode_from {A} (enc : A -> string) (directory : list A) (body : string)
    : result A :=
  match find (fun a => String.eqb (enc a) body) directory with
  | Some a => Ok a
  | None => Err "invalid character"
  end.

Definition decode_stream {A} (dec : string -> result A) (b : Body) : result A :=
  match readErr b with
  | Some err => Err err
  | None => dec (bytes b)
  end.

Definition alice : User :=
  {| User_ID := "1"; Username := "alice"; Email := "alice@example.com";
     FirstName := "Alice"; LastName := "Liddell" |}.

Definition bob : User :=
  {| User_ID := "2"; Username := "bob"; Email := "dup@example.com";
     FirstName := "Bob"; LastName := "Hope" |}.

Definition bobby : User :=
  {| User_ID := "3"; Username := "bobby"; Email := "dup@example.com";
     FirstName := "Bobby"; LastName := "Hope" |}.

Definition johndoe : User :=
  {| User_ID := EmptyString; Username := "johndoe"; Email := "john@example.com";
     FirstName := "John"; LastName := "Doe" |}.

Definition admins : Group := {| Group_ID := "A"; Name := "Admins" |}.

Definition staff : Group := {| Group_ID := "B"; Name := "Staff" |}.

Definition users_directory : list User := [alice; bob; bobby; johndoe].

Definition groups_directory : list Group := [admins; staff].

Definition user_lists : list (list User) := [[]; [alice]; [bob; bobby]].

Definition group_lists : list (list Group) := [[]; [admins]; [admins; staff]].

Definition token_reply : list (string * string) := [("access_token", "fresh-token")].

Definition not_found_reply : list (string * string) := [("error", "User not found")].

Definition unknown_error_reply : list (string * string) := [("error", "unknown_error")].

Definition objects_directory : list (list (string * string)) :=
  [token_reply; not_found_reply; unknown_error_reply].

Definition decode_object (body : string) : result object :=
  match decode_from encode_fields objects_directory body with
  | Ok m => Ok (strings_only m)
  | Err err => Err err
  end.

(** [%v] on a map whose values are strings: [map[k1:v1 k2:v2]]. *)
Definition fmt_v (m : object) : string :=
  "map[" ++ String.concat " "
              (map (fun kv => fst kv ++ ":" ++
                              match snd kv with JString v => v | _ => "?" end) m)
         ++ "]".

(** The platform of a backend that answers the [n]-th request it receives
    with [answer n req]. *)
Definition platform (answer : nat -> Request -> result Response) : Platform := {|
  W := nat;
  client_Do := fun req n => (answer n req, S n);
  NewRequest_err := fun _ _ => None;
  json_Marshal_User := fun u => Ok (encode_User u);
  json_Marshal_Group := fun g => Ok (encode_Group g);
  json_Unmarshal_object := decode_object;
  json_Unmarshal_Users := decode_from (encode_list encode_User) user_lists;
  json_Unmarshal_Groups := decode_from (encode_list encode_Group) group_lists;
  json_Decode_object := decode_stream decode_object;
  json_Decode_User := decode_stream (decode_from encode_User users_directory);
  json_Decode_Group := decode_stream (decode_from encode_Group groups_directory);
  fmt_v_object := fmt_v;
  ShouldBindJSON_User := decode_from encode_User users_directory;
  ShouldBindJSON_Group := decode_from encode_Group groups_directory
|}.

Definition reply (status : Z) (body : string) : result Response :=
  Ok {| StatusCode := status; RespBody := {| bytes := body; readErr := None |} |}.

Definition cfg : Config :=
  {| KeycloakURL := "http://kc"; KeycloakRealm := "master";
     KeycloakUsername := "admin"; KeycloakPassword := "admin" |}.

(** An identity backend with one valid admin token. *)
Definition keycloak (req : Request) : result Response :=
  if String.eqb (URL req) "http://kc/realms/master/protocol/openid-connect/token" then
    reply 200 (encode_fields token_reply)
  else if negb (String.eqb (Header_Get (Headers req) "Authorization") "Bearer fresh-token") then
    reply 401 EmptyString
  else if String.eqb (Method req) "GET" then
    if String.eqb (URL req) "http://kc/admin/realms/master/users" then
      reply 200 (encode_list encode_User [alice])
    else if String.eqb (URL req) "http://kc/admin/realms/master/users?email=nobody@example.com" then
      reply 200 (encode_list encode_User [])
    else if String.eqb (URL req) "http://kc/admin/realms/master/users?email=alice@example.com" then
      reply 200 (encode_list encode_User [alice])
    else if String.eqb (URL req) "http://kc/admin/realms/master/users?email=dup@example.com" then
      reply 200 (encode_list encode_User [bob; bobby])
    else if String.eqb (URL req) "http://kc/admin/realms/master/users/1" then
      reply 200 (encode_User alice)
    else if String.eqb (URL req) "http://kc/admin/realms/master/groups" then
      reply 200 (encode_list encode_Group [admins; staff])
    else if String.eqb (URL req) "http://kc/admin/realms/master/groups/A/members" then
      reply 200 (encode_list encode_User [alice])
    else if String.eqb (URL req) "http://kc/admin/realms/master/groups/B/members" then
      reply 500 (encode_fields unknown_error_reply)
    else reply 404 (encode_fields not_found_reply)
  else if String.eqb (Method req) "POST" then
    reply 201 EmptyString
  else if String.eqb (Method req) "PUT" then
    if String.eqb (URL req) "http://kc/admin/realms/master/users/9" then
      reply 200 (encode_User alice)
    else reply 204 EmptyString
  else reply 400 "bad request".

(** Four backends: a working one, one that answers 401 to everything, one
    that cannot be reached, and one that is down for the first request
    only. *)
Definition working : Platform := platform (fun _ => keycloak).

Definition always_401 : Platform := platform (fun _ _ => reply 401 EmptyString).

Definition unreachable : Platform :=
  platform (fun _ _ => Err "dial tcp: connection refused").

Definition late : Platform :=
  platform (fun n req =>
              match n with
              | O => Err "dial tcp: connection refused"
              | S _ => keycloak req
              end).

Definition start {P : Platform} (w : W) (tok : string) : services.State :=
  {| services.svc := {| services.config := cfg; services.token := tok |};
     services.net := w; services.calls := []; services.logs := [] |}.

Definition get_users : Request :=
  {| Method := "GET"; URL := "http://kc/admin/realms/master/users";
     Headers := []; Payload := None |}.
(** The same backend once the members of group B can be listed. *)
Definition keycloak_repaired (req : Request) : result Response :=
  if String.eqb (URL req) "http://kc/admin/realms/master/groups/B/members"
     && String.eqb (Header_Get (Headers req) "Authorization") "Bearer fresh-token"
  then reply 200 (encode_list encode_User [bob; bobby])
  else keycloak req.

Definition repaired : Platform := platform (fun _ => keycloak_repaired).

Definition current_repaired : @services.State repaired := @start repaired 0%nat "fresh-token".

(** A platform on which one URL cannot be parsed. *)
Definition strict : Platform := {|
  W := nat;
  client_Do := fun req n => (keycloak req, S n);
  NewRequest_err := fun _ url =>
    if String.eqb url "http://kc/admin/realms/master/users/%zz"
    then Some "invalid URL escape" else None;
  json_Marshal_User := @json_Marshal_User working;
  json_Marshal_Group := @json_Marshal_Group working;
  json_Unmarshal_object := @json_Unmarshal_object working;
  json_Unmarshal_Users := @json_Unmarshal_Users working;
  json_Unmarshal_Groups := @json_Unmarshal_Groups working;
  json_Decode_object := @json_Decode_object working;
  json_Decode_User := @json_Decode_User working;
  json_Decode_Group := @json_Decode_Group working;
  fmt_v_object := @fmt_v_object working;
  ShouldBindJSON_User := @ShouldBindJSON_User working;
  ShouldBindJSON_Group := @ShouldBindJSON_Group working
|}.

Definition current_strict : @services.State strict := @start strict 0%nat "fresh-token".

(** A backend whose listing of the users is not what the service decodes. *)
Definition garbled : Platform :=
  platform (fun _ req =>
              if String.eqb (URL req) "http://kc/admin/realms/master/users"
              then reply 200 "<html>"
              else keycloak req).

Definition current_garbled : @services.State garbled := @start garbled 0%nat "fresh-token".

(** Inbound requests. *)
Definition with_id (id : string) : handlers.gin_Context :=
  {| handlers.Params := [("id", id)]; handlers.QueryArgs := [];
     handlers.InBody := EmptyString |}.

Definition by_email (email groupID : string) : handlers.gin_Context :=
  {| handlers.Params := [("email", email); ("groupId", groupID)];
     handlers.QueryArgs := []; handlers.InBody := EmptyString |}.

Definition with_body (id body : string) : handlers.gin_Context :=
  {| handlers.Params := [("id", id)]; handlers.QueryArgs := [];
     handlers.InBody := body |}.

Definition empty_reply (status : Z) : Response :=
  {| StatusCode := status; RespBody := {| bytes := EmptyString; readErr := None |} |}.

Definition body_reply (status : Z) (body : string) : Response :=
  {| StatusCode := status; RespBody := {| bytes := body; readErr := None |} |}.

(** The states the scenarios start from. *)
Definition stale : @services.State working := @start working 0%nat "stale".

Definition stale_401 : @services.State always_401 := @start always_401 0%nat "stale".

Definition current : @services.State working := @start working 0%nat "fresh-token".

Definition offline : @services.State unreachable := @start unreachable 0%nat "fresh-token".

Definition token_request : Request :=
  {| Method := "POST"; URL := "http://kc/realms/master/protocol/openid-connect/token";
     Headers := [("Content-Type", "application/x-www-form-urlencoded")];
     Payload := Some "grant_type=password&client_id=admin-cli&username=admin&password=admin" |}.

Definition get_users_with (tok : string) : Request :=
  {| Method := "GET"; URL := "http://kc/admin/realms/master/users";
     Headers := [("Authorization", "Bearer " ++ tok)]; Payload := None |}.
End sim.

(** * Properties *)

Import services.

(** ** Vocabulary of the statements *)
Section Vocabulary.
Context {P : Platform}.

(** [req.Header.Set("Authorization", "Bearer "+tok)] *)
Definition withBearer (req : Request) (tok : string) : Request :=
  set_Headers req (Header_Set (Headers req) "Authorization" ("Bearer " ++ tok)).

(** The state once [doRequest] has logged that it is about to refresh. *)
Definition announce (s : State) : State :=
  snd (logEvent LInfo None "Token expired. Refreshing token and retrying request." s).

(** The state once [k.token = t] has run. *)
Definition store_token (t : string) (s : State) : State := snd (setToken t s).

(** The state in which [NewKeycloakService] calls [getAdminToken]. *)
Definition fresh_service (cfg : Config) (w : W) (cs : list Request) (ls : list LogEvent)
    : State :=
  {| svc := {| config := cfg; token := EmptyString |}; net := w; calls := cs; logs := ls |}.

(** The requests handed to the client between two states. *)
Definition new_calls (s s' : State) : list Request :=
  skipn (length (calls s)) (calls s').

(** The same request but for its headers. *)
Definition same_target (a b : Request) : bool :=
  String.eqb (Method a) (Method b) && String.eqb (URL a) (URL b)
  && match Payload a, Payload b with
     | Some x, Some y => String.eqb x y
     | None, None => true
     | _, _ => false
     end.

(** How many times a request went out between two states. *)
Definition sends (req : Request) (s s' : State) : nat :=
  length (filter (same_target req) (new_calls s s')).
(** The URL of an admin endpoint of the configured realm. *)
Definition admin_url (s : State) (path : string) : string :=
  KeycloakURL (config (svc s)) ++ "/admin/realms/" ++ KeycloakRealm (config (svc s)) ++ path.

(** The request a resource operation hands to [doRequest]: no header but
    the content type of its JSON body, if it has one. *)
Definition sent (method url : string) (body : option string) : Request :=
  {| Method := method; URL := url;
     Headers := match body with
                | Some _ => [("Content-Type", "application/json")]
                | None => []
                end;
     Payload := body |}.

(** From state [s], the request could be built and [doRequest] came back
    with the response [resp], leaving state [s']. *)
Definition answers (s : State) (method url : string) (body : option string)
    (resp : Response) (s' : State) : Prop :=
  NewRequest_err method url = None
  /\ doRequest (sent method url body) s = (Ok resp, s').

(** The three shapes of error the resource operations build from a response
    whose status they do not accept. *)
Definition parsed_error (what : string) (resp : Response) : error :=
  match json_Unmarshal_object (bytes (RespBody resp)) with
  | Ok errResp => "failed to " ++ what ++ ": " ++ fmt_v_object errResp
  | Err _ => "failed to " ++ what ++ ": status " ++ fmt_d (StatusCode resp)
             ++ ", unable to parse error"
  end.

Definition raw_error (what : string) (resp : Response) : error :=
  "failed to " ++ what ++ ", status: " ++ fmt_d (StatusCode resp)
  ++ ", response: " ++ bytes (RespBody resp).

Definition status_error (what : string) (resp : Response) : error :=
  what ++ " not found, status: " ++ fmt_d (StatusCode resp).

(** [fetched groups s result s']: from state [s], the member lists of
    [groups] were fetched one after the other, in this order and all with
    success, giving [result] and leaving state [s']. *)
Inductive fetched : list Group -> State -> list GroupWithUsers -> State -> Prop :=
| fetched_nil (s : State) : fetched [] s [] s
| fetched_cons (group : Group) (rest : list Group) (s s1 s2 : State)
    (users : list User) (result0 : list GroupWithUsers) :
    ListGroupUsers (Group_ID group) s = (Ok users, s1) ->
    fetched rest s1 result0 s2 ->
    fetched (group :: rest) s ({| Group_ := group; Users := users |} :: result0) s2.

(** The error of [ListGroupsWithUsers] when the fetch for [group] failed. *)
Definition abort_message (group : Group) (err : error) : error :=
  "failed to get users for group " ++ Group_ID group ++ ": " ++ err.

(** The reply of a handler that reports an error. *)
Definition error_reply (status : Z) (err : error) : handlers.Reply :=
  {| handlers.code := status; handlers.obj := handlers.H_error err |}.

(** [part] occurs in [whole]. *)
Fixpoint occurs_in (part whole : string) : bool :=
  String.prefix part whole
  || match whole with
     | EmptyString => false
     | String _ rest => occurs_in part rest
     end.
(** The error a fallible operation ended with, if any. *)
Definition failure {A} (r : result A) : option error :=
  match r with
  | Ok _ => None
  | Err err => Some err
  end.

(** The sets of statuses the operations accept. *)
Definition ok_only (status : Z) : bool := (status =? StatusOK)%Z.

Definition no_content_only (status : Z) : bool := (status =? StatusNoContent)%Z.

Definition created_or_no_content (status : Z) : bool :=
  (status =? StatusCreated)%Z || (status =? StatusNoContent)%Z.

(** [op] answers a response whose status it does not accept, and whose body
    could be read, with the decoded body when the body is a JSON object and
    with the status alone otherwise. *)
Definition surfaces_parsed {A} (op : M (result A)) (path what : string) : Prop :=
  forall s resp s',
    answers s "GET" (admin_url s path) None resp s' ->
    ok_only (StatusCode resp) = false ->
    readErr (RespBody resp) = None ->
    op s = (Err (parsed_error what resp), s').

(** [op] answers a response whose status it does not accept with the status
    and the bytes of the body, which it does not decode. *)
Definition surfaces_raw {A} (outcome : A -> option error) (op : M A)
    (method path : string) (body : option string) (accepted : Z -> bool)
    (what : string) : Prop :=
  forall s resp s',
    answers s method (admin_url s path) body resp s' ->
    accepted (StatusCode resp) = false ->
    outcome (fst (op s)) = Some (raw_error what resp) /\ snd (op s) = s'.

(** [op] answers a response whose status it does not accept with the status
    alone, whatever the body. *)
Definition surfaces_status {A} (op : M (result A)) (path what : string) : Prop :=
  forall s resp s',
    answers s "GET" (admin_url s path) None resp s' ->
    ok_only (StatusCode resp) = false ->
    op s = (Err (status_error what resp), s').

(** The handler [h] turns every error of the service operation [op] into a
    reply with this status and with the message of the error, unchanged. *)
Definition maps_error {A} (outcome : A -> option error) (op : M A)
    (h : M handlers.Reply) (status : Z) : Prop :=
  forall s err,
    outcome (fst (op s)) = Some err ->
    fst (h s) = error_reply status err.
(** The environment once [os.Setenv(key, value)] has run. *)
Definition Setenv (key value : string) (environ : Environ) : Environ :=
  fun k => if String.eqb k key then Some value else environ k.

(** The token request [getAdminToken] builds from a configuration. *)
Definition token_request_of (cfg : Config) : Request :=
  {| Method := "POST";
     URL := KeycloakURL cfg ++ "/realms/" ++ KeycloakRealm cfg
            ++ "/protocol/openid-connect/token";
     Headers := [("Content-Type", "application/x-www-form-urlencoded")];
     Payload := Some ("grant_type=password&client_id=admin-cli&username="
                      ++ KeycloakUsername cfg ++ "&password=" ++ KeycloakPassword cfg) |}.

(** What [getAdminToken] makes of the answer to its request. *)
Definition token_outcome (cfg : Config) (r : result Response) : string * option error :=
  match r with
  | Err err => (EmptyString, Some err)
  | Ok resp =>
    if (StatusCode resp =? StatusOK)%Z then
      match json_Decode_object (RespBody resp) with
      | Err err => (EmptyString, Some err)
      | Ok result =>
        match object_get result "access_token" with
        | Some (JString token) => (token, None)
        | _ => (EmptyString, Some "access token not found")
        end
      end
    else
      (EmptyString,
       Some ("failed to get token, status: " ++ fmt_d (StatusCode resp)
             ++ ", response: " ++ bytes (RespBody resp) ++ " " ++ KeycloakUsername cfg))
  end.

(** [s'] continues [s]: the same configuration, and the two ghost logs of
    [s] with more at their end. *)
Definition extends (s s' : State) : Prop :=
  config (svc s') = config (svc s)
  /\ (exists l, calls s' = (calls s ++ l)%list)
  /\ (exists l, logs s' = (logs s ++ l)%list).

(** From state [s], the request could be built and [doRequest] came back
    with the error [err], leaving state [s']. *)
Definition refused (s : State) (method url : string) (body : option string)
    (err : error) (s' : State) : Prop :=
  NewRequest_err method url = None
  /\ doRequest (sent method url body) s = (Err err, s').

(** [op] returns as they are the error of a request that cannot be built,
    without sending anything, and the error [doRequest] ends with. *)
Definition passes_failures {A} (outcome : A -> option error) (op : M A)
    (method path : string) (body : option string) : Prop :=
  (forall s err,
      NewRequest_err method (admin_url s path) = Some err ->
      outcome (fst (op s)) = Some err /\ snd (op s) = s)
  /\ (forall s err s',
         refused s method (admin_url s path) body err s' ->
         outcome (fst (op s)) = Some err /\ snd (op s) = s').

(** What a listing operation does with a response: a body that cannot be
    read gives the read error whatever the status; on 200 the decoded list
    is returned, and a body that does not decode is logged and reported. *)
Definition decodes_listing {A} (op : M (result (list A))) (path : string)
    (decode : string -> result (list A)) (gotype : string) : Prop :=
  forall s resp s',
    answers s "GET" (admin_url s path) None resp s' ->
    (forall err, readErr (RespBody resp) = Some err -> op s = (Err err, s'))
    /\ (ok_only (StatusCode resp) = true ->
        readErr (RespBody resp) = None ->
        (forall l, decode (bytes (RespBody resp)) = Ok l -> op s = (Ok l, s'))
        /\ (forall err,
               decode (bytes (RespBody resp)) = Err err ->
               op s = (Err ("json: " ++ err),
                       snd (logEvent LError None
                              ("Unable to decode response into []models." ++ gotype
                               ++ ": " ++ bytes (RespBody resp)) s')))).

(** The handler [h] answers a success of the service operation [op] with
    this status and the value the operation returned, and leaves the state
    the operation left. *)
Definition maps_success {A B} (value : A -> option B) (op : M A)
    (h : M handlers.Reply) (status : Z) (payload : B -> handlers.JSONValue) : Prop :=
  forall s v,
    value (fst (op s)) = Some v ->
    h s = ({| handlers.code := status; handlers.obj := payload v |}, snd (op s)).

(** The handler [h] logs an error of the service operation [op] once, with
    the error attached and this message, and changes nothing else. *)
Definition logs_failure {A} (outcome : A -> option error) (op : M A)
    (h : M handlers.Reply) (message : string) : Prop :=
  forall s err,
    outcome (fst (op s)) = Some err ->
    snd (h s) = snd (logEvent LError (Some err) message (snd (op s))).

(** The value a fallible operation ended with, if any. *)
Definition success {A} (r : result A) : option A :=
  match r with
  | Ok a => Some a
  | Err _ => None
  end.

(** The success of an operation that returns an error only. *)
Definition done (e : option error) : option unit :=
  match e with
  | None => Some tt
  | Some _ => None
  end.
End Vocabulary.

(** ** The authenticated request *)
Section DoRequest.
Context {P : Platform}.

Lemma Header_Get_Set (h : Header) (key value : string) :
  Header_Get (Header_Set h key value) key = value.
Proof.
  unfold Header_Set.
  induction h as [|[k' v] h IH]; simpl.
  - now rewrite String.eqb_refl.
  - destruct (String.eqb k' key) eqn:E; simpl.
    + exact IH.
    + now rewrite E.
Qed.

Lemma Header_Set_Set (h : Header) (key v1 v2 : string) :
  Header_Set (Header_Set h key v1) key v2 = Header_Set h key v2.
Proof.
  unfold Header_Set.
  rewrite filter_app. simpl. rewrite String.eqb_refl. simpl.
  rewrite app_nil_r. f_equal.
  induction h as [|[k' v] h IH]; simpl; [reflexivity|].
  destruct (String.eqb k' key) eqn:E; simpl; [exact IH|].
  rewrite E. simpl. now rewrite IH.
Qed.

Lemma withBearer_again (req : Request) (t1 t2 : string) :
  withBearer (withBearer req t1) t2 = withBearer req t2.
Proof.
  unfold withBearer, set_Headers. simpl. now rewrite Header_Set_Set.
Qed.

Lemma withBearer_Authorization (req : Request) (tok : string) :
  Header_Get (Headers (withBearer req tok)) "Authorization" = "Bearer " ++ tok.
Proof. unfold withBearer. simpl. apply Header_Get_Set. Qed.

Lemma clientDo_calls (req : Request) (s : State) :
  calls (snd (clientDo req s)) = (calls s ++ [req])%list.
Proof. unfold clientDo. now destruct (client_Do req (net s)). Qed.

Lemma clientDo_svc (req : Request) (s : State) :
  svc (snd (clientDo req s)) = svc s.
Proof. unfold clientDo. now destruct (client_Do req (net s)). Qed.

(** [getAdminToken] only reads the service. *)
Lemma getAdminToken_svc (s : State) : svc (snd (getAdminToken s)) = svc s.
Proof.
  unfold getAdminToken, bind, getConfig, ret, NewRequest.
  destruct (NewRequest_err _ _); [reflexivity|].
  match goal with |- context [clientDo ?r s] =>
    pose proof (clientDo_svc r s) as Hs; destruct (clientDo r s) as [[resp|e] s1] end;
    simpl in *; [|assumption].
  destruct (negb _); simpl; [assumption|].
  destruct (json_Decode_object _) as [m|e]; [|assumption].
  destruct (object_get m _) as [[]|]; assumption.
Qed.

(** Every error path of [getAdminToken] returns the empty string. *)
Lemma getAdminToken_error_empty (s s' : State) (t : string) (err : error) :
  getAdminToken s = ((t, Some err), s') -> t = EmptyString.
Proof.
  unfold getAdminToken, bind, getConfig, ret, NewRequest.
  destruct (NewRequest_err _ _); [congruence|].
  match goal with |- context [clientDo ?r s] =>
    destruct (clientDo r s) as [[resp|e] s1] end; [|congruence].
  destruct (negb _); simpl; [congruence|].
  destruct (json_Decode_object _) as [m|e]; [|congruence].
  destruct (object_get m _) as [[]|]; congruence.
Qed.

(** [getAdminToken] hands at most one request to the client. *)
Lemma getAdminToken_calls (s : State) :
  exists l, calls (snd (getAdminToken s)) = (calls s ++ l)%list /\ (length l <= 1)%nat.
Proof.
  unfold getAdminToken, bind, getConfig, ret, NewRequest.
  destruct (NewRequest_err _ _).
  { exists []. simpl. now rewrite app_nil_r; auto. }
  match goal with |- context [clientDo ?r s] =>
    pose proof (clientDo_calls r s) as Hc; exists [r];
    destruct (clientDo r s) as [[resp|e] s1] end; simpl in *; [|auto].
  destruct (negb _); simpl; [auto|].
  destruct (json_Decode_object _) as [m|e]; [|auto].
  destruct (object_get m _) as [[]|]; auto.
Qed.

(** [doRequest], one case per way through it. *)
Lemma doRequest_first_error (req : Request) (s s1 : State) (err : error) :
  clientDo (withBearer req (token (svc s))) s = (Err err, s1) ->
  doRequest req s = (Err err, s1).
Proof.
  intros H. unfold doRequest, bind, getToken. fold (withBearer req (token (svc s))).
  now rewrite H.
Qed.

Lemma doRequest_other_status (req : Request) (s s1 : State) (resp : Response) :
  clientDo (withBearer req (token (svc s))) s = (Ok resp, s1) ->
  StatusCode resp <> StatusUnauthorized ->
  doRequest req s = (Ok resp, s1).
Proof.
  intros H Hn. unfold doRequest, bind, getToken. fold (withBearer req (token (svc s))).
  rewrite H. apply Z.eqb_neq in Hn. now rewrite Hn.
Qed.

Lemma doRequest_refresh_failed (req : Request) (s s1 s2 : State) (resp : Response)
    (t : string) (err : error) :
  clientDo (withBearer req (token (svc s))) s = (Ok resp, s1) ->
  StatusCode resp = StatusUnauthorized ->
  getAdminToken (announce s1) = ((t, Some err), s2) ->
  doRequest req s = (Err ("failed to refresh token: " ++ err), s2).
Proof.
  intros H H401 Ht. unfold doRequest, bind, getToken.
  fold (withBearer req (token (svc s))).
  rewrite H, H401. simpl. unfold announce in Ht. simpl in Ht. now rewrite Ht.
Qed.

Lemma doRequest_refreshed (req : Request) (s s1 s2 : State) (resp : Response)
    (newToken : string) :
  clientDo (withBearer req (token (svc s))) s = (Ok resp, s1) ->
  StatusCode resp = StatusUnauthorized ->
  getAdminToken (announce s1) = ((newToken, None), s2) ->
  doRequest req s = clientDo (withBearer req newToken) (store_token newToken s2).
Proof.
  intros H H401 Ht. unfold doRequest, bind, getToken.
  fold (withBearer req (token (svc s))).
  rewrite H, H401. simpl. unfold announce in Ht. simpl in Ht. rewrite Ht. simpl.
  rewrite <- (withBearer_again req (token (svc s)) newToken). reflexivity.
Qed.
End DoRequest.

Section TokenRefresh.
Context {P : Platform}.

Lemma new_calls_app (s s' : State) (l : list Request) :
  calls s' = (calls s ++ l)%list -> new_calls s s' = l.
Proof.
  intros H. unfold new_calls. rewrite H.
  rewrite skipn_app, skipn_all, Nat.sub_diag. reflexivity.
Qed.

Lemma getAdminToken_new_calls (s : State) :
  calls (snd (getAdminToken s)) = (calls s ++ new_calls s (snd (getAdminToken s)))%list
  /\ (length (new_calls s (snd (getAdminToken s))) <= 1)%nat.
Proof.
  destruct (getAdminToken_calls s) as (l & Hl & Hlen).
  rewrite (new_calls_app _ _ _ Hl). auto.
Qed.

(** C1 (amended).  When the first response is 401 and the token acquisition
    succeeds, [doRequest] stores the new token and is from there on exactly
    one more [client.Do] of the request, now carrying the new token: the
    outcome of that second call, response or error, is the outcome of
    [doRequest], and the requests that went out are the first attempt, what
    [getAdminToken] sent, and the one retry.  When the acquisition fails,
    [doRequest] returns the refresh error and the request is not retried.
    In both cases at most three requests go out: it never loops. *)
Theorem doRequest_single_retry (req : Request) (s s1 : State) (resp : Response) :
  clientDo (withBearer req (token (svc s))) s = (Ok resp, s1) ->
  StatusCode resp = StatusUnauthorized ->
  (forall newToken s2,
      getAdminToken (announce s1) = ((newToken, None), s2) ->
      doRequest req s = clientDo (withBearer req newToken) (store_token newToken s2)
      /\ token (svc (snd (doRequest req s))) = newToken
      /\ new_calls s (snd (doRequest req s))
         = ([withBearer req (token (svc s))] ++ new_calls (announce s1) s2
            ++ [withBearer req newToken])%list)
  /\ (forall t err s2,
         getAdminToken (announce s1) = ((t, Some err), s2) ->
         doRequest req s = (Err ("failed to refresh token: " ++ err), s2)
         /\ new_calls s s2
            = ([withBearer req (token (svc s))] ++ new_calls (announce s1) s2)%list)
  /\ (length (new_calls s (snd (doRequest req s))) <= 3)%nat.
Proof.
  intros H H401.
  assert (Hc1 : calls s1 = (calls s ++ [withBearer req (token (svc s))])%list).
  { pose proof (clientDo_calls (withBearer req (token (svc s))) s) as Hc.
    now rewrite H in Hc. }
  assert (Hok : forall newToken s2,
      getAdminToken (announce s1) = ((newToken, None), s2) ->
      doRequest req s = clientDo (withBearer req newToken) (store_token newToken s2)
      /\ token (svc (snd (doRequest req s))) = newToken
      /\ new_calls s (snd (doRequest req s))
         = ([withBearer req (token (svc s))] ++ new_calls (announce s1) s2
            ++ [withBearer req newToken])%list).
  { intros newToken s2 Ht.
    rewrite (doRequest_refreshed _ _ _ _ _ _ H H401 Ht).
    split; [reflexivity|]. split.
    - now rewrite clientDo_svc.
    - apply new_calls_app. rewrite clientDo_calls. simpl.
      destruct (getAdminToken_new_calls (announce s1)) as [Hc _].
      rewrite Ht in Hc. simpl in Hc. rewrite Hc, Hc1.
      now rewrite <- !app_assoc. }
  assert (Hfail : forall t err s2,
         getAdminToken (announce s1) = ((t, Some err), s2) ->
         doRequest req s = (Err ("failed to refresh token: " ++ err), s2)
         /\ new_calls s s2
            = ([withBearer req (token (svc s))] ++ new_calls (announce s1) s2)%list).
  { intros t err s2 Ht. split.
    - exact (doRequest_refresh_failed _ _ _ _ _ _ _ H H401 Ht).
    - apply new_calls_app.
      destruct (getAdminToken_new_calls (announce s1)) as [Hc _].
      rewrite Ht in Hc. simpl in Hc. rewrite Hc, Hc1.
      now rewrite <- !app_assoc. }
  split; [exact Hok|]. split; [exact Hfail|].
  destruct (getAdminToken_new_calls (announce s1)) as [_ Hlen].
  destruct (getAdminToken (announce s1)) as [[t [err|]] s2] eqn:Ht; simpl in Hlen.
  - destruct (Hfail _ _ _ eq_refl) as [E1 E2]. rewrite E1. simpl snd.
    rewrite E2, length_app. simpl. lia.
  - destruct (Hok _ _ eq_refl) as (_ & _ & E). rewrite E.
    rewrite !length_app. simpl. lia.
Qed.
End TokenRefresh.

(** C1 (as stated, refuted).  Against a backend that answers 401 to every
    call, the first response is 401, yet the request goes out once only: the
    token request is refused too, so [doRequest] returns the refresh error
    instead of a second response, and nothing is retried. *)
Lemma doRequest_no_retry_when_refresh_fails :
  fst (clientDo (withBearer sim.get_users "stale") sim.stale_401)
    = sim.reply 401 EmptyString
  /\ sends sim.get_users sim.stale_401 (snd (doRequest sim.get_users sim.stale_401)) = 1%nat
  /\ calls (snd (doRequest sim.get_users sim.stale_401))
     = [sim.get_users_with "stale"; sim.token_request]
  /\ fst (doRequest sim.get_users sim.stale_401)
     = Err "failed to refresh token: failed to get token, status: 401, response:  admin".
Proof. split; [|split; [|split]]; vm_compute; reflexivity. Qed.

Lemma doRequest_single_retry_witness :
  (doRequest sim.get_users sim.stale
   = clientDo (withBearer sim.get_users "fresh-token")
       (store_token "fresh-token" (snd (getAdminToken (announce (snd
          (clientDo (withBearer sim.get_users "stale") sim.stale))))))
   /\ new_calls sim.stale (snd (doRequest sim.get_users sim.stale))
      = [sim.get_users_with "stale"; sim.token_request; sim.get_users_with "fresh-token"])
  /\ doRequest sim.get_users sim.stale_401
     = (Err "failed to refresh token: failed to get token, status: 401, response:  admin",
        snd (getAdminToken (announce (snd
          (clientDo (withBearer sim.get_users "stale") sim.stale_401))))).
Proof.
  split.
  - destruct (doRequest_single_retry sim.get_users sim.stale
                (snd (clientDo (withBearer sim.get_users "stale") sim.stale))
                {| StatusCode := 401;
                   RespBody := {| bytes := EmptyString; readErr := None |} |}
                eq_refl eq_refl) as [Hok _].
    destruct (Hok "fresh-token" _ eq_refl) as (E & _ & Ec).
    split; [exact E | exact Ec].
  - destruct (doRequest_single_retry sim.get_users sim.stale_401
                (snd (clientDo (withBearer sim.get_users "stale") sim.stale_401))
                {| StatusCode := 401;
                   RespBody := {| bytes := EmptyString; readErr := None |} |}
                eq_refl eq_refl) as (_ & Hfail & _).
    destruct (Hfail EmptyString
                "failed to get token, status: 401, response:  admin" _ eq_refl)
      as [E _].
    exact E.
Defined.

(** C2.  When the backend answers the first call with 401, whatever token the
    service held, the token acquisition succeeds and the backend answers the
    second call with a response (a success in particular), [doRequest]
    returns that response; afterwards the stored token is the token just
    acquired, and the retried request, the last one sent, carries it as its
    bearer credential. *)
Theorem doRequest_refresh_then_success {P : Platform} (req : Request)
    (s s1 s2 s3 : State) (resp401 resp : Response) (newToken : string) :
  clientDo (withBearer req (token (svc s))) s = (Ok resp401, s1) ->
  StatusCode resp401 = StatusUnauthorized ->
  getAdminToken (announce s1) = ((newToken, None), s2) ->
  clientDo (withBearer req newToken) (store_token newToken s2) = (Ok resp, s3) ->
  doRequest req s = (Ok resp, s3)
  /\ token (svc s3) = newToken
  /\ calls s3 = (calls s2 ++ [withBearer req newToken])%list
  /\ Header_Get (Headers (withBearer req newToken)) "Authorization" = "Bearer " ++ newToken.
Proof.
  intros H H401 Ht H2.
  rewrite (doRequest_refreshed _ _ _ _ _ _ H H401 Ht), H2.
  split; [reflexivity|].
  pose proof (clientDo_svc (withBearer req newToken) (store_token newToken s2)) as Hs.
  pose proof (clientDo_calls (withBearer req newToken) (store_token newToken s2)) as Hc.
  rewrite H2 in Hs, Hc. simpl in Hs, Hc.
  split; [now rewrite Hs|]. split; [exact Hc|].
  apply withBearer_Authorization.
Qed.

Lemma doRequest_refresh_then_success_witness :
  doRequest sim.get_users sim.stale
  = (sim.reply 200 (sim.encode_list sim.encode_User [sim.alice]),
     snd (doRequest sim.get_users sim.stale))
  /\ token (svc (snd (doRequest sim.get_users sim.stale))) = "fresh-token".
Proof.
  destruct (doRequest_refresh_then_success sim.get_users sim.stale
              (snd (clientDo (withBearer sim.get_users "stale") sim.stale))
              (snd (getAdminToken (announce (snd
                 (clientDo (withBearer sim.get_users "stale") sim.stale)))))
              (snd (doRequest sim.get_users sim.stale))
              {| StatusCode := 401;
                 RespBody := {| bytes := EmptyString; readErr := None |} |}
              {| StatusCode := 200;
                 RespBody := {| bytes := sim.encode_list sim.encode_User [sim.alice];
                                readErr := None |} |}
              "fresh-token" eq_refl eq_refl eq_refl eq_refl) as (E & Et & _).
  split; [exact E | exact Et].
Defined.

(** C9.  [doRequest] writes the stored token in one case only: the first
    response is 401 and the token acquisition succeeds, and then the field
    holds the acquired token.  After a transport failure of the first call,
    a first response with any other status (successes and errors alike), or
    a failed acquisition, the field holds what it held before. *)
Theorem doRequest_token_frame {P : Platform} (req : Request) (s : State) :
  let first := clientDo (withBearer req (token (svc s))) s in
  let final := snd (doRequest req s) in
  (forall resp newToken s2,
      fst first = Ok resp -> StatusCode resp = StatusUnauthorized ->
      getAdminToken (announce (snd first)) = ((newToken, None), s2) ->
      token (svc final) = newToken)
  /\ (forall err, fst first = Err err -> token (svc final) = token (svc s))
  /\ (forall resp,
         fst first = Ok resp -> StatusCode resp <> StatusUnauthorized ->
         token (svc final) = token (svc s))
  /\ (forall resp t err s2,
         fst first = Ok resp -> StatusCode resp = StatusUnauthorized ->
         getAdminToken (announce (snd first)) = ((t, Some err), s2) ->
         token (svc final) = token (svc s)).
Proof.
  intros first final. subst first final.
  pose proof (clientDo_svc (withBearer req (token (svc s))) s) as Hs.
  destruct (clientDo (withBearer req (token (svc s))) s) as [r s1] eqn:H.
  simpl in *. split; [|split; [|split]].
  - intros resp newToken s2 -> H401 Ht.
    rewrite (doRequest_refreshed _ _ _ _ _ _ H H401 Ht).
    now rewrite clientDo_svc.
  - intros err ->. now rewrite (doRequest_first_error _ _ _ _ H), <- Hs.
  - intros resp -> Hn. now rewrite (doRequest_other_status _ _ _ _ H Hn), <- Hs.
  - intros resp t err s2 -> H401 Ht.
    rewrite (doRequest_refresh_failed _ _ _ _ _ _ _ H H401 Ht). simpl.
    pose proof (getAdminToken_svc (announce s1)) as Hg. rewrite Ht in Hg.
    simpl in Hg. now rewrite Hg, <- Hs.
Qed.

Lemma doRequest_token_frame_witness :
  token (svc (snd (doRequest sim.get_users sim.stale))) = "fresh-token"
  /\ token (svc (snd (doRequest sim.get_users sim.offline))) = "fresh-token"
  /\ token (svc (snd (doRequest sim.get_users sim.current))) = "fresh-token"
  /\ token (svc (snd (doRequest sim.get_users sim.stale_401))) = "stale".
Proof.
  split; [|split; [|split]].
  - destruct (doRequest_token_frame sim.get_users sim.stale) as (Hmut & _).
    exact (Hmut _ "fresh-token" _ eq_refl eq_refl eq_refl).
  - destruct (doRequest_token_frame sim.get_users sim.offline) as (_ & Herr & _).
    exact (Herr "dial tcp: connection refused" eq_refl).
  - destruct (doRequest_token_frame sim.get_users sim.current) as (_ & _ & Hother & _).
    refine (Hother _ eq_refl _). vm_compute. discriminate.
  - destruct (doRequest_token_frame sim.get_users sim.stale_401) as (_ & _ & _ & Hfail).
    exact (Hfail _ EmptyString "failed to get token, status: 401, response:  admin"
             _ eq_refl eq_refl eq_refl).
Defined.

(** C10.  [NewKeycloakService] returns a service for every configuration and
    every world.  When the initial token acquisition fails, the error goes
    to the log and nowhere else, the stored token is the empty string, and
    the first authenticated request goes out with that empty credential: if
    the backend refuses it with 401 and the acquisition then succeeds, the
    request is retried with the new token.  When the initial acquisition
    succeeds, its token is stored and nothing is logged. *)
Theorem NewKeycloakService_never_fails {P : Platform} (cfg : Config) (w : W)
    (cs : list Request) (ls : list LogEvent) :
  let k := NewKeycloakService cfg w cs ls in
  config (svc k) = cfg
  /\ (forall t err s1,
         getAdminToken (fresh_service cfg w cs ls) = ((t, Some err), s1) ->
         k = {| svc := {| config := cfg; token := EmptyString |};
                net := net s1; calls := calls s1;
                logs := (logs s1 ++ [{| level := LError; attached := Some err;
                            msg := "Failed to get admin token from Keycloak" |}])%list |}
         /\ forall req resp s2 newToken s3,
              clientDo (withBearer req EmptyString) k = (Ok resp, s2) ->
              StatusCode resp = StatusUnauthorized ->
              getAdminToken (announce s2) = ((newToken, None), s3) ->
              doRequest req k
              = clientDo (withBearer req newToken) (store_token newToken s3))
  /\ (forall t s1,
         getAdminToken (fresh_service cfg w cs ls) = ((t, None), s1) ->
         k = {| svc := {| config := cfg; token := t |};
                net := net s1; calls := calls s1; logs := logs s1 |}).
Proof.
  intros k. subst k. unfold NewKeycloakService, bind.
  fold (fresh_service cfg w cs ls).
  pose proof (getAdminToken_svc (fresh_service cfg w cs ls)) as Hs.
  destruct (getAdminToken (fresh_service cfg w cs ls)) as [[t0 e0] s0] eqn:Ht.
  simpl in Hs.
  assert (Hcfg : config (svc s0) = cfg) by now rewrite Hs.
  split; [|split].
  - destruct e0; simpl; exact Hcfg.
  - intros t err s1 H. injection H as E1 E2 E3. subst t0 e0 s0.
    pose proof (getAdminToken_error_empty _ _ _ _ Ht) as Hempty. subst t.
    simpl. rewrite Hcfg. split; [reflexivity|].
    intros req resp s2 newToken s3 H1 H401 H2.
    apply doRequest_refreshed with (resp := resp) (s1 := s2);
      [exact H1 | exact H401 | exact H2].
  - intros t s1 H. injection H as E1 E2 E3. subst t0 e0 s0. simpl. now rewrite Hcfg.
Qed.

Lemma NewKeycloakService_never_fails_witness :
  token (svc (@NewKeycloakService sim.late sim.cfg 0%nat [] [])) = EmptyString
  /\ logs (@NewKeycloakService sim.late sim.cfg 0%nat [] [])
     = [{| level := LError; attached := Some "dial tcp: connection refused";
           msg := "Failed to get admin token from Keycloak" |}]
  /\ fst (doRequest sim.get_users (@NewKeycloakService sim.late sim.cfg 0%nat [] []))
     = sim.reply 200 (sim.encode_list sim.encode_User [sim.alice]).
Proof.
  destruct (@NewKeycloakService_never_fails sim.late sim.cfg 0%nat [] [])
    as (_ & Hfailed & _).
  destruct (Hfailed EmptyString "dial tcp: connection refused" _ eq_refl)
    as [Ek Hfirst].
  split; [now rewrite Ek|]. split; [now rewrite Ek|].
  rewrite (Hfirst sim.get_users _ _ "fresh-token" _ eq_refl eq_refl eq_refl).
  reflexivity.
Defined.

(** ** Composite operations *)

(** C3.  Once the search by email has returned: with no user,
    [AddUserToGroupByEmail] fails with the not-found error; with two users
    or more it fails with the ambiguous-match error, in the state the search
    left, so that no membership request goes out; with exactly one user it
    is [AddUserToGroup] on that user's identifier and the given group. *)
Theorem AddUserToGroupByEmail_cardinality {P : Platform} (email groupID : string)
    (s s1 : State) (users : list User) :
  SearchUserByEmail email s = (Ok users, s1) ->
  (users = [] ->
   AddUserToGroupByEmail email groupID s
   = (Some "no user found with the provided email", s1))
  /\ ((2 <= length users)%nat ->
      AddUserToGroupByEmail email groupID s
      = (Some "multiple users found with the provided email", s1)
      /\ new_calls s1 (snd (AddUserToGroupByEmail email groupID s)) = [])
  /\ (forall u, users = [u] ->
      AddUserToGroupByEmail email groupID s = AddUserToGroup (User_ID u) groupID s1).
Proof.
  intros H. unfold AddUserToGroupByEmail, bind. rewrite H.
  split; [|split].
  - intros ->. reflexivity.
  - intros Hlen. destruct users as [|u [|u' rest]]; simpl in Hlen; try lia.
    simpl. split; [reflexivity|].
    apply new_calls_app. now rewrite app_nil_r.
  - intros u ->. reflexivity.
Qed.

Lemma AddUserToGroupByEmail_cardinality_witness :
  fst (AddUserToGroupByEmail "nobody@example.com" "A" sim.current)
    = Some "no user found with the provided email"
  /\ fst (AddUserToGroupByEmail "dup@example.com" "A" sim.current)
     = Some "multiple users found with the provided email"
  /\ AddUserToGroupByEmail "alice@example.com" "A" sim.current
     = AddUserToGroup "1" "A" (snd (SearchUserByEmail "alice@example.com" sim.current)).
Proof.
  split; [|split].
  - destruct (AddUserToGroupByEmail_cardinality "nobody@example.com" "A" sim.current
                (snd (SearchUserByEmail "nobody@example.com" sim.current)) []
                eq_refl) as (H0 & _).
    now rewrite (H0 eq_refl).
  - destruct (AddUserToGroupByEmail_cardinality "dup@example.com" "A" sim.current
                (snd (SearchUserByEmail "dup@example.com" sim.current))
                [sim.bob; sim.bobby] eq_refl) as (_ & H2 & _).
    destruct (H2 (le_n 2)) as [E _]. now rewrite E.
  - destruct (AddUserToGroupByEmail_cardinality "alice@example.com" "A" sim.current
                (snd (SearchUserByEmail "alice@example.com" sim.current))
                [sim.alice] eq_refl) as (_ & _ & H1).
    exact (H1 sim.alice eq_refl).
Defined.

Section CompositeListing.
Context {P : Platform}.

Lemma fetched_groups (groups : list Group) (s s' : State) (result0 : list GroupWithUsers) :
  fetched groups s result0 s' -> map Group_ result0 = groups.
Proof. induction 1; simpl; congruence. Qed.

(** The loop either fetches every group, or stops at the first group whose
    fetch fails, in the state that fetch left. *)
Lemma ListGroupsWithUsers_loop_cases (groups : list Group) :
  forall (acc : list GroupWithUsers) (s : State),
    (exists result0 s',
        fetched groups s result0 s'
        /\ ListGroupsWithUsers_loop groups acc s = (Ok (acc ++ result0)%list, s'))
    \/ (exists before group after result0 s1 err s2,
           groups = (before ++ group :: after)%list
           /\ fetched before s result0 s1
           /\ ListGroupUsers (Group_ID group) s1 = (Err err, s2)
           /\ ListGroupsWithUsers_loop groups acc s = (Err (abort_message group err), s2)).
Proof.
  induction groups as [|group rest IH]; intros acc s.
  - left. exists [], s. split; [constructor|]. simpl. now rewrite app_nil_r.
  - simpl. unfold bind.
    destruct (ListGroupUsers (Group_ID group) s) as [[users|err] s1] eqn:E.
    + destruct (IH (acc ++ [{| Group_ := group; Users := users |}])%list s1)
        as [(result0 & s' & Hf & Hl) | (before & g & after & result0 & s2 & err & s3
                                        & Hg & Hf & He & Hl)].
      * left. exists ({| Group_ := group; Users := users |} :: result0), s'.
        split; [econstructor; eassumption|].
        rewrite Hl. now rewrite <- app_assoc.
      * right. exists (group :: before), g, after,
          ({| Group_ := group; Users := users |} :: result0), s2, err, s3.
        repeat split; try assumption.
        -- now rewrite Hg.
        -- econstructor; eassumption.
    + right. exists [], group, rest, [], s, err, s1.
      repeat split; try assumption. constructor.
Qed.

Lemma fetched_loop (groups : list Group) :
  forall (acc : list GroupWithUsers) (s s' : State) (result0 : list GroupWithUsers),
    fetched groups s result0 s' ->
    ListGroupsWithUsers_loop groups acc s = (Ok (acc ++ result0)%list, s').
Proof.
  induction groups as [|group rest IH]; intros acc s s' result0 Hf;
    inversion Hf as [|? ? ? ? ? ? ? Hu Hr]; subst.
  - simpl. now rewrite app_nil_r.
  - simpl. unfold bind. rewrite Hu.
    rewrite (IH _ _ _ _ Hr). now rewrite <- app_assoc.
Qed.

Lemma aborted_loop (before : list Group) :
  forall (group : Group) (after : list Group) (acc : list GroupWithUsers)
         (s s1 s2 : State) (result0 : list GroupWithUsers) (err : error),
    fetched before s result0 s1 ->
    ListGroupUsers (Group_ID group) s1 = (Err err, s2) ->
    ListGroupsWithUsers_loop (before ++ group :: after) acc s
    = (Err (abort_message group err), s2).
Proof.
  induction before as [|g rest IH]; intros group after acc s s1 s2 result0 err Hf He;
    inversion Hf as [|? ? ? ? ? ? ? Hu Hr]; subst; simpl; unfold bind.
  - now rewrite He.
  - rewrite Hu. eapply IH; eassumption.
Qed.

(** C4.  Once [ListGroups] has returned the groups, [ListGroupsWithUsers]
    fetches the member lists one group after the other, in the order of the
    listing, each fetch starting in the state the previous one left.  When
    every fetch succeeds the result pairs each group with its users, in the
    order of the listing; and every successful run is of this kind.  When
    the fetches of the groups before some group succeed and the fetch of
    that group fails, the whole operation fails in the state that fetch
    left -- so nothing is fetched after it -- with an error that names the
    identifier of that group, and no list is returned. *)
Theorem ListGroupsWithUsers_order_and_abort (s s1 : State) (groups : list Group) :
  ListGroups s = (Ok groups, s1) ->
  (forall result0 s2,
      fetched groups s1 result0 s2 ->
      ListGroupsWithUsers s = (Ok result0, s2) /\ map Group_ result0 = groups)
  /\ (forall result0 s2,
         ListGroupsWithUsers s = (Ok result0, s2) -> fetched groups s1 result0 s2)
  /\ (forall before group after result0 s2 err s3,
         groups = (before ++ group :: after)%list ->
         fetched before s1 result0 s2 ->
         ListGroupUsers (Group_ID group) s2 = (Err err, s3) ->
         ListGroupsWithUsers s
         = (Err ("failed to get users for group " ++ Group_ID group ++ ": " ++ err), s3)).
Proof.
  intros H. unfold ListGroupsWithUsers, bind. rewrite H.
  split; [|split].
  - intros result0 s2 Hf. split.
    + exact (fetched_loop groups [] s1 s2 result0 Hf).
    + exact (fetched_groups _ _ _ _ Hf).
  - intros result0 s2 Hl.
    destruct (ListGroupsWithUsers_loop_cases groups [] s1)
      as [(r & s' & Hf & Hl') | (before & g & after & r & s2' & err & s3 & _ & _ & _ & Hl')];
      rewrite Hl' in Hl.
    + injection Hl as <- <-. exact Hf.
    + discriminate.
  - intros before group after result0 s2 err s3 -> Hf He.
    exact (aborted_loop before group after [] s1 s2 s3 result0 err Hf He).
Qed.
End CompositeListing.

Lemma ListGroupsWithUsers_order_and_abort_witness :
  fst (ListGroupsWithUsers sim.current)
    = Err "failed to get users for group B: failed to list group users: map[error:unknown_error]"
  /\ fst (ListGroupsWithUsers sim.current_repaired)
     = Ok [ {| Group_ := sim.admins; Users := [sim.alice] |};
            {| Group_ := sim.staff; Users := [sim.bob; sim.bobby] |} ].
Proof.
  split.
  - pose (s1 := snd (ListGroups sim.current)).
    pose (s2 := snd (ListGroupUsers "A" s1)).
    pose (s3 := snd (ListGroupUsers "B" s2)).
    destruct (ListGroupsWithUsers_order_and_abort sim.current s1
                [sim.admins; sim.staff] eq_refl) as (_ & _ & Habort).
    rewrite (Habort [sim.admins] sim.staff []
               [ {| Group_ := sim.admins; Users := [sim.alice] |} ] s2
               "failed to list group users: map[error:unknown_error]" s3
               eq_refl
               (fetched_cons sim.admins [] s1 s2 s2 [sim.alice] [] eq_refl (fetched_nil s2))
               eq_refl).
    reflexivity.
  - pose (s1 := snd (ListGroups sim.current_repaired)).
    pose (s2 := snd (ListGroupUsers "A" s1)).
    pose (s3 := snd (ListGroupUsers "B" s2)).
    destruct (ListGroupsWithUsers_order_and_abort sim.current_repaired s1
                [sim.admins; sim.staff] eq_refl) as (Hall & _).
    destruct (Hall [ {| Group_ := sim.admins; Users := [sim.alice] |};
                     {| Group_ := sim.staff; Users := [sim.bob; sim.bobby] |} ] s3
                (fetched_cons sim.admins [sim.staff] s1 s2 s3 [sim.alice]
                   [ {| Group_ := sim.staff; Users := [sim.bob; sim.bobby] |} ] eq_refl
                   (fetched_cons sim.staff [] s2 s3 s3 [sim.bob; sim.bobby] [] eq_refl
                      (fetched_nil s3)))) as [E _].
    now rewrite E.
Defined.

(** The requests of the aborted run, in the order they went out: the
    listing, the members of A, the members of B, and nothing after. *)
Example ListGroupsWithUsers_aborted_run :
  map URL (calls (snd (ListGroupsWithUsers sim.current)))
  = [ "http://kc/admin/realms/master/groups";
      "http://kc/admin/realms/master/groups/A/members";
      "http://kc/admin/realms/master/groups/B/members" ].
Proof. vm_compute. reflexivity. Qed.

(** ** Resource operations *)
Section ResourceOperations.
Context {P : Platform}.

(** Runs an operation up to its call of [doRequest], answered as [Hd] says. *)
Ltac answered Hn Hd :=
  unfold admin_url, sent in Hn, Hd;
  unfold bind, getConfig, NewRequest; cbv zeta;
  rewrite ?Hn;
  unfold set_Headers, Header_Add; cbn [Headers Method URL Payload app];
  rewrite Hd;
  unfold ioutil.ReadAll, ret; cbn [bytes readErr].

Lemma UpdateUser_answered (id : string) (user : User) (payload : string)
    (s s' : State) (resp : Response) :
  json_Marshal_User user = Ok payload ->
  answers s "PUT" (admin_url s ("/users/" ++ id)) (Some payload) resp s' ->
  UpdateUser id user s
  = (if no_content_only (StatusCode resp) then Ok user
     else Err (raw_error "update user" resp), s').
Proof.
  intros Hm [Hn Hd]. unfold UpdateUser. rewrite Hm. answered Hn Hd.
  unfold no_content_only, raw_error.
  now destruct (StatusCode resp =? StatusNoContent)%Z.
Qed.

Lemma CreateUser_answered (user : User) (payload : string)
    (s s' : State) (resp : Response) :
  json_Marshal_User user = Ok payload ->
  answers s "POST" (admin_url s "/users") (Some payload) resp s' ->
  CreateUser user s
  = (if created_or_no_content (StatusCode resp) then Ok user
     else Err (raw_error "create user" resp), s').
Proof.
  intros Hm [Hn Hd]. unfold CreateUser. rewrite Hm. answered Hn Hd.
  unfold created_or_no_content, raw_error.
  now destruct (StatusCode resp =? StatusCreated)%Z; destruct (StatusCode resp =? StatusNoContent)%Z.
Qed.

Lemma CreateGroup_answered (group : Group) (payload : string)
    (s s' : State) (resp : Response) :
  json_Marshal_Group group = Ok payload ->
  answers s "POST" (admin_url s "/groups") (Some payload) resp s' ->
  CreateGroup group s
  = (if created_or_no_content (StatusCode resp) then Ok group
     else Err (raw_error "create group" resp), s').
Proof.
  intros Hm [Hn Hd]. unfold CreateGroup. rewrite Hm. answered Hn Hd.
  unfold created_or_no_content, raw_error.
  now destruct (StatusCode resp =? StatusCreated)%Z; destruct (StatusCode resp =? StatusNoContent)%Z.
Qed.

Lemma UpdateGroup_answered (id : string) (group : Group) (payload : string)
    (s s' : State) (resp : Response) :
  json_Marshal_Group group = Ok payload ->
  answers s "PUT" (admin_url s ("/groups/" ++ id)) (Some payload) resp s' ->
  UpdateGroup id group s
  = (if no_content_only (StatusCode resp) then Ok group
     else Err (raw_error "update group" resp), s').
Proof.
  intros Hm [Hn Hd]. unfold UpdateGroup. rewrite Hm. answered Hn Hd.
  unfold no_content_only, raw_error.
  now destruct (StatusCode resp =? StatusNoContent)%Z.
Qed.

Lemma DeleteUser_answered (id : string) (s s' : State) (resp : Response) :
  answers s "DELETE" (admin_url s ("/users/" ++ id)) None resp s' ->
  DeleteUser id s
  = (if no_content_only (StatusCode resp) then None
     else Some (raw_error "delete user" resp), s').
Proof.
  intros [Hn Hd]. unfold DeleteUser. answered Hn Hd.
  unfold no_content_only, raw_error.
  now destruct (StatusCode resp =? StatusNoContent)%Z.
Qed.

Lemma DeleteGroup_answered (id : string) (s s' : State) (resp : Response) :
  answers s "DELETE" (admin_url s ("/groups/" ++ id)) None resp s' ->
  DeleteGroup id s
  = (if no_content_only (StatusCode resp) then None
     else Some (raw_error "delete group" resp), s').
Proof.
  intros [Hn Hd]. unfold DeleteGroup. answered Hn Hd.
  unfold no_content_only, raw_error.
  now destruct (StatusCode resp =? StatusNoContent)%Z.
Qed.

Lemma AddUserToGroup_answered (userID groupID : string) (s s' : State) (resp : Response) :
  answers s "PUT" (admin_url s ("/users/" ++ userID ++ "/groups/" ++ groupID)) None resp s' ->
  AddUserToGroup userID groupID s
  = (if no_content_only (StatusCode resp) then None
     else Some (raw_error "add user to group" resp), s').
Proof.
  intros [Hn Hd]. unfold AddUserToGroup. answered Hn Hd.
  unfold no_content_only, raw_error.
  now destruct (StatusCode resp =? StatusNoContent)%Z.
Qed.

Lemma RemoveUserFromGroup_answered (userID groupID : string) (s s' : State) (resp : Response) :
  answers s "DELETE" (admin_url s ("/users/" ++ userID ++ "/groups/" ++ groupID)) None resp s' ->
  RemoveUserFromGroup userID groupID s
  = (if no_content_only (StatusCode resp) then None
     else Some (raw_error "remove user from group" resp), s').
Proof.
  intros [Hn Hd]. unfold RemoveUserFromGroup. answered Hn Hd.
  unfold no_content_only, raw_error.
  now destruct (StatusCode resp =? StatusNoContent)%Z.
Qed.

Lemma GetUser_rejected (id : string) (s s' : State) (resp : Response) :
  answers s "GET" (admin_url s ("/users/" ++ id)) None resp s' ->
  ok_only (StatusCode resp) = false ->
  GetUser id s = (Err (status_error "user" resp), s').
Proof.
  intros [Hn Hd] Hst. unfold GetUser. answered Hn Hd.
  unfold ok_only in Hst. now rewrite Hst.
Qed.

Lemma GetGroup_rejected (id : string) (s s' : State) (resp : Response) :
  answers s "GET" (admin_url s ("/groups/" ++ id)) None resp s' ->
  ok_only (StatusCode resp) = false ->
  GetGroup id s = (Err (status_error "group" resp), s').
Proof.
  intros [Hn Hd] Hst. unfold GetGroup. answered Hn Hd.
  unfold ok_only in Hst. now rewrite Hst.
Qed.

Lemma ListUsers_rejected (s s' : State) (resp : Response) :
  answers s "GET" (admin_url s "/users") None resp s' ->
  ok_only (StatusCode resp) = false ->
  readErr (RespBody resp) = None ->
  ListUsers s = (Err (parsed_error "list users" resp), s').
Proof.
  intros [Hn Hd] Hst Hr. unfold ListUsers. answered Hn Hd.
  unfold ok_only in Hst. rewrite Hr, Hst. unfold parsed_error. cbn [negb].
  now destruct (json_Unmarshal_object (bytes (RespBody resp))).
Qed.

Lemma SearchUserByEmail_rejected (email : string) (s s' : State) (resp : Response) :
  answers s "GET" (admin_url s ("/users?email=" ++ email)) None resp s' ->
  ok_only (StatusCode resp) = false ->
  readErr (RespBody resp) = None ->
  SearchUserByEmail email s = (Err (parsed_error "search users" resp), s').
Proof.
  intros [Hn Hd] Hst Hr. unfold SearchUserByEmail. answered Hn Hd.
  unfold ok_only in Hst. rewrite Hr, Hst. unfold parsed_error. cbn [negb].
  now destruct (json_Unmarshal_object (bytes (RespBody resp))).
Qed.

Lemma ListGroups_rejected (s s' : State) (resp : Response) :
  answers s "GET" (admin_url s "/groups") None resp s' ->
  ok_only (StatusCode resp) = false ->
  readErr (RespBody resp) = None ->
  ListGroups s = (Err (parsed_error "list groups" resp), s').
Proof.
  intros [Hn Hd] Hst Hr. unfold ListGroups. answered Hn Hd.
  unfold ok_only in Hst. rewrite Hr, Hst. unfold parsed_error. cbn [negb].
  now destruct (json_Unmarshal_object (bytes (RespBody resp))).
Qed.

Lemma ListUserGroups_rejected (userID : string) (s s' : State) (resp : Response) :
  answers s "GET" (admin_url s ("/users/" ++ userID ++ "/groups")) None resp s' ->
  ok_only (StatusCode resp) = false ->
  readErr (RespBody resp) = None ->
  ListUserGroups userID s = (Err (parsed_error "list user groups" resp), s').
Proof.
  intros [Hn Hd] Hst Hr. unfold ListUserGroups. answered Hn Hd.
  unfold ok_only in Hst. rewrite Hr, Hst. unfold parsed_error. cbn [negb].
  now destruct (json_Unmarshal_object (bytes (RespBody resp))).
Qed.

Lemma ListGroupUsers_rejected (groupID : string) (s s' : State) (resp : Response) :
  answers s "GET" (admin_url s ("/groups/" ++ groupID ++ "/members")) None resp s' ->
  ok_only (StatusCode resp) = false ->
  readErr (RespBody resp) = None ->
  ListGroupUsers groupID s = (Err (parsed_error "list group users" resp), s').
Proof.
  intros [Hn Hd] Hst Hr. unfold ListGroupUsers. answered Hn Hd.
  unfold ok_only in Hst. rewrite Hr, Hst. unfold parsed_error. cbn [negb].
  now destruct (json_Unmarshal_object (bytes (RespBody resp))).
Qed.

(** C5.  Once the backend has answered the request of an update, the update
    succeeds if and only if the status of the response is 204 No Content;
    a 200 OK is a failure, reported with the status and the body.  This
    holds for [UpdateUser] and for [UpdateGroup]. *)
Theorem update_succeeds_iff_no_content :
  (forall id user payload s s' resp,
      json_Marshal_User user = Ok payload ->
      answers s "PUT" (admin_url s ("/users/" ++ id)) (Some payload) resp s' ->
      (is_ok (fst (UpdateUser id user s)) = true <-> StatusCode resp = StatusNoContent)
      /\ (StatusCode resp = StatusNoContent -> UpdateUser id user s = (Ok user, s'))
      /\ (StatusCode resp = StatusOK ->
          UpdateUser id user s = (Err (raw_error "update user" resp), s')))
  /\ (forall id group payload s s' resp,
         json_Marshal_Group group = Ok payload ->
         answers s "PUT" (admin_url s ("/groups/" ++ id)) (Some payload) resp s' ->
         (is_ok (fst (UpdateGroup id group s)) = true <-> StatusCode resp = StatusNoContent)
         /\ (StatusCode resp = StatusNoContent -> UpdateGroup id group s = (Ok group, s'))
         /\ (StatusCode resp = StatusOK ->
             UpdateGroup id group s = (Err (raw_error "update group" resp), s'))).
Proof.
  split.
  - intros id user payload s s' resp Hm Ha.
    rewrite (UpdateUser_answered id user payload s s' resp Hm Ha).
    unfold no_content_only. cbn [fst].
    destruct (Z.eqb_spec (StatusCode resp) StatusNoContent) as [E|E]; cbn [is_ok].
    + split; [tauto|]. split; [reflexivity|]. rewrite E. discriminate.
    + split; [split; [discriminate | contradiction]|]. split; [contradiction | reflexivity].
  - intros id group payload s s' resp Hm Ha.
    rewrite (UpdateGroup_answered id group payload s s' resp Hm Ha).
    unfold no_content_only. cbn [fst].
    destruct (Z.eqb_spec (StatusCode resp) StatusNoContent) as [E|E]; cbn [is_ok].
    + split; [tauto|]. split; [reflexivity|]. rewrite E. discriminate.
    + split; [split; [discriminate | contradiction]|]. split; [contradiction | reflexivity].
Qed.

(** C6.  When the backend answers the request of [CreateUser] with 201
    Created or 204 No Content -- whatever the body, the empty one included
    -- [CreateUser] returns the user it was given: the same username, email,
    first and last name, and the identifier as submitted, empty when it was
    absent. *)
Theorem CreateUser_returns_input (user : User) (payload : string) (s s' : State)
    (resp : Response) :
  json_Marshal_User user = Ok payload ->
  answers s "POST" (admin_url s "/users") (Some payload) resp s' ->
  StatusCode resp = StatusCreated \/ StatusCode resp = StatusNoContent ->
  CreateUser user s = (Ok user, s').
Proof.
  intros Hm Ha Hst.
  rewrite (CreateUser_answered user payload s s' resp Hm Ha).
  unfold created_or_no_content.
  destruct Hst as [-> | ->]; reflexivity.
Qed.

(** C7 (amended).  On a response whose status is outside the accepted set,
    the operations fall into three families.  The five listing operations
    read the body and try to decode it as a JSON object: decoded, the object
    is the content of the error; otherwise the error carries the status
    alone.  The create, update, delete and membership operations put the
    status and the bytes of the body in the error and decode nothing.
    [GetUser] and [GetGroup] report the status alone and do not look at the
    body. *)
Theorem errors_by_family :
  (surfaces_parsed ListUsers "/users" "list users"
   /\ (forall email,
         surfaces_parsed (SearchUserByEmail email) ("/users?email=" ++ email) "search users")
   /\ surfaces_parsed ListGroups "/groups" "list groups"
   /\ (forall userID,
         surfaces_parsed (ListUserGroups userID) ("/users/" ++ userID ++ "/groups")
           "list user groups")
   /\ (forall groupID,
         surfaces_parsed (ListGroupUsers groupID) ("/groups/" ++ groupID ++ "/members")
           "list group users"))
  /\ ((forall user payload,
          json_Marshal_User user = Ok payload ->
          surfaces_raw failure (CreateUser user) "POST" "/users" (Some payload)
            created_or_no_content "create user")
      /\ (forall id user payload,
             json_Marshal_User user = Ok payload ->
             surfaces_raw failure (UpdateUser id user) "PUT" ("/users/" ++ id) (Some payload)
               no_content_only "update user")
      /\ (forall id,
             surfaces_raw (fun e => e) (DeleteUser id) "DELETE" ("/users/" ++ id) None
               no_content_only "delete user")
      /\ (forall group payload,
             json_Marshal_Group group = Ok payload ->
             surfaces_raw failure (CreateGroup group) "POST" "/groups" (Some payload)
               created_or_no_content "create group")
      /\ (forall id group payload,
             json_Marshal_Group group = Ok payload ->
             surfaces_raw failure (UpdateGroup id group) "PUT" ("/groups/" ++ id)
               (Some payload) no_content_only "update group")
      /\ (forall id,
             surfaces_raw (fun e => e) (DeleteGroup id) "DELETE" ("/groups/" ++ id) None
               no_content_only "delete group")
      /\ (forall userID groupID,
             surfaces_raw (fun e => e) (AddUserToGroup userID groupID) "PUT"
               ("/users/" ++ userID ++ "/groups/" ++ groupID) None
               no_content_only "add user to group")
      /\ (forall userID groupID,
             surfaces_raw (fun e => e) (RemoveUserFromGroup userID groupID) "DELETE"
               ("/users/" ++ userID ++ "/groups/" ++ groupID) None
               no_content_only "remove user from group"))
  /\ ((forall id, surfaces_status (GetUser id) ("/users/" ++ id) "user")
      /\ (forall id, surfaces_status (GetGroup id) ("/groups/" ++ id) "group")).
Proof.
  split; [|split].
  - repeat apply conj; unfold surfaces_parsed; intros.
    + now apply ListUsers_rejected.
    + now apply SearchUserByEmail_rejected.
    + now apply ListGroups_rejected.
    + now apply ListUserGroups_rejected.
    + now apply ListGroupUsers_rejected.
  - repeat apply conj; unfold surfaces_raw;
      intros until s'; intros Ha Hst.
    + rewrite (CreateUser_answered _ _ _ _ _ H Ha), Hst. now split.
    + rewrite (UpdateUser_answered _ _ _ _ _ _ H Ha), Hst. now split.
    + rewrite (DeleteUser_answered _ _ _ _ Ha), Hst. now split.
    + rewrite (CreateGroup_answered _ _ _ _ _ H Ha), Hst. now split.
    + rewrite (UpdateGroup_answered _ _ _ _ _ _ H Ha), Hst. now split.
    + rewrite (DeleteGroup_answered _ _ _ _ Ha), Hst. now split.
    + rewrite (AddUserToGroup_answered _ _ _ _ _ Ha), Hst. now split.
    + rewrite (RemoveUserFromGroup_answered _ _ _ _ _ Ha), Hst. now split.
  - split; unfold surfaces_status; intros.
    + now apply GetUser_rejected.
    + now apply GetGroup_rejected.
Qed.
End ResourceOperations.

Lemma update_succeeds_iff_no_content_witness :
  is_ok (fst (UpdateUser "1" sim.alice sim.current)) = true
  /\ fst (UpdateUser "9" sim.alice sim.current)
     = Err ("failed to update user, status: 200, response: " ++ sim.encode_User sim.alice)
  /\ is_ok (fst (UpdateGroup "A" sim.admins sim.current)) = true.
Proof.
  destruct (@update_succeeds_iff_no_content sim.working) as [Huser Hgroup].
  split; [|split].
  - destruct (Huser "1" sim.alice (sim.encode_User sim.alice) sim.current
                (snd (UpdateUser "1" sim.alice sim.current)) (sim.empty_reply 204)
                eq_refl (conj eq_refl eq_refl)) as (Hiff & _).
    apply Hiff. reflexivity.
  - destruct (Huser "9" sim.alice (sim.encode_User sim.alice) sim.current
                (snd (UpdateUser "9" sim.alice sim.current))
                (sim.body_reply 200 (sim.encode_User sim.alice))
                eq_refl (conj eq_refl eq_refl)) as (_ & _ & H200).
    rewrite (H200 eq_refl). reflexivity.
  - destruct (Hgroup "A" sim.admins (sim.encode_Group sim.admins) sim.current
                (snd (UpdateGroup "A" sim.admins sim.current)) (sim.empty_reply 204)
                eq_refl (conj eq_refl eq_refl)) as (Hiff & _).
    apply Hiff. reflexivity.
Defined.

Lemma CreateUser_returns_input_witness :
  fst (CreateUser sim.johndoe sim.current)
  = Ok {| User_ID := EmptyString; Username := "johndoe"; Email := "john@example.com";
          FirstName := "John"; LastName := "Doe" |}.
Proof.
  rewrite (CreateUser_returns_input sim.johndoe (sim.encode_User sim.johndoe) sim.current
             (snd (CreateUser sim.johndoe sim.current)) (sim.empty_reply 201)
             eq_refl (conj eq_refl eq_refl) (or_introl eq_refl)).
  reflexivity.
Defined.

(** C7 (as stated, refuted).  The backend answers [GetUser] with 404 and a
    body that decodes as a JSON object, yet the error is the status alone
    and the object appears nowhere in it.  It answers [DeleteUser] with 400
    and a body that is not JSON, yet the error carries that body and not
    the status alone. *)
Lemma GetUser_ignores_JSON_error_body :
  (doRequest (sent "GET" (admin_url sim.current "/users/42") None) sim.current
   = (Ok (sim.body_reply 404 (sim.encode_fields sim.not_found_reply)),
      snd (GetUser "42" sim.current))
   /\ @json_Unmarshal_object sim.working (sim.encode_fields sim.not_found_reply)
      = Ok (sim.strings_only sim.not_found_reply)
   /\ fst (GetUser "42" sim.current) = Err "user not found, status: 404"
   /\ occurs_in (@fmt_v_object sim.working (sim.strings_only sim.not_found_reply))
        "user not found, status: 404" = false)
  /\ (doRequest (sent "DELETE" (admin_url sim.current "/users/1") None) sim.current
      = (Ok (sim.body_reply 400 "bad request"), snd (DeleteUser "1" sim.current))
      /\ @json_Unmarshal_object sim.working "bad request" = Err "invalid character"
      /\ fst (DeleteUser "1" sim.current)
         = Some "failed to delete user, status: 400, response: bad request").
Proof.
  split; [split; [|split; [|split]] | split; [|split]]; vm_compute; reflexivity.
Qed.

Lemma errors_by_family_witness :
  ListGroupUsers "B" (snd (ListGroupUsers "A" (snd (ListGroups sim.current))))
  = (Err "failed to list group users: map[error:unknown_error]",
     snd (ListGroupUsers "B" (snd (ListGroupUsers "A" (snd (ListGroups sim.current))))))
  /\ fst (DeleteUser "1" sim.current)
     = Some "failed to delete user, status: 400, response: bad request"
  /\ GetUser "42" sim.current
     = (Err "user not found, status: 404", snd (GetUser "42" sim.current)).
Proof.
  destruct (@errors_by_family sim.working) as (Hparsed & Hraw & Hstatus).
  split; [|split].
  - destruct Hparsed as (_ & _ & _ & _ & Hmembers).
    rewrite (Hmembers "B" (snd (ListGroupUsers "A" (snd (ListGroups sim.current))))
               (sim.body_reply 500 (sim.encode_fields sim.unknown_error_reply))
               (snd (ListGroupUsers "B"
                  (snd (ListGroupUsers "A" (snd (ListGroups sim.current))))))
               (conj eq_refl eq_refl) eq_refl eq_refl).
    reflexivity.
  - destruct Hraw as (_ & _ & Hdelete & _).
    destruct (Hdelete "1" sim.current (sim.body_reply 400 "bad request")
                (snd (DeleteUser "1" sim.current)) (conj eq_refl eq_refl) eq_refl)
      as [E _].
    exact E.
  - destruct Hstatus as (Hget & _).
    rewrite (Hget "42" sim.current
               (sim.body_reply 404 (sim.encode_fields sim.not_found_reply))
               (snd (GetUser "42" sim.current)) (conj eq_refl eq_refl) eq_refl).
    reflexivity.
Defined.

(** ** The request boundary *)
Section Boundary.
Context {P : Platform}.

(** A handler that logs the error and replies with it. *)
Ltac handler_error :=
  unfold maps_error, bind; intros;
  match goal with
  | H : context [fst (?op ?s)] |- _ =>
    let r := fresh "r" in
    destruct (op s) as [r ?]; destruct r; cbn in H; try discriminate;
    injection H as ->; reflexivity
  end.

Lemma GetUser_maps (c : handlers.gin_Context) :
  maps_error failure (services.GetUser (handlers.Param c "id")) (handlers.GetUser c)
    StatusNotFound.
Proof. unfold handlers.GetUser. handler_error. Qed.

Lemma GetGroup_maps (c : handlers.gin_Context) :
  maps_error failure (services.GetGroup (handlers.Param c "id")) (handlers.GetGroup c)
    StatusNotFound.
Proof. unfold handlers.GetGroup. handler_error. Qed.

(** C8 (amended).  A handler that reports an error of the service replies
    with the message of that error, unchanged.  The status depends on the
    endpoint, not on the kind of error: get-user and get-group reply 404 to
    every error of the service, transport and backend failures included;
    every other endpoint replies 500 to every error of the service.  A body
    that does not bind, a search without email and missing path parameters
    of the by-email endpoint get 400.  The by-email endpoint itself replies
    404 when the search returns no user and 400 when it returns two or
    more. *)
Theorem boundary_status_by_endpoint :
  ((forall c,
       maps_error failure (services.GetUser (handlers.Param c "id"))
         (handlers.GetUser c) StatusNotFound)
   /\ (forall c,
          maps_error failure (services.GetGroup (handlers.Param c "id"))
            (handlers.GetGroup c) StatusNotFound))
  /\ ((forall c,
          maps_error failure services.ListUsers (handlers.ListUsers c)
            StatusInternalServerError)
      /\ (forall c user,
             ShouldBindJSON_User (handlers.InBody c) = Ok user ->
             maps_error failure (services.CreateUser user) (handlers.CreateUser c)
               StatusInternalServerError)
      /\ (forall c,
             handlers.Query c "email" <> EmptyString ->
             maps_error failure (services.SearchUserByEmail (handlers.Query c "email"))
               (handlers.SearchUserByEmail c) StatusInternalServerError)
      /\ (forall c user,
             ShouldBindJSON_User (handlers.InBody c) = Ok user ->
             maps_error failure (services.UpdateUser (handlers.Param c "id") user)
               (handlers.UpdateUser c) StatusInternalServerError)
      /\ (forall c,
             maps_error (fun e => e) (services.DeleteUser (handlers.Param c "id"))
               (handlers.DeleteUser c) StatusInternalServerError)
      /\ (forall c,
             maps_error failure services.ListGroups (handlers.ListGroups c)
               StatusInternalServerError)
      /\ (forall c group,
             ShouldBindJSON_Group (handlers.InBody c) = Ok group ->
             maps_error failure (services.CreateGroup group) (handlers.CreateGroup c)
               StatusInternalServerError)
      /\ (forall c,
             maps_error failure services.ListGroupsWithUsers
               (handlers.ListGroupsWithUsers c) StatusInternalServerError)
      /\ (forall c group,
             ShouldBindJSON_Group (handlers.InBody c) = Ok group ->
             maps_error failure (services.UpdateGroup (handlers.Param c "id") group)
               (handlers.UpdateGroup c) StatusInternalServerError)
      /\ (forall c,
             maps_error (fun e => e) (services.DeleteGroup (handlers.Param c "id"))
               (handlers.DeleteGroup c) StatusInternalServerError)
      /\ (forall c,
             maps_error failure (services.ListUserGroups (handlers.Param c "id"))
               (handlers.ListUserGroups c) StatusInternalServerError)
      /\ (forall c,
             maps_error (fun e => e)
               (services.AddUserToGroup (handlers.Param c "id") (handlers.Param c "groupId"))
               (handlers.AddUserToGroup c) StatusInternalServerError)
      /\ (forall c,
             maps_error (fun e => e)
               (services.RemoveUserFromGroup (handlers.Param c "id")
                  (handlers.Param c "groupId"))
               (handlers.RemoveUserFromGroup c) StatusInternalServerError)
      /\ (forall c,
             maps_error failure (services.ListGroupUsers (handlers.Param c "id"))
               (handlers.ListGroupUsers c) StatusInternalServerError))
  /\ ((forall c err s,
          ShouldBindJSON_User (handlers.InBody c) = Err err ->
          fst (handlers.CreateUser c s) = error_reply StatusBadRequest err
          /\ fst (handlers.UpdateUser c s) = error_reply StatusBadRequest err)
      /\ (forall c err s,
             ShouldBindJSON_Group (handlers.InBody c) = Err err ->
             fst (handlers.CreateGroup c s) = error_reply StatusBadRequest err
             /\ fst (handlers.UpdateGroup c s) = error_reply StatusBadRequest err)
      /\ (forall c s,
             handlers.Query c "email" = EmptyString ->
             fst (handlers.SearchUserByEmail c s)
             = error_reply StatusBadRequest "email query parameter is required"))
  /\ (forall c s,
         (handlers.Param c "email" = EmptyString \/ handlers.Param c "groupId" = EmptyString ->
          fst (handlers.AddUserToGroupByEmail c s)
          = error_reply StatusBadRequest "email and groupId are required")
         /\ (handlers.Param c "email" <> EmptyString ->
             handlers.Param c "groupId" <> EmptyString ->
             (forall err,
                 failure (fst (services.SearchUserByEmail (handlers.Param c "email") s))
                 = Some err ->
                 fst (handlers.AddUserToGroupByEmail c s)
                 = error_reply StatusInternalServerError err)
             /\ (forall users s1,
                    services.SearchUserByEmail (handlers.Param c "email") s = (Ok users, s1) ->
                    (users = [] ->
                     fst (handlers.AddUserToGroupByEmail c s)
                     = error_reply StatusNotFound "no user found with the provided email")
                    /\ ((2 <= length users)%nat ->
                        fst (handlers.AddUserToGroupByEmail c s)
                        = error_reply StatusBadRequest
                            "multiple users found with the provided email")
                    /\ (forall u err,
                           users = [u] ->
                           fst (services.AddUserToGroup (User_ID u)
                                  (handlers.Param c "groupId") s1) = Some err ->
                           fst (handlers.AddUserToGroupByEmail c s)
                           = error_reply StatusInternalServerError err)))).
Proof.
  split; [|split; [|split]].
  - split; [exact GetUser_maps | exact GetGroup_maps].
  - repeat apply conj; intros.
    + unfold handlers.ListUsers. handler_error.
    + unfold handlers.CreateUser. rewrite H. handler_error.
    + unfold handlers.SearchUserByEmail.
      apply String.eqb_neq in H. rewrite H. handler_error.
    + unfold handlers.UpdateUser. rewrite H. handler_error.
    + unfold handlers.DeleteUser. handler_error.
    + unfold handlers.ListGroups. handler_error.
    + unfold handlers.CreateGroup. rewrite H. handler_error.
    + unfold handlers.ListGroupsWithUsers. handler_error.
    + unfold handlers.UpdateGroup. rewrite H. handler_error.
    + unfold handlers.DeleteGroup. handler_error.
    + unfold handlers.ListUserGroups. handler_error.
    + unfold handlers.AddUserToGroup. handler_error.
    + unfold handlers.RemoveUserFromGroup. handler_error.
    + unfold handlers.ListGroupUsers. handler_error.
  - split; [|split].
    + intros c err s H. unfold handlers.CreateUser, handlers.UpdateUser.
      rewrite H. split; reflexivity.
    + intros c err s H. unfold handlers.CreateGroup, handlers.UpdateGroup.
      rewrite H. split; reflexivity.
    + intros c s H. unfold handlers.SearchUserByEmail. rewrite H. reflexivity.
  - intros c s. unfold handlers.AddUserToGroupByEmail. split.
    + intros [H | H]; rewrite H; [reflexivity|].
      rewrite orb_true_r. reflexivity.
    + intros He Hg. apply String.eqb_neq in He, Hg. rewrite He, Hg. cbn [orb].
      unfold bind. split.
      * intros err H.
        destruct (services.SearchUserByEmail (handlers.Param c "email") s)
          as [[users|e] s1]; cbn in H; [discriminate|].
        injection H as ->. reflexivity.
      * intros users s1 H. rewrite H. split; [|split].
        -- intros ->. reflexivity.
        -- intros Hlen. destruct users as [|u [|u' rest]]; cbn in Hlen; try lia.
           reflexivity.
        -- intros u err -> Hadd. cbn [length Nat.eqb Nat.ltb Nat.leb]. unfold bind.
           destruct (services.AddUserToGroup (User_ID u) (handlers.Param c "groupId") s1)
             as [[e|] s2]; cbn [fst] in Hadd; [|discriminate].
           injection Hadd as ->. reflexivity.
Qed.
End Boundary.

(** C8 (as stated, refuted).  The backend cannot be reached: [GetUser] and
    [GetGroup] fail with the transport error, no response and no status
    involved, and the two endpoints reply 404 where the claim has 500. *)
Lemma get_endpoints_reply_404_to_transport_failure :
  (fst (services.GetUser "1" sim.offline) = Err "dial tcp: connection refused"
   /\ fst (handlers.GetUser (sim.with_id "1") sim.offline)
      = error_reply 404 "dial tcp: connection refused"
   /\ handlers.code (fst (handlers.GetUser (sim.with_id "1") sim.offline))
      <> StatusInternalServerError)
  /\ (fst (services.GetGroup "A" sim.offline) = Err "dial tcp: connection refused"
      /\ fst (handlers.GetGroup (sim.with_id "A") sim.offline)
         = error_reply 404 "dial tcp: connection refused"
      /\ handlers.code (fst (handlers.GetGroup (sim.with_id "A") sim.offline))
         <> StatusInternalServerError).
Proof.
  split; (split; [|split]); try (vm_compute; reflexivity); vm_compute; discriminate.
Qed.

Lemma boundary_status_by_endpoint_witness :
  fst (handlers.GetUser (sim.with_id "1") sim.offline)
    = error_reply 404 "dial tcp: connection refused"
  /\ fst (handlers.ListUsers (sim.with_id "1") sim.offline)
     = error_reply 500 "dial tcp: connection refused"
  /\ fst (handlers.UpdateUser (sim.with_body "1" "{") sim.current)
     = error_reply 400 "invalid character"
  /\ fst (handlers.AddUserToGroupByEmail (sim.by_email "nobody@example.com" "A") sim.current)
     = error_reply 404 "no user found with the provided email"
  /\ fst (handlers.AddUserToGroupByEmail (sim.by_email "dup@example.com" "A") sim.current)
     = error_reply 400 "multiple users found with the provided email".
Proof.
  split; [|split; [|split; [|split]]].
  - destruct (@boundary_status_by_endpoint sim.unreachable) as ((Hget & _) & _).
    exact (Hget (sim.with_id "1") sim.offline "dial tcp: connection refused" eq_refl).
  - destruct (@boundary_status_by_endpoint sim.unreachable) as (_ & (Hlist & _) & _).
    exact (Hlist (sim.with_id "1") sim.offline "dial tcp: connection refused" eq_refl).
  - destruct (@boundary_status_by_endpoint sim.working) as (_ & _ & (Hbind & _) & _).
    destruct (Hbind (sim.with_body "1" "{") "invalid character" sim.current eq_refl)
      as [_ E].
    exact E.
  - destruct (@boundary_status_by_endpoint sim.working) as (_ & _ & _ & Hemail).
    destruct (Hemail (sim.by_email "nobody@example.com" "A") sim.current) as [_ Hsearch].
    destruct Hsearch as [_ Hfound]; [discriminate | discriminate |].
    destruct (Hfound [] (snd (SearchUserByEmail "nobody@example.com" sim.current)) eq_refl)
      as (Hnone & _).
    exact (Hnone eq_refl).
  - destruct (@boundary_status_by_endpoint sim.working) as (_ & _ & _ & Hemail).
    destruct (Hemail (sim.by_email "dup@example.com" "A") sim.current) as [_ Hsearch].
    destruct Hsearch as [_ Hfound]; [discriminate | discriminate |].
    destruct (Hfound [sim.bob; sim.bobby]
                (snd (SearchUserByEmail "dup@example.com" sim.current)) eq_refl)
      as (_ & Hmany & _).
    exact (Hmany (le_n 2)).
Defined.

(** * Further properties of the code *)

(** ** Configuration *)

(** X1.  [LoadConfig] reads four variables and nothing else.  With none of
    them set it returns the defaults for local development.  Setting one of
    them changes the field it stands for, and only that field, to the value
    set -- the empty string included, which does not fall back to the
    default.  Setting any other variable changes nothing. *)
Theorem LoadConfig_reads_four_variables :
  (forall environ,
      environ "KEYCLOAK_URL" = None -> environ "KEYCLOAK_REALM" = None ->
      environ "KEYCLOAK_USERNAME" = None -> environ "KEYCLOAK_PASSWORD" = None ->
      LoadConfig environ
      = {| KeycloakURL := "http://localhost:8080"; KeycloakRealm := "master";
           KeycloakUsername := "admin"; KeycloakPassword := "admin" |})
  /\ (forall environ value,
         LoadConfig (Setenv "KEYCLOAK_URL" value environ)
         = {| KeycloakURL := value;
              KeycloakRealm := KeycloakRealm (LoadConfig environ);
              KeycloakUsername := KeycloakUsername (LoadConfig environ);
              KeycloakPassword := KeycloakPassword (LoadConfig environ) |}
         /\ LoadConfig (Setenv "KEYCLOAK_REALM" value environ)
            = {| KeycloakURL := KeycloakURL (LoadConfig environ);
                 KeycloakRealm := value;
                 KeycloakUsername := KeycloakUsername (LoadConfig environ);
                 KeycloakPassword := KeycloakPassword (LoadConfig environ) |}
         /\ LoadConfig (Setenv "KEYCLOAK_USERNAME" value environ)
            = {| KeycloakURL := KeycloakURL (LoadConfig environ);
                 KeycloakRealm := KeycloakRealm (LoadConfig environ);
                 KeycloakUsername := value;
                 KeycloakPassword := KeycloakPassword (LoadConfig environ) |}
         /\ LoadConfig (Setenv "KEYCLOAK_PASSWORD" value environ)
            = {| KeycloakURL := KeycloakURL (LoadConfig environ);
                 KeycloakRealm := KeycloakRealm (LoadConfig environ);
                 KeycloakUsername := KeycloakUsername (LoadConfig environ);
                 KeycloakPassword := value |})
  /\ (forall environ key value,
         key <> "KEYCLOAK_URL" -> key <> "KEYCLOAK_REALM" ->
         key <> "KEYCLOAK_USERNAME" -> key <> "KEYCLOAK_PASSWORD" ->
         LoadConfig (Setenv key value environ) = LoadConfig environ).
Proof.
  split; [|split].
  - intros environ Hu Hr Hn Hp. unfold LoadConfig, getEnv.
    now rewrite Hu, Hr, Hn, Hp.
  - intros environ value. repeat split.
  - intros environ key value Hu Hr Hn Hp.
    unfold LoadConfig, getEnv, Setenv.
    destruct (String.eqb_spec "KEYCLOAK_URL" key) as [E|_]; [now subst|].
    destruct (String.eqb_spec "KEYCLOAK_REALM" key) as [E|_]; [now subst|].
    destruct (String.eqb_spec "KEYCLOAK_USERNAME" key) as [E|_]; [now subst|].
    destruct (String.eqb_spec "KEYCLOAK_PASSWORD" key) as [E|_]; [now subst|].
    reflexivity.
Qed.

Lemma LoadConfig_reads_four_variables_witness :
  LoadConfig (fun _ => None)
  = {| KeycloakURL := "http://localhost:8080"; KeycloakRealm := "master";
       KeycloakUsername := "admin"; KeycloakPassword := "admin" |}
  /\ KeycloakRealm (LoadConfig (Setenv "KEYCLOAK_REALM" EmptyString (fun _ => None)))
     = EmptyString
  /\ LoadConfig (Setenv "HOME" "/root" (fun _ => None)) = LoadConfig (fun _ => None).
Proof.
  destruct LoadConfig_reads_four_variables as (Hdefault & Hset & Hother).
  split; [|split].
  - exact (Hdefault (fun _ => None) eq_refl eq_refl eq_refl eq_refl).
  - destruct (Hset (fun _ => None) EmptyString) as (_ & Hrealm & _).
    now rewrite Hrealm.
  - apply Hother; discriminate.
Defined.

(** ** The bearer gate *)

Lemma Split_not_nil (s : string) (sep : ascii) : strings.Split s sep <> [].
Proof.
  destruct s as [|c rest]; simpl; [discriminate|].
  destruct (Ascii.eqb c sep); [discriminate|].
  destruct (strings.Split rest sep); discriminate.
Qed.

(** Joining the pieces with the separator gives the string back. *)
Lemma Split_concat (s : string) (sep : ascii) :
  String.concat (String sep EmptyString) (strings.Split s sep) = s.
Proof.
  induction s as [|c rest IH]; simpl; [reflexivity|].
  destruct (Ascii.eqb_spec c sep) as [->|Hc].
  - pose proof (Split_not_nil rest sep) as Hn.
    destruct (strings.Split rest sep) as [|p ps] eqn:E; [contradiction|].
    simpl in *. now rewrite IH.
  - destruct (strings.Split rest sep) as [|p ps] eqn:E.
    + now destruct (Split_not_nil rest sep).
    + simpl in *. destruct ps; simpl in *; now rewrite <- IH.
Qed.

(** X2.  [AuthMiddleware] lets a request through exactly when its
    Authorization header is, byte for byte, [Bearer secret-token].  Without
    the header it aborts with 401 and "Missing Authorization header"; with
    any other value -- another token, another scheme, a second space -- it
    aborts with 401 and "Invalid token". *)
Theorem AuthMiddleware_accepts_one_header (headers : Header) :
  (middleware.AuthMiddleware headers = None
   <-> Header_Get headers "Authorization" = "Bearer secret-token")
  /\ (Header_Get headers "Authorization" = EmptyString ->
      middleware.AuthMiddleware headers
      = Some (error_reply StatusUnauthorized "Missing Authorization header"))
  /\ (Header_Get headers "Authorization" <> EmptyString ->
      Header_Get headers "Authorization" <> "Bearer secret-token" ->
      middleware.AuthMiddleware headers
      = Some (error_reply StatusUnauthorized "Invalid token")).
Proof.
  unfold middleware.AuthMiddleware. cbv zeta.
  set (authHeader := Header_Get headers "Authorization").
  assert (Hparts : forall parts,
             strings.Split authHeader " "%char = parts ->
             (length parts =? 2)%nat = true ->
             String.eqb (nth 0 parts EmptyString) "Bearer" = true ->
             String.eqb (nth 1 parts EmptyString) "secret-token" = true ->
             authHeader = "Bearer secret-token").
  { intros parts Hs Hl H0 H1.
    rewrite <- (Split_concat authHeader " "%char), Hs.
    destruct parts as [|p0 [|p1 [|p2 rest]]]; try discriminate.
    simpl in H0, H1. apply String.eqb_eq in H0, H1. now subst. }
  split; [split|split].
  - destruct (String.eqb authHeader EmptyString); [discriminate|].
    destruct (length (strings.Split authHeader " "%char) =? 2)%nat eqn:Hl;
      [|discriminate].
    destruct (String.eqb (nth 0 (strings.Split authHeader " "%char) EmptyString) "Bearer")
      eqn:H0; [|discriminate].
    destruct (String.eqb (nth 1 (strings.Split authHeader " "%char) EmptyString)
                "secret-token") eqn:H1; [|discriminate].
    intros _. exact (Hparts _ eq_refl Hl H0 H1).
  - intros ->. reflexivity.
  - intros ->. reflexivity.
  - intros Hne Hnb. apply String.eqb_neq in Hne. rewrite Hne.
    destruct (length (strings.Split authHeader " "%char) =? 2)%nat eqn:Hl;
      [|reflexivity].
    destruct (String.eqb (nth 0 (strings.Split authHeader " "%char) EmptyString) "Bearer")
      eqn:H0; [|reflexivity].
    destruct (String.eqb (nth 1 (strings.Split authHeader " "%char) EmptyString)
                "secret-token") eqn:H1; [|reflexivity].
    destruct Hnb. exact (Hparts _ eq_refl Hl H0 H1).
Qed.

Lemma AuthMiddleware_accepts_one_header_witness :
  middleware.AuthMiddleware [("Authorization", "Bearer secret-token")] = None
  /\ middleware.AuthMiddleware [("Accept", "*/*")]
     = Some (error_reply StatusUnauthorized "Missing Authorization header")
  /\ middleware.AuthMiddleware [("Authorization", "Bearer  secret-token")]
     = Some (error_reply StatusUnauthorized "Invalid token").
Proof.
  split; [|split].
  - apply (proj1 (AuthMiddleware_accepts_one_header
                    [("Authorization", "Bearer secret-token")])).
    reflexivity.
  - apply (proj1 (proj2 (AuthMiddleware_accepts_one_header [("Accept", "*/*")]))).
    reflexivity.
  - apply (proj2 (proj2 (AuthMiddleware_accepts_one_header
                           [("Authorization", "Bearer  secret-token")])));
      discriminate.
Defined.

(** ** The admin token *)
Section AdminToken.
Context {P : Platform}.

Lemma getAdminToken_unsent (s : State) (err : error) :
  NewRequest_err "POST" (URL (token_request_of (config (svc s)))) = Some err ->
  getAdminToken s = ((EmptyString, Some err), s).
Proof.
  intros H. unfold getAdminToken, bind, getConfig, NewRequest. cbv zeta.
  unfold token_request_of in H. cbn [URL] in H. now rewrite H.
Qed.

Lemma getAdminToken_sent (s : State) :
  NewRequest_err "POST" (URL (token_request_of (config (svc s)))) = None ->
  getAdminToken s
  = (token_outcome (config (svc s))
       (fst (clientDo (token_request_of (config (svc s))) s)),
     snd (clientDo (token_request_of (config (svc s))) s)).
Proof.
  intros H. unfold getAdminToken, bind, getConfig, NewRequest. cbv zeta.
  unfold token_request_of in H. cbn [URL] in H. rewrite H.
  unfold set_Headers, Header_Add. cbn [Headers Method URL Payload app].
  fold (token_request_of (config (svc s))).
  destruct (clientDo (token_request_of (config (svc s))) s) as [[resp|err] s1];
    [|reflexivity].
  cbn [fst snd token_outcome]. unfold ioutil.ReadAll, ret.
  destruct (StatusCode resp =? StatusOK)%Z; cbn [negb]; [|reflexivity].
  destruct (json_Decode_object (RespBody resp)) as [m|e]; [|reflexivity].
  destruct (object_get m "access_token") as [[]|]; reflexivity.
Qed.

Lemma clientDo_logs (req : Request) (s : State) :
  logs (snd (clientDo req s)) = logs s.
Proof. unfold clientDo. now destruct (client_Do req (net s)). Qed.

(** X3.  [getAdminToken] reads the service and writes nothing: the stored
    token, the configuration and the log are as before.  When its request
    cannot be built it returns that error and sends nothing.  Otherwise it
    sends one request and no more: a POST to the token endpoint of the
    configured realm, form-encoded, with the administrator's credentials in
    the body and no Authorization header. *)
Theorem getAdminToken_sends_one_request (s : State) :
  svc (snd (getAdminToken s)) = svc s
  /\ logs (snd (getAdminToken s)) = logs s
  /\ (forall err,
         NewRequest_err "POST" (URL (token_request_of (config (svc s)))) = Some err ->
         getAdminToken s = ((EmptyString, Some err), s))
  /\ (NewRequest_err "POST" (URL (token_request_of (config (svc s)))) = None ->
      new_calls s (snd (getAdminToken s)) = [token_request_of (config (svc s))]
      /\ net (snd (getAdminToken s))
         = snd (client_Do (token_request_of (config (svc s))) (net s)))
  /\ Header_Get (Headers (token_request_of (config (svc s)))) "Authorization"
     = EmptyString.
Proof.
  split; [apply getAdminToken_svc|].
  destruct (NewRequest_err "POST" (URL (token_request_of (config (svc s)))))
    as [e|] eqn:Hn.
  - rewrite (getAdminToken_unsent s e Hn). cbn [snd].
    split; [reflexivity|]. split; [intros err [= <-]; reflexivity|].
    split; [discriminate | reflexivity].
  - rewrite (getAdminToken_sent s Hn). cbn [snd].
    split; [apply clientDo_logs|]. split; [discriminate|].
    split; [|reflexivity]. intros _. split.
    + apply new_calls_app. apply clientDo_calls.
    + unfold clientDo.
      now destruct (client_Do (token_request_of (config (svc s))) (net s)).
Qed.

(** X4.  [getAdminToken] returns a token, with no error, exactly when its
    request could be built, the answer has status 200, the body decodes as
    a JSON object and the field [access_token] of that object is a string:
    the token is that string.  An object without the field, or with a
    field that is not a string, gives "access token not found"; and with
    every error the string returned is empty. *)
Theorem getAdminToken_succeeds_iff (s : State) (t : string) :
  (fst (getAdminToken s) = (t, None)
   <-> NewRequest_err "POST" (URL (token_request_of (config (svc s)))) = None
       /\ exists resp result,
            fst (client_Do (token_request_of (config (svc s))) (net s)) = Ok resp
            /\ StatusCode resp = StatusOK
            /\ json_Decode_object (RespBody resp) = Ok result
            /\ object_get result "access_token" = Some (JString t))
  /\ (forall resp result,
         NewRequest_err "POST" (URL (token_request_of (config (svc s)))) = None ->
         fst (client_Do (token_request_of (config (svc s))) (net s)) = Ok resp ->
         StatusCode resp = StatusOK ->
         json_Decode_object (RespBody resp) = Ok result ->
         (forall token, object_get result "access_token" <> Some (JString token)) ->
         fst (getAdminToken s) = (EmptyString, Some "access token not found"))
  /\ (forall err, fst (getAdminToken s) = (t, Some err) -> t = EmptyString).
Proof.
  assert (Hdo : fst (clientDo (token_request_of (config (svc s))) s)
                = fst (client_Do (token_request_of (config (svc s))) (net s))).
  { unfold clientDo.
    now destruct (client_Do (token_request_of (config (svc s))) (net s)). }
  split; [split|split].
  - intros H.
    destruct (NewRequest_err "POST" (URL (token_request_of (config (svc s)))))
      as [e|] eqn:Hn.
    { rewrite (getAdminToken_unsent s e Hn) in H. discriminate. }
    split; [reflexivity|].
    rewrite (getAdminToken_sent s Hn) in H. cbn [fst] in H. rewrite Hdo in H.
    destruct (fst (client_Do (token_request_of (config (svc s))) (net s)))
      as [resp|e]; cbn [token_outcome] in H; [|discriminate].
    destruct (Z.eqb_spec (StatusCode resp) StatusOK) as [Hst|]; [|discriminate].
    destruct (json_Decode_object (RespBody resp)) as [m|e] eqn:Hd; [|discriminate].
    destruct (object_get m "access_token") as [[]|] eqn:Hg; try discriminate.
    injection H as ->. exists resp, m. auto.
  - intros (Hn & resp & m & Hr & Hst & Hd & Hg).
    rewrite (getAdminToken_sent s Hn). cbn [fst]. rewrite Hdo, Hr.
    cbn [token_outcome]. now rewrite Hst, Hd, Hg.
  - intros resp m Hn Hr Hst Hd Hg.
    rewrite (getAdminToken_sent s Hn). cbn [fst]. rewrite Hdo, Hr.
    cbn [token_outcome]. rewrite Hst, Hd. cbn.
    destruct (object_get m "access_token") as [[]|]; try reflexivity.
    now destruct (Hg s0).
  - intros err H.
    destruct (getAdminToken s) as [[t' e'] s'] eqn:E. cbn [fst] in H.
    injection H as -> ->. exact (getAdminToken_error_empty _ _ _ _ E).
Qed.
End AdminToken.

Lemma getAdminToken_sends_one_request_witness :
  new_calls sim.stale (snd (getAdminToken sim.stale)) = [sim.token_request]
  /\ token (svc (snd (getAdminToken sim.stale))) = "stale".
Proof.
  destruct (getAdminToken_sends_one_request sim.stale) as (Hsvc & _ & _ & Hsent & _).
  split.
  - destruct (Hsent eq_refl) as [E _]. exact E.
  - now rewrite Hsvc.
Defined.

Lemma getAdminToken_succeeds_iff_witness :
  fst (getAdminToken sim.stale) = ("fresh-token", None)
  /\ fst (getAdminToken sim.stale_401)
     = (EmptyString, Some "failed to get token, status: 401, response:  admin").
Proof.
  split.
  - apply (proj1 (getAdminToken_succeeds_iff sim.stale "fresh-token")).
    split; [reflexivity|].
    exists (sim.body_reply 200 (sim.encode_fields sim.token_reply)),
      (sim.strings_only sim.token_reply).
    repeat split.
  - reflexivity.
Defined.

(** ** What [doRequest] sends *)
Section Requests.
Context {P : Platform}.


Lemma getAdminToken_new_calls_shape (s : State) :
  new_calls s (snd (getAdminToken s)) = []
  \/ new_calls s (snd (getAdminToken s)) = [token_request_of (config (svc s))].
Proof.
  destruct (NewRequest_err "POST" (URL (token_request_of (config (svc s)))))
    as [e|] eqn:Hn.
  - left. rewrite (getAdminToken_unsent s e Hn). apply new_calls_app.
    now rewrite app_nil_r.
  - right. rewrite (getAdminToken_sent s Hn). apply new_calls_app, clientDo_calls.
Qed.

Lemma getAdminToken_logs (s : State) : logs (snd (getAdminToken s)) = logs s.
Proof.
  destruct (NewRequest_err "POST" (URL (token_request_of (config (svc s)))))
    as [e|] eqn:Hn.
  - now rewrite (getAdminToken_unsent s e Hn).
  - rewrite (getAdminToken_sent s Hn). apply clientDo_logs.
Qed.

(** The requests of a run of [doRequest]: the first attempt, what the token
    acquisition sent if there was one, and the retry if there was one. *)
Lemma doRequest_new_calls (req : Request) (s : State) :
  exists acquisition retry,
    new_calls s (snd (doRequest req s))
    = ([withBearer req (token (svc s))] ++ acquisition ++ retry)%list
    /\ (acquisition = [] \/ acquisition = [token_request_of (config (svc s))])
    /\ (retry = []
        \/ retry = [withBearer req (token (svc (snd (doRequest req s))))]).
Proof.
  pose proof (clientDo_calls (withBearer req (token (svc s))) s) as Hc.
  pose proof (clientDo_svc (withBearer req (token (svc s))) s) as Hs.
  destruct (clientDo (withBearer req (token (svc s))) s) as [[resp|err] s1] eqn:H;
    cbn [snd] in Hc, Hs.
  - destruct (Z.eq_dec (StatusCode resp) StatusUnauthorized) as [H401|Hn].
    + pose proof (getAdminToken_new_calls (announce s1)) as [Hg _].
      pose proof (getAdminToken_new_calls_shape (announce s1)) as Hshape.
      assert (Ha : config (svc (announce s1)) = config (svc s)) by (cbn; now rewrite Hs).
      rewrite Ha in Hshape.
      destruct (getAdminToken (announce s1)) as [[t [e|]] s2] eqn:Ht;
        cbn [snd] in Hg, Hshape.
      * rewrite (doRequest_refresh_failed _ _ _ _ _ _ _ H H401 Ht). cbn [snd].
        exists (new_calls (announce s1) s2), []. split; [|auto].
        apply new_calls_app. rewrite Hg. cbn [announce logEvent snd calls].
        rewrite Hc, app_nil_r. now rewrite <- app_assoc.
      * rewrite (doRequest_refreshed _ _ _ _ _ _ H H401 Ht).
        exists (new_calls (announce s1) s2), [withBearer req t]. split; [|split].
        -- apply new_calls_app. rewrite clientDo_calls.
           cbn [store_token setToken snd calls]. rewrite Hg.
           cbn [announce logEvent snd calls]. rewrite Hc.
           now rewrite <- !app_assoc.
        -- exact Hshape.
        -- right. now rewrite clientDo_svc.
    + rewrite (doRequest_other_status _ _ _ _ H Hn). cbn [snd].
      exists [], []. split; [|auto]. apply new_calls_app. now rewrite Hc.
  - rewrite (doRequest_first_error _ _ _ _ H). cbn [snd].
    exists [], []. split; [|auto]. apply new_calls_app. now rewrite Hc.
Qed.


(** X6.  Unless the first response is a 401, [doRequest] is one call of
    [client.Do] on the request with the bearer header and nothing else: no
    second request, no log event, no change to the service.  When the first
    response is a 401, it logs one event, at level Info, whether or not the
    refresh then succeeds. *)
Theorem doRequest_is_one_call_unless_401 (req : Request) (s : State) :
  ((forall resp,
       fst (clientDo (withBearer req (token (svc s))) s) = Ok resp ->
       StatusCode resp <> StatusUnauthorized) ->
   doRequest req s = clientDo (withBearer req (token (svc s))) s)
  /\ (forall resp,
         fst (clientDo (withBearer req (token (svc s))) s) = Ok resp ->
         StatusCode resp = StatusUnauthorized ->
         logs (snd (doRequest req s))
         = (logs s ++ [{| level := LInfo; attached := None;
                          msg := "Token expired. Refreshing token and retrying request." |}])%list).
Proof.
  pose proof (clientDo_logs (withBearer req (token (svc s))) s) as Hl.
  destruct (clientDo (withBearer req (token (svc s))) s) as [[resp|err] s1] eqn:H;
    cbn [fst snd] in *.
  - split.
    + intros Hn. exact (doRequest_other_status _ _ _ _ H (Hn resp eq_refl)).
    + intros resp' [= <-] H401.
      pose proof (getAdminToken_logs (announce s1)) as Hg.
      destruct (getAdminToken (announce s1)) as [[t [e|]] s2] eqn:Ht; cbn [snd] in Hg.
      * rewrite (doRequest_refresh_failed _ _ _ _ _ _ _ H H401 Ht). cbn [snd].
        rewrite Hg. cbn. now rewrite Hl.
      * rewrite (doRequest_refreshed _ _ _ _ _ _ H H401 Ht), clientDo_logs.
        cbn [store_token setToken snd logs]. rewrite Hg. cbn. now rewrite Hl.
  - split; [|discriminate].
    intros _. exact (doRequest_first_error _ _ _ _ H).
Qed.
End Requests.


Lemma doRequest_is_one_call_unless_401_witness :
  doRequest sim.get_users sim.current
  = clientDo (withBearer sim.get_users "fresh-token") sim.current
  /\ logs (snd (doRequest sim.get_users sim.stale_401))
     = [{| level := LInfo; attached := None;
           msg := "Token expired. Refreshing token and retrying request." |}].
Proof.
  split.
  - apply (proj1 (doRequest_is_one_call_unless_401 sim.get_users sim.current)).
    intros resp [= <-]. discriminate.
  - exact (proj2 (doRequest_is_one_call_unless_401 sim.get_users sim.stale_401)
             (sim.empty_reply 401) eq_refl eq_refl).
Defined.

(** ** What every operation keeps *)
Section History.
Context {P : Platform}.

Lemma extends_refl (s : State) : extends s s.
Proof. repeat split; exists []; now rewrite app_nil_r. Qed.

Lemma extends_trans (s1 s2 s3 : State) :
  extends s1 s2 -> extends s2 s3 -> extends s1 s3.
Proof.
  intros (Hc & [l1 H1] & [m1 G1]) (Hc' & [l2 H2] & [m2 G2]).
  split; [congruence|]. split.
  - exists (l1 ++ l2)%list. now rewrite H2, H1, app_assoc.
  - exists (m1 ++ m2)%list. now rewrite G2, G1, app_assoc.
Qed.

Lemma clientDo_extends (req : Request) (s : State) : extends s (snd (clientDo req s)).
Proof.
  split; [now rewrite clientDo_svc|]. split.
  - exists [req]. apply clientDo_calls.
  - exists []. now rewrite clientDo_logs, app_nil_r.
Qed.

Lemma logEvent_extends (l : LogLevel) (e : option error) (m : string) (s : State) :
  extends s (snd (logEvent l e m s)).
Proof.
  split; [reflexivity|]. split.
  - exists []. cbn. now rewrite app_nil_r.
  - eexists. reflexivity.
Qed.

Lemma setToken_extends (t : string) (s : State) : extends s (snd (setToken t s)).
Proof. repeat split; exists []; cbn; now rewrite app_nil_r. Qed.

Lemma getAdminToken_extends (s : State) : extends s (snd (getAdminToken s)).
Proof.
  split; [now rewrite getAdminToken_svc|]. split.
  - destruct (getAdminToken_calls s) as (l & Hl & _). now exists l.
  - exists []. now rewrite getAdminToken_logs, app_nil_r.
Qed.

Lemma doRequest_extends (req : Request) (s : State) : extends s (snd (doRequest req s)).
Proof.
  pose proof (clientDo_extends (withBearer req (token (svc s))) s) as H1.
  destruct (clientDo (withBearer req (token (svc s))) s) as [[resp|err] s1] eqn:H;
    cbn [snd] in H1.
  - destruct (Z.eq_dec (StatusCode resp) StatusUnauthorized) as [H401|Hn].
    + assert (H2 : extends s (announce s1))
        by (eapply extends_trans; [exact H1 | apply logEvent_extends]).
      pose proof (getAdminToken_extends (announce s1)) as H3.
      destruct (getAdminToken (announce s1)) as [[t [e|]] s2] eqn:Ht; cbn [snd] in H3.
      * rewrite (doRequest_refresh_failed _ _ _ _ _ _ _ H H401 Ht).
        eapply extends_trans; eassumption.
      * rewrite (doRequest_refreshed _ _ _ _ _ _ H H401 Ht).
        eapply extends_trans; [|apply clientDo_extends].
        eapply extends_trans; [|apply setToken_extends].
        eapply extends_trans; eassumption.
    + now rewrite (doRequest_other_status _ _ _ _ H Hn).
  - now rewrite (doRequest_first_error _ _ _ _ H).
Qed.

Lemma extends_logged (s s' : State) (event : LogEvent) :
  extends s s' ->
  extends s {| svc := svc s'; net := net s'; calls := calls s';
               logs := (logs s' ++ [event])%list |}.
Proof.
  intros H. eapply extends_trans; [exact H|]. destruct event as [l e m].
  exact (logEvent_extends l e m s').
Qed.

(** Runs an operation built from [doRequest], case by case. *)
Ltac history :=
  intros; unfold bind, getConfig, ret, NewRequest, ioutil.ReadAll, logEvent; cbv zeta;
  repeat (cbv beta iota;
          match goal with
          | |- context [doRequest ?r ?s] =>
            let H := fresh "Hd" in
            pose proof (doRequest_extends r s) as H;
            destruct (doRequest r s) as [[?|?] ?]; cbn [snd] in H
          | |- context [match ?x with _ => _ end] => destruct x
          end);
  cbn [snd fst];
  try assumption; try apply extends_refl;
  try (apply extends_logged; assumption).




Lemma SearchUserByEmail_extends (email : string) (s : State) :
  extends s (snd (SearchUserByEmail email s)).
Proof. unfold SearchUserByEmail. history. Qed.



Lemma ListGroups_extends (s : State) : extends s (snd (ListGroups s)).
Proof. unfold ListGroups. history. Qed.






Lemma AddUserToGroup_extends (userID groupID : string) (s : State) :
  extends s (snd (AddUserToGroup userID groupID s)).
Proof. unfold AddUserToGroup. history. Qed.


Lemma ListGroupUsers_extends (groupID : string) (s : State) :
  extends s (snd (ListGroupUsers groupID s)).
Proof. unfold ListGroupUsers. history. Qed.


Lemma ListGroupsWithUsers_loop_extends (groups : list Group) :
  forall acc s, extends s (snd (ListGroupsWithUsers_loop groups acc s)).
Proof.
  induction groups as [|group rest IH]; intros acc s; simpl.
  - apply extends_refl.
  - unfold bind. pose proof (ListGroupUsers_extends (Group_ID group) s) as H.
    destruct (ListGroupUsers (Group_ID group) s) as [[users|err] s1]; cbn [snd] in H.
    + eapply extends_trans; [exact H | apply IH].
    + exact H.
Qed.


End History.

(** ** Failures before a response *)
Section Failures.
Context {P : Platform}.

(** An operation whose request cannot be built. *)
Ltac unbuilt Hn :=
  unfold admin_url in Hn;
  unfold bind, getConfig, NewRequest; cbv zeta; rewrite Hn; now split.

(** An operation whose call of [doRequest] ends as [Hd] says. *)
Ltac unanswered Hn Hd :=
  unfold admin_url, sent in Hn, Hd;
  unfold bind, getConfig, NewRequest; cbv zeta; rewrite Hn;
  unfold set_Headers, Header_Add; cbn [Headers Method URL Payload app];
  rewrite Hd; now split.

Lemma ListUsers_passes_failures :
  passes_failures failure (ListUsers) "GET" "/users" None.
Proof.
  split.
  - intros s err Hn. unfold ListUsers. unbuilt Hn.
  - intros s err s' [Hn Hd]. unfold ListUsers. unanswered Hn Hd.
Qed.

Lemma GetUser_passes_failures (id : string) :
  passes_failures failure (GetUser id) "GET" ("/users/" ++ id) None.
Proof.
  split.
  - intros s err Hn. unfold GetUser. unbuilt Hn.
  - intros s err s' [Hn Hd]. unfold GetUser. unanswered Hn Hd.
Qed.

Lemma SearchUserByEmail_passes_failures (email : string) :
  passes_failures failure (SearchUserByEmail email) "GET" ("/users?email=" ++ email) None.
Proof.
  split.
  - intros s err Hn. unfold SearchUserByEmail. unbuilt Hn.
  - intros s err s' [Hn Hd]. unfold SearchUserByEmail. unanswered Hn Hd.
Qed.

Lemma ListGroups_passes_failures :
  passes_failures failure (ListGroups) "GET" "/groups" None.
Proof.
  split.
  - intros s err Hn. unfold ListGroups. unbuilt Hn.
  - intros s err s' [Hn Hd]. unfold ListGroups. unanswered Hn Hd.
Qed.

Lemma GetGroup_passes_failures (id : string) :
  passes_failures failure (GetGroup id) "GET" ("/groups/" ++ id) None.
Proof.
  split.
  - intros s err Hn. unfold GetGroup. unbuilt Hn.
  - intros s err s' [Hn Hd]. unfold GetGroup. unanswered Hn Hd.
Qed.

Lemma ListUserGroups_passes_failures (userID : string) :
  passes_failures failure (ListUserGroups userID) "GET" ("/users/" ++ userID ++ "/groups") None.
Proof.
  split.
  - intros s err Hn. unfold ListUserGroups. unbuilt Hn.
  - intros s err s' [Hn Hd]. unfold ListUserGroups. unanswered Hn Hd.
Qed.

Lemma ListGroupUsers_passes_failures (groupID : string) :
  passes_failures failure (ListGroupUsers groupID) "GET" ("/groups/" ++ groupID ++ "/members") None.
Proof.
  split.
  - intros s err Hn. unfold ListGroupUsers. unbuilt Hn.
  - intros s err s' [Hn Hd]. unfold ListGroupUsers. unanswered Hn Hd.
Qed.

Lemma DeleteUser_passes_failures (id : string) :
  passes_failures (fun e => e) (DeleteUser id) "DELETE" ("/users/" ++ id) None.
Proof.
  split.
  - intros s err Hn. unfold DeleteUser. unbuilt Hn.
  - intros s err s' [Hn Hd]. unfold DeleteUser. unanswered Hn Hd.
Qed.

Lemma DeleteGroup_passes_failures (id : string) :
  passes_failures (fun e => e) (DeleteGroup id) "DELETE" ("/groups/" ++ id) None.
Proof.
  split.
  - intros s err Hn. unfold DeleteGroup. unbuilt Hn.
  - intros s err s' [Hn Hd]. unfold DeleteGroup. unanswered Hn Hd.
Qed.

Lemma AddUserToGroup_passes_failures (userID groupID : string) :
  passes_failures (fun e => e) (AddUserToGroup userID groupID) "PUT" ("/users/" ++ userID ++ "/groups/" ++ groupID) None.
Proof.
  split.
  - intros s err Hn. unfold AddUserToGroup. unbuilt Hn.
  - intros s err s' [Hn Hd]. unfold AddUserToGroup. unanswered Hn Hd.
Qed.

Lemma RemoveUserFromGroup_passes_failures (userID groupID : string) :
  passes_failures (fun e => e) (RemoveUserFromGroup userID groupID) "DELETE" ("/users/" ++ userID ++ "/groups/" ++ groupID) None.
Proof.
  split.
  - intros s err Hn. unfold RemoveUserFromGroup. unbuilt Hn.
  - intros s err s' [Hn Hd]. unfold RemoveUserFromGroup. unanswered Hn Hd.
Qed.

Lemma CreateUser_passes_failures (user : User) (payload : string) :
  json_Marshal_User user = Ok payload ->
  passes_failures failure (CreateUser user) "POST" "/users" (Some payload).
Proof.
  intros Hm. split.
  - intros s err Hn. unfold CreateUser. rewrite Hm. unbuilt Hn.
  - intros s err s' [Hn Hd]. unfold CreateUser. rewrite Hm. unanswered Hn Hd.
Qed.

Lemma UpdateUser_passes_failures (id : string) (user : User) (payload : string) :
  json_Marshal_User user = Ok payload ->
  passes_failures failure (UpdateUser id user) "PUT" ("/users/" ++ id) (Some payload).
Proof.
  intros Hm. split.
  - intros s err Hn. unfold UpdateUser. rewrite Hm. unbuilt Hn.
  - intros s err s' [Hn Hd]. unfold UpdateUser. rewrite Hm. unanswered Hn Hd.
Qed.

Lemma CreateGroup_passes_failures (group : Group) (payload : string) :
  json_Marshal_Group group = Ok payload ->
  passes_failures failure (CreateGroup group) "POST" "/groups" (Some payload).
Proof.
  intros Hm. split.
  - intros s err Hn. unfold CreateGroup. rewrite Hm. unbuilt Hn.
  - intros s err s' [Hn Hd]. unfold CreateGroup. rewrite Hm. unanswered Hn Hd.
Qed.

Lemma UpdateGroup_passes_failures (id : string) (group : Group) (payload : string) :
  json_Marshal_Group group = Ok payload ->
  passes_failures failure (UpdateGroup id group) "PUT" ("/groups/" ++ id) (Some payload).
Proof.
  intros Hm. split.
  - intros s err Hn. unfold UpdateGroup. rewrite Hm. unbuilt Hn.
  - intros s err s' [Hn Hd]. unfold UpdateGroup. rewrite Hm. unanswered Hn Hd.
Qed.

(** X8.  Every operation returns as it is, without a prefix of its own, the
    error of a request that cannot be built -- and then sends nothing and
    leaves the state untouched -- and the error [doRequest] ends with, a
    transport failure or a failed token refresh.  An entity that cannot be
    serialised stops a create or an update in the same way, before any
    request. *)
Theorem operations_pass_failures :
  (passes_failures failure ListUsers "GET" "/users" None
   /\ (forall id, passes_failures failure (GetUser id) "GET" ("/users/" ++ id) None)
   /\ (forall email,
         passes_failures failure (SearchUserByEmail email) "GET"
           ("/users?email=" ++ email) None)
   /\ passes_failures failure ListGroups "GET" "/groups" None
   /\ (forall id, passes_failures failure (GetGroup id) "GET" ("/groups/" ++ id) None)
   /\ (forall userID,
         passes_failures failure (ListUserGroups userID) "GET"
           ("/users/" ++ userID ++ "/groups") None)
   /\ (forall groupID,
         passes_failures failure (ListGroupUsers groupID) "GET"
           ("/groups/" ++ groupID ++ "/members") None))
  /\ ((forall id,
          passes_failures (fun e => e) (DeleteUser id) "DELETE" ("/users/" ++ id) None)
      /\ (forall id,
             passes_failures (fun e => e) (DeleteGroup id) "DELETE" ("/groups/" ++ id) None)
      /\ (forall userID groupID,
             passes_failures (fun e => e) (AddUserToGroup userID groupID) "PUT"
               ("/users/" ++ userID ++ "/groups/" ++ groupID) None)
      /\ (forall userID groupID,
             passes_failures (fun e => e) (RemoveUserFromGroup userID groupID) "DELETE"
               ("/users/" ++ userID ++ "/groups/" ++ groupID) None))
  /\ ((forall user payload,
          json_Marshal_User user = Ok payload ->
          passes_failures failure (CreateUser user) "POST" "/users" (Some payload))
      /\ (forall id user payload,
             json_Marshal_User user = Ok payload ->
             passes_failures failure (UpdateUser id user) "PUT" ("/users/" ++ id)
               (Some payload))
      /\ (forall group payload,
             json_Marshal_Group group = Ok payload ->
             passes_failures failure (CreateGroup group) "POST" "/groups" (Some payload))
      /\ (forall id group payload,
             json_Marshal_Group group = Ok payload ->
             passes_failures failure (UpdateGroup id group) "PUT" ("/groups/" ++ id)
               (Some payload)))
  /\ ((forall id user err s,
          json_Marshal_User user = Err err ->
          CreateUser user s = (Err err, s) /\ UpdateUser id user s = (Err err, s))
      /\ (forall id group err s,
             json_Marshal_Group group = Err err ->
             CreateGroup group s = (Err err, s) /\ UpdateGroup id group s = (Err err, s))).
Proof.
  repeat match goal with |- _ /\ _ => split end; intros.
  - apply ListUsers_passes_failures.
  - apply GetUser_passes_failures.
  - apply SearchUserByEmail_passes_failures.
  - apply ListGroups_passes_failures.
  - apply GetGroup_passes_failures.
  - apply ListUserGroups_passes_failures.
  - apply ListGroupUsers_passes_failures.
  - apply DeleteUser_passes_failures.
  - apply DeleteGroup_passes_failures.
  - apply AddUserToGroup_passes_failures.
  - apply RemoveUserFromGroup_passes_failures.
  - now apply CreateUser_passes_failures.
  - now apply UpdateUser_passes_failures.
  - now apply CreateGroup_passes_failures.
  - now apply UpdateGroup_passes_failures.
  - split; [unfold CreateUser | unfold UpdateUser];
      unfold bind, getConfig; cbv zeta; now rewrite H.
  - split; [unfold CreateGroup | unfold UpdateGroup];
      unfold bind, getConfig; cbv zeta; now rewrite H.
Qed.
End Failures.

Lemma operations_pass_failures_witness :
  GetUser "%zz" sim.current_strict = (Err "invalid URL escape", sim.current_strict)
  /\ ListUsers sim.offline
  = (Err "dial tcp: connection refused", snd (ListUsers sim.offline))
  /\ DeleteUser "1" sim.stale_401
     = (Some "failed to refresh token: failed to get token, status: 401, response:  admin",
        snd (DeleteUser "1" sim.stale_401)).
Proof.
  split; [|split].
  - destruct (@operations_pass_failures sim.strict) as ((_ & Hget & _) & _).
    destruct (Hget "%zz") as [Hunbuilt _].
    destruct (Hunbuilt sim.current_strict "invalid URL escape" eq_refl) as [E1 E2].
    destruct (GetUser "%zz" sim.current_strict) as [r s'] eqn:E. cbn [fst snd] in *.
    destruct r as [u|e]; [discriminate|]. injection E1 as ->. now rewrite E2.
  - destruct (@operations_pass_failures sim.unreachable) as ((Hlist & _) & _).
    destruct Hlist as [_ Hrefused].
    destruct (Hrefused sim.offline "dial tcp: connection refused"
                (snd (ListUsers sim.offline)) (conj eq_refl eq_refl)) as [E1 E2].
    destruct (ListUsers sim.offline) as [r s'] eqn:E. cbn [fst snd] in *.
    destruct r as [l|e]; [discriminate|]. now injection E1 as ->.
  - destruct (@operations_pass_failures sim.always_401) as (_ & (Hdelete & _) & _).
    destruct (Hdelete "1") as [_ Hrefused].
    destruct (Hrefused sim.stale_401
                "failed to refresh token: failed to get token, status: 401, response:  admin"
                (snd (DeleteUser "1" sim.stale_401)) (conj eq_refl eq_refl)) as [E1 E2].
    destruct (DeleteUser "1" sim.stale_401) as [r s'] eqn:E. cbn [fst snd] in *.
    now rewrite E1.
Defined.

(** ** Responses the operations accept *)
Section Accepted.
Context {P : Platform}.

(** Runs an operation up to its call of [doRequest], answered as [Hd] says. *)
Ltac respond Hn Hd :=
  unfold admin_url, sent in Hn, Hd;
  unfold bind, getConfig, NewRequest; cbv zeta;
  rewrite ?Hn;
  unfold set_Headers, Header_Add; cbn [Headers Method URL Payload app];
  rewrite Hd;
  unfold ioutil.ReadAll, ret; cbn [bytes readErr].

Lemma ListUsers_decodes :
  decodes_listing (ListUsers) "/users" json_Unmarshal_Users "User".
Proof.
  intros s resp s' [Hn Hd]. split.
  - intros err Hr. unfold ListUsers. respond Hn Hd. now rewrite Hr.
  - intros Hst Hr. unfold ok_only in Hst. split.
    + intros l Hl. unfold ListUsers. respond Hn Hd. now rewrite Hr, Hst, Hl.
    + intros err Hl. unfold ListUsers. respond Hn Hd. now rewrite Hr, Hst, Hl.
Qed.

Lemma SearchUserByEmail_decodes (email : string) :
  decodes_listing (SearchUserByEmail email) ("/users?email=" ++ email) json_Unmarshal_Users "User".
Proof.
  intros s resp s' [Hn Hd]. split.
  - intros err Hr. unfold SearchUserByEmail. respond Hn Hd. now rewrite Hr.
  - intros Hst Hr. unfold ok_only in Hst. split.
    + intros l Hl. unfold SearchUserByEmail. respond Hn Hd. now rewrite Hr, Hst, Hl.
    + intros err Hl. unfold SearchUserByEmail. respond Hn Hd. now rewrite Hr, Hst, Hl.
Qed.

Lemma ListGroups_decodes :
  decodes_listing (ListGroups) "/groups" json_Unmarshal_Groups "Group".
Proof.
  intros s resp s' [Hn Hd]. split.
  - intros err Hr. unfold ListGroups. respond Hn Hd. now rewrite Hr.
  - intros Hst Hr. unfold ok_only in Hst. split.
    + intros l Hl. unfold ListGroups. respond Hn Hd. now rewrite Hr, Hst, Hl.
    + intros err Hl. unfold ListGroups. respond Hn Hd. now rewrite Hr, Hst, Hl.
Qed.

Lemma ListUserGroups_decodes (userID : string) :
  decodes_listing (ListUserGroups userID) ("/users/" ++ userID ++ "/groups") json_Unmarshal_Groups "Group".
Proof.
  intros s resp s' [Hn Hd]. split.
  - intros err Hr. unfold ListUserGroups. respond Hn Hd. now rewrite Hr.
  - intros Hst Hr. unfold ok_only in Hst. split.
    + intros l Hl. unfold ListUserGroups. respond Hn Hd. now rewrite Hr, Hst, Hl.
    + intros err Hl. unfold ListUserGroups. respond Hn Hd. now rewrite Hr, Hst, Hl.
Qed.

Lemma ListGroupUsers_decodes (groupID : string) :
  decodes_listing (ListGroupUsers groupID) ("/groups/" ++ groupID ++ "/members") json_Unmarshal_Users "User".
Proof.
  intros s resp s' [Hn Hd]. split.
  - intros err Hr. unfold ListGroupUsers. respond Hn Hd. now rewrite Hr.
  - intros Hst Hr. unfold ok_only in Hst. split.
    + intros l Hl. unfold ListGroupUsers. respond Hn Hd. now rewrite Hr, Hst, Hl.
    + intros err Hl. unfold ListGroupUsers. respond Hn Hd. now rewrite Hr, Hst, Hl.
Qed.

(** X9.  The five listing operations read the whole body before they look
    at the status, so a body that cannot be read gives the read error
    whatever the status.  On 200 they return the list the body decodes to;
    a body that does not decode is logged once, at level Error and with
    the body, and reported as "json: " followed by the decoder's error. *)
Theorem listings_decode_the_body :
  decodes_listing ListUsers "/users" json_Unmarshal_Users "User"
  /\ (forall email,
        decodes_listing (SearchUserByEmail email) ("/users?email=" ++ email)
          json_Unmarshal_Users "User")
  /\ decodes_listing ListGroups "/groups" json_Unmarshal_Groups "Group"
  /\ (forall userID,
        decodes_listing (ListUserGroups userID) ("/users/" ++ userID ++ "/groups")
          json_Unmarshal_Groups "Group")
  /\ (forall groupID,
        decodes_listing (ListGroupUsers groupID) ("/groups/" ++ groupID ++ "/members")
          json_Unmarshal_Users "User").
Proof.
  split; [exact ListUsers_decodes|].
  split; [exact SearchUserByEmail_decodes|].
  split; [exact ListGroups_decodes|].
  split; [exact ListUserGroups_decodes | exact ListGroupUsers_decodes].
Qed.

(** X10.  Once the backend has answered, [GetUser] and [GetGroup] succeed
    exactly when the status is 200 and the body decodes as the entity, and
    they return what the decoder returns: its value, or its error as it
    is. *)
Theorem gets_return_the_decoded_entity :
  (forall id s resp s',
      answers s "GET" (admin_url s ("/users/" ++ id)) None resp s' ->
      (StatusCode resp = StatusOK ->
       GetUser id s = (json_Decode_User (RespBody resp), s'))
      /\ (forall user,
             GetUser id s = (Ok user, s')
             <-> StatusCode resp = StatusOK /\ json_Decode_User (RespBody resp) = Ok user))
  /\ (forall id s resp s',
         answers s "GET" (admin_url s ("/groups/" ++ id)) None resp s' ->
         (StatusCode resp = StatusOK ->
          GetGroup id s = (json_Decode_Group (RespBody resp), s'))
         /\ (forall group,
                GetGroup id s = (Ok group, s')
                <-> StatusCode resp = StatusOK
                    /\ json_Decode_Group (RespBody resp) = Ok group)).
Proof.
  split.
  - intros id s resp s' [Hn Hd].
    assert (E : GetUser id s
                = (if (StatusCode resp =? StatusOK)%Z
                   then json_Decode_User (RespBody resp)
                   else Err (status_error "user" resp), s')).
    { unfold GetUser. respond Hn Hd. unfold status_error.
      destruct (StatusCode resp =? StatusOK)%Z; cbn [negb]; [|reflexivity].
      now destruct (json_Decode_User (RespBody resp)). }
    rewrite E. split.
    + intros ->. reflexivity.
    + intros user. destruct (Z.eqb_spec (StatusCode resp) StatusOK) as [Hst|Hst].
      * split; [intros [= ->]; auto | intros [_ ->]; reflexivity].
      * split; [discriminate | intros [Hc _]; contradiction].
  - intros id s resp s' [Hn Hd].
    assert (E : GetGroup id s
                = (if (StatusCode resp =? StatusOK)%Z
                   then json_Decode_Group (RespBody resp)
                   else Err (status_error "group" resp), s')).
    { unfold GetGroup. respond Hn Hd. unfold status_error.
      destruct (StatusCode resp =? StatusOK)%Z; cbn [negb]; [|reflexivity].
      now destruct (json_Decode_Group (RespBody resp)). }
    rewrite E. split.
    + intros ->. reflexivity.
    + intros group. destruct (Z.eqb_spec (StatusCode resp) StatusOK) as [Hst|Hst].
      * split; [intros [= ->]; auto | intros [_ ->]; reflexivity].
      * split; [discriminate | intros [Hc _]; contradiction].
Qed.

(** X11.  Once the backend has answered, the two deletions and the two
    membership operations return no error exactly when the status is 204
    No Content; any other status, 200 OK included, is an error that
    carries the status and the body. *)
Theorem deletions_and_memberships_need_204 :
  (forall id s resp s',
      answers s "DELETE" (admin_url s ("/users/" ++ id)) None resp s' ->
      (fst (DeleteUser id s) = None <-> StatusCode resp = StatusNoContent)
      /\ (StatusCode resp <> StatusNoContent ->
          DeleteUser id s = (Some (raw_error "delete user" resp), s')))
  /\ (forall id s resp s',
         answers s "DELETE" (admin_url s ("/groups/" ++ id)) None resp s' ->
         (fst (DeleteGroup id s) = None <-> StatusCode resp = StatusNoContent)
         /\ (StatusCode resp <> StatusNoContent ->
             DeleteGroup id s = (Some (raw_error "delete group" resp), s')))
  /\ (forall userID groupID s resp s',
         answers s "PUT" (admin_url s ("/users/" ++ userID ++ "/groups/" ++ groupID))
           None resp s' ->
         (fst (AddUserToGroup userID groupID s) = None
          <-> StatusCode resp = StatusNoContent)
         /\ (StatusCode resp <> StatusNoContent ->
             AddUserToGroup userID groupID s
             = (Some (raw_error "add user to group" resp), s')))
  /\ (forall userID groupID s resp s',
         answers s "DELETE" (admin_url s ("/users/" ++ userID ++ "/groups/" ++ groupID))
           None resp s' ->
         (fst (RemoveUserFromGroup userID groupID s) = None
          <-> StatusCode resp = StatusNoContent)
         /\ (StatusCode resp <> StatusNoContent ->
             RemoveUserFromGroup userID groupID s
             = (Some (raw_error "remove user from group" resp), s'))).
Proof.
  assert (Hcase : forall (op : M (option error)) (what : string) s resp s',
             op s = (if no_content_only (StatusCode resp) then None
                     else Some (raw_error what resp), s') ->
             (fst (op s) = None <-> StatusCode resp = StatusNoContent)
             /\ (StatusCode resp <> StatusNoContent ->
                 op s = (Some (raw_error what resp), s'))).
  { intros op what s resp s' E. rewrite E. unfold no_content_only. cbn [fst].
    destruct (Z.eqb_spec (StatusCode resp) StatusNoContent) as [Hst|Hst].
    - split; [tauto | contradiction].
    - split; [split; [discriminate | contradiction] | reflexivity]. }
  repeat match goal with |- _ /\ _ => split end; intros.
  - apply Hcase. now apply DeleteUser_answered.
  - apply Hcase. now apply DeleteGroup_answered.
  - apply Hcase. now apply AddUserToGroup_answered.
  - apply Hcase. now apply RemoveUserFromGroup_answered.
Qed.

(** X12.  Once the backend has answered, [CreateUser] and [CreateGroup]
    succeed exactly when the status is 201 Created or 204 No Content, and
    then return the entity they were given; a 200 OK is a failure. *)
Theorem creations_need_201_or_204 :
  (forall user payload s resp s',
      json_Marshal_User user = Ok payload ->
      answers s "POST" (admin_url s "/users") (Some payload) resp s' ->
      (is_ok (fst (CreateUser user s)) = true
       <-> StatusCode resp = StatusCreated \/ StatusCode resp = StatusNoContent)
      /\ (StatusCode resp = StatusCreated \/ StatusCode resp = StatusNoContent ->
          CreateUser user s = (Ok user, s'))
      /\ (StatusCode resp = StatusOK ->
          CreateUser user s = (Err (raw_error "create user" resp), s')))
  /\ (forall group payload s resp s',
         json_Marshal_Group group = Ok payload ->
         answers s "POST" (admin_url s "/groups") (Some payload) resp s' ->
         (is_ok (fst (CreateGroup group s)) = true
          <-> StatusCode resp = StatusCreated \/ StatusCode resp = StatusNoContent)
         /\ (StatusCode resp = StatusCreated \/ StatusCode resp = StatusNoContent ->
             CreateGroup group s = (Ok group, s'))
         /\ (StatusCode resp = StatusOK ->
             CreateGroup group s = (Err (raw_error "create group" resp), s'))).
Proof.
  assert (Hcase : forall (A : Type) (r : result A * State) (x : A) (what : string)
                         (resp : Response) (s' : State),
             r = (if created_or_no_content (StatusCode resp) then Ok x
                  else Err (raw_error what resp), s') ->
             (is_ok (fst r) = true
              <-> StatusCode resp = StatusCreated \/ StatusCode resp = StatusNoContent)
             /\ (StatusCode resp = StatusCreated \/ StatusCode resp = StatusNoContent ->
                 r = (Ok x, s'))
             /\ (StatusCode resp = StatusOK -> r = (Err (raw_error what resp), s'))).
  { intros A r x what resp s' ->. unfold created_or_no_content. cbn [fst].
    unfold StatusCreated, StatusNoContent, StatusOK.
    destruct (Z.eqb_spec (StatusCode resp) 201) as [E1|E1];
      destruct (Z.eqb_spec (StatusCode resp) 204) as [E2|E2];
      cbn [orb is_ok]; intuition congruence. }
  split.
  - intros user payload s resp s' Hm Ha.
    apply Hcase. now apply CreateUser_answered with (payload := payload).
  - intros group payload s resp s' Hm Ha.
    apply Hcase. now apply CreateGroup_answered with (payload := payload).
Qed.
End Accepted.

Lemma listings_decode_the_body_witness :
  ListUsers sim.current = (Ok [sim.alice], snd (ListUsers sim.current))
  /\ fst (ListUsers sim.current_garbled) = Err "json: invalid character"
  /\ logs (snd (ListUsers sim.current_garbled))
     = [{| level := LError; attached := None;
           msg := "Unable to decode response into []models.User: <html>" |}].
Proof.
  split; [|split].
  - destruct (@listings_decode_the_body sim.working) as (Hlist & _).
    destruct (Hlist sim.current
                (sim.body_reply 200 (sim.encode_list sim.encode_User [sim.alice]))
                (snd (ListUsers sim.current)) (conj eq_refl eq_refl)) as [_ Hok].
    destruct (Hok eq_refl eq_refl) as [Hdecoded _].
    exact (Hdecoded [sim.alice] eq_refl).
  - destruct (@listings_decode_the_body sim.garbled) as (Hlist & _).
    destruct (Hlist sim.current_garbled (sim.body_reply 200 "<html>")
                (snd (doRequest (sent "GET" (admin_url sim.current_garbled "/users") None)
                        sim.current_garbled))
                (conj eq_refl eq_refl)) as [_ Hok].
    destruct (Hok eq_refl eq_refl) as [_ Hgarbled].
    now rewrite (Hgarbled "invalid character" eq_refl).
  - destruct (@listings_decode_the_body sim.garbled) as (Hlist & _).
    destruct (Hlist sim.current_garbled (sim.body_reply 200 "<html>")
                (snd (doRequest (sent "GET" (admin_url sim.current_garbled "/users") None)
                        sim.current_garbled))
                (conj eq_refl eq_refl)) as [_ Hok].
    destruct (Hok eq_refl eq_refl) as [_ Hgarbled].
    now rewrite (Hgarbled "invalid character" eq_refl).
Defined.

Lemma gets_return_the_decoded_entity_witness :
  GetUser "1" sim.current = (Ok sim.alice, snd (GetUser "1" sim.current)).
Proof.
  destruct (@gets_return_the_decoded_entity sim.working) as [Huser _].
  destruct (Huser "1" sim.current (sim.body_reply 200 (sim.encode_User sim.alice))
              (snd (GetUser "1" sim.current)) (conj eq_refl eq_refl)) as [_ Hiff].
  apply (proj2 (Hiff sim.alice)). split; reflexivity.
Defined.

Lemma deletions_and_memberships_need_204_witness :
  fst (AddUserToGroup "1" "A" sim.current) = None
  /\ DeleteUser "1" sim.current
     = (Some "failed to delete user, status: 400, response: bad request",
        snd (DeleteUser "1" sim.current)).
Proof.
  destruct (@deletions_and_memberships_need_204 sim.working)
    as (Hdelete & _ & Hadd & _).
  split.
  - destruct (Hadd "1" "A" sim.current (sim.empty_reply 204)
                (snd (AddUserToGroup "1" "A" sim.current)) (conj eq_refl eq_refl))
      as [Hiff _].
    apply Hiff. reflexivity.
  - destruct (Hdelete "1" sim.current (sim.body_reply 400 "bad request")
                (snd (DeleteUser "1" sim.current)) (conj eq_refl eq_refl))
      as [_ Hother].
    rewrite Hother; [reflexivity | discriminate].
Defined.

Lemma creations_need_201_or_204_witness :
  CreateGroup sim.admins sim.current
  = (Ok sim.admins, snd (CreateGroup sim.admins sim.current)).
Proof.
  destruct (@creations_need_201_or_204 sim.working) as [_ Hgroup].
  destruct (Hgroup sim.admins (sim.encode_Group sim.admins) sim.current
              (sim.empty_reply 201) (snd (CreateGroup sim.admins sim.current))
              eq_refl (conj eq_refl eq_refl)) as (_ & Hok & _).
  exact (Hok (or_introl eq_refl)).
Defined.

(** ** Composite operations, at their edges *)
Section CompositeEdges.
Context {P : Platform}.

(** X13.  [AddUserToGroupByEmail] returns no error exactly when the search
    returns one user and [AddUserToGroup] for that user's identifier, run
    in the state the search left, returns no error.  When the search
    itself fails, its error comes back behind the prefix "error searching
    user by email: " and no membership request goes out. *)
Theorem AddUserToGroupByEmail_succeeds_iff (email groupID : string) (s : State) :
  (fst (AddUserToGroupByEmail email groupID s) = None
   <-> exists u s1,
         SearchUserByEmail email s = (Ok [u], s1)
         /\ fst (AddUserToGroup (User_ID u) groupID s1) = None)
  /\ (forall err s1,
         SearchUserByEmail email s = (Err err, s1) ->
         AddUserToGroupByEmail email groupID s
         = (Some ("error searching user by email: " ++ err), s1)).
Proof.
  unfold AddUserToGroupByEmail, bind.
  destruct (SearchUserByEmail email s) as [[users|e] s1] eqn:E.
  - split; [|discriminate].
    destruct users as [|u [|u' rest]]; cbn [length Nat.eqb Nat.ltb Nat.leb fst].
    + split; [discriminate | intros (u & s2 & [=] & _)].
    + split.
      * intros H. exists u, s1. auto.
      * intros (u0 & s2 & [= <- <-] & H). exact H.
    + split; [discriminate | intros (u0 & s2 & [=] & _)].
  - split.
    + split; [discriminate | intros (u & s2 & [=] & _)].
    + intros err s2 [= <- <-]. reflexivity.
Qed.

(** X14.  [ListGroupsWithUsers] returns the error of a failed group listing
    as it is, without naming any group, and fetches no member list; for an
    empty listing it returns the empty result and sends nothing more.  On
    success the result has one entry for each group of the listing. *)
Theorem ListGroupsWithUsers_edges (s : State) :
  (forall err s1,
      ListGroups s = (Err err, s1) -> ListGroupsWithUsers s = (Err err, s1))
  /\ (forall s1,
         ListGroups s = (Ok [], s1) -> ListGroupsWithUsers s = (Ok [], s1))
  /\ (forall groups s1 result0 s2,
         ListGroups s = (Ok groups, s1) ->
         ListGroupsWithUsers s = (Ok result0, s2) ->
         length result0 = length groups).
Proof.
  unfold ListGroupsWithUsers, bind. split; [|split].
  - intros err s1 ->. reflexivity.
  - intros s1 ->. reflexivity.
  - intros groups s1 result0 s2 -> H.
    destruct (ListGroupsWithUsers_loop_cases groups [] s1)
      as [(r & s' & Hf & Hl) | (before & g & after & r & s2' & err & s3 & _ & _ & _ & Hl)];
      rewrite Hl in H; [|discriminate].
    injection H as <- <-. cbn [app]. rewrite <- (fetched_groups _ _ _ _ Hf).
    now rewrite length_map.
Qed.
End CompositeEdges.

Lemma AddUserToGroupByEmail_succeeds_iff_witness :
  fst (AddUserToGroupByEmail "alice@example.com" "A" sim.current) = None
  /\ AddUserToGroupByEmail "alice@example.com" "A" sim.offline
     = (Some "error searching user by email: dial tcp: connection refused",
        snd (SearchUserByEmail "alice@example.com" sim.offline)).
Proof.
  split.
  - apply (proj1 (AddUserToGroupByEmail_succeeds_iff "alice@example.com" "A" sim.current)).
    exists sim.alice, (snd (SearchUserByEmail "alice@example.com" sim.current)).
    split; reflexivity.
  - exact (proj2 (AddUserToGroupByEmail_succeeds_iff "alice@example.com" "A" sim.offline)
             "dial tcp: connection refused" _ eq_refl).
Defined.

Lemma ListGroupsWithUsers_edges_witness :
  ListGroupsWithUsers sim.offline
  = (Err "dial tcp: connection refused", snd (ListGroups sim.offline))
  /\ length (match fst (ListGroupsWithUsers sim.current_repaired) with
             | Ok result0 => result0
             | Err _ => []
             end) = 2%nat.
Proof.
  destruct (ListGroupsWithUsers_edges sim.offline) as (Hfailed & _).
  destruct (ListGroupsWithUsers_edges sim.current_repaired) as (_ & _ & Hlength).
  split.
  - exact (Hfailed "dial tcp: connection refused" _ eq_refl).
  - exact (Hlength [sim.admins; sim.staff] (snd (ListGroups sim.current_repaired))
             [ {| Group_ := sim.admins; Users := [sim.alice] |};
               {| Group_ := sim.staff; Users := [sim.bob; sim.bobby] |} ]
             (snd (ListGroupsWithUsers sim.current_repaired)) eq_refl eq_refl).
Defined.

(** ** How many requests an operation costs *)
Section Budget.
Context {P : Platform}.

Lemma doRequest_budget (req : Request) (s : State) :
  (length (new_calls s (snd (doRequest req s))) <= 3)%nat.
Proof.
  destruct (doRequest_new_calls req s) as (acq & retry & E & Hacq & Hretry).
  rewrite E, !length_app.
  destruct Hacq as [->| ->], Hretry as [->| ->]; simpl; lia.
Qed.

Lemma new_calls_self (s : State) : new_calls s s = [].
Proof. unfold new_calls. now rewrite skipn_all. Qed.

Lemma new_calls_trans (s s1 s2 : State) :
  extends s s1 -> extends s1 s2 ->
  new_calls s s2 = (new_calls s s1 ++ new_calls s1 s2)%list.
Proof.
  intros (_ & [l1 H1] & _) (_ & [l2 H2] & _).
  rewrite (new_calls_app _ _ _ H1), (new_calls_app _ _ _ H2).
  apply new_calls_app. now rewrite H2, H1, app_assoc.
Qed.

(** An operation that calls [doRequest] once at most. *)
Ltac one_request :=
  intros; unfold bind, getConfig, ret, NewRequest, ioutil.ReadAll, logEvent; cbv zeta;
  repeat (cbv beta iota;
          match goal with
          | |- context [doRequest ?r ?s] =>
            let H := fresh "Hd" in
            pose proof (doRequest_budget r s) as H;
            destruct (doRequest r s) as [[?|?] ?]; cbn [snd] in H
          | |- context [match ?x with _ => _ end] => destruct x
          end);
  cbn [snd fst];
  try (rewrite new_calls_self; simpl; lia);
  unfold new_calls in *; cbn [calls]; assumption.

Lemma ListUsers_budget (s : State) :
  (length (new_calls s (snd (ListUsers s))) <= 3)%nat.
Proof. unfold ListUsers. one_request. Qed.

Lemma CreateUser_budget (user : User) (s : State) :
  (length (new_calls s (snd (CreateUser user s))) <= 3)%nat.
Proof. unfold CreateUser. one_request. Qed.

Lemma GetUser_budget (id : string) (s : State) :
  (length (new_calls s (snd (GetUser id s))) <= 3)%nat.
Proof. unfold GetUser. one_request. Qed.

Lemma SearchUserByEmail_budget (email : string) (s : State) :
  (length (new_calls s (snd (SearchUserByEmail email s))) <= 3)%nat.
Proof. unfold SearchUserByEmail. one_request. Qed.

Lemma UpdateUser_budget (id : string) (user : User) (s : State) :
  (length (new_calls s (snd (UpdateUser id user s))) <= 3)%nat.
Proof. unfold UpdateUser. one_request. Qed.

Lemma DeleteUser_budget (id : string) (s : State) :
  (length (new_calls s (snd (DeleteUser id s))) <= 3)%nat.
Proof. unfold DeleteUser. one_request. Qed.

Lemma ListGroups_budget (s : State) :
  (length (new_calls s (snd (ListGroups s))) <= 3)%nat.
Proof. unfold ListGroups. one_request. Qed.

Lemma CreateGroup_budget (group : Group) (s : State) :
  (length (new_calls s (snd (CreateGroup group s))) <= 3)%nat.
Proof. unfold CreateGroup. one_request. Qed.

Lemma GetGroup_budget (id : string) (s : State) :
  (length (new_calls s (snd (GetGroup id s))) <= 3)%nat.
Proof. unfold GetGroup. one_request. Qed.

Lemma UpdateGroup_budget (id : string) (group : Group) (s : State) :
  (length (new_calls s (snd (UpdateGroup id group s))) <= 3)%nat.
Proof. unfold UpdateGroup. one_request. Qed.

Lemma DeleteGroup_budget (id : string) (s : State) :
  (length (new_calls s (snd (DeleteGroup id s))) <= 3)%nat.
Proof. unfold DeleteGroup. one_request. Qed.

Lemma ListUserGroups_budget (userID : string) (s : State) :
  (length (new_calls s (snd (ListUserGroups userID s))) <= 3)%nat.
Proof. unfold ListUserGroups. one_request. Qed.

Lemma AddUserToGroup_budget (userID groupID : string) (s : State) :
  (length (new_calls s (snd (AddUserToGroup userID groupID s))) <= 3)%nat.
Proof. unfold AddUserToGroup. one_request. Qed.

Lemma RemoveUserFromGroup_budget (userID groupID : string) (s : State) :
  (length (new_calls s (snd (RemoveUserFromGroup userID groupID s))) <= 3)%nat.
Proof. unfold RemoveUserFromGroup. one_request. Qed.

Lemma ListGroupUsers_budget (groupID : string) (s : State) :
  (length (new_calls s (snd (ListGroupUsers groupID s))) <= 3)%nat.
Proof. unfold ListGroupUsers. one_request. Qed.

Lemma ListGroupsWithUsers_loop_budget (groups : list Group) :
  forall acc s,
    (length (new_calls s (snd (ListGroupsWithUsers_loop groups acc s)))
     <= 3 * length groups)%nat.
Proof.
  induction groups as [|group rest IH]; intros acc s; simpl.
  - rewrite new_calls_self. simpl. lia.
  - unfold bind.
    pose proof (ListGroupUsers_budget (Group_ID group) s) as Hb.
    pose proof (ListGroupUsers_extends (Group_ID group) s) as He.
    destruct (ListGroupUsers (Group_ID group) s) as [[users|err] s1];
      cbn [snd] in Hb, He.
    + rewrite (new_calls_trans s s1 _ He (ListGroupsWithUsers_loop_extends rest _ s1)).
      rewrite length_app.
      specialize (IH (acc ++ [{| Group_ := group; Users := users |}])%list s1).
      eapply Nat.le_trans; [apply Nat.add_le_mono; [exact Hb | exact IH] | lia].
    + cbn [snd]. eapply Nat.le_trans; [exact Hb | lia].
Qed.

(** X15.  Every operation that talks to one endpoint hands the client at
    most three requests -- the request, a token request and one retry --
    whatever the backend answers.  [AddUserToGroupByEmail] costs at most
    six, and [ListGroupsWithUsers] at most three for the listing and three
    for each group listed. *)
Theorem operations_request_budget (s : State) :
  ((length (new_calls s (snd (ListUsers s))) <= 3)%nat
   /\ (forall user, (length (new_calls s (snd (CreateUser user s))) <= 3)%nat)
   /\ (forall id, (length (new_calls s (snd (GetUser id s))) <= 3)%nat)
   /\ (forall email, (length (new_calls s (snd (SearchUserByEmail email s))) <= 3)%nat)
   /\ (forall id user, (length (new_calls s (snd (UpdateUser id user s))) <= 3)%nat)
   /\ (forall id, (length (new_calls s (snd (DeleteUser id s))) <= 3)%nat)
   /\ (length (new_calls s (snd (ListGroups s))) <= 3)%nat
   /\ (forall group, (length (new_calls s (snd (CreateGroup group s))) <= 3)%nat)
   /\ (forall id, (length (new_calls s (snd (GetGroup id s))) <= 3)%nat)
   /\ (forall id group, (length (new_calls s (snd (UpdateGroup id group s))) <= 3)%nat)
   /\ (forall id, (length (new_calls s (snd (DeleteGroup id s))) <= 3)%nat)
   /\ (forall userID, (length (new_calls s (snd (ListUserGroups userID s))) <= 3)%nat)
   /\ (forall userID groupID,
         (length (new_calls s (snd (AddUserToGroup userID groupID s))) <= 3)%nat)
   /\ (forall userID groupID,
         (length (new_calls s (snd (RemoveUserFromGroup userID groupID s))) <= 3)%nat)
   /\ (forall groupID, (length (new_calls s (snd (ListGroupUsers groupID s))) <= 3)%nat))
  /\ (forall email groupID,
         (length (new_calls s (snd (AddUserToGroupByEmail email groupID s))) <= 6)%nat)
  /\ (forall groups s1,
         ListGroups s = (Ok groups, s1) ->
         (length (new_calls s (snd (ListGroupsWithUsers s))) <= 3 + 3 * length groups)%nat).
Proof.
  split; [|split].
  - repeat match goal with |- _ /\ _ => split end; intros.
    + apply ListUsers_budget.
    + apply CreateUser_budget.
    + apply GetUser_budget.
    + apply SearchUserByEmail_budget.
    + apply UpdateUser_budget.
    + apply DeleteUser_budget.
    + apply ListGroups_budget.
    + apply CreateGroup_budget.
    + apply GetGroup_budget.
    + apply UpdateGroup_budget.
    + apply DeleteGroup_budget.
    + apply ListUserGroups_budget.
    + apply AddUserToGroup_budget.
    + apply RemoveUserFromGroup_budget.
    + apply ListGroupUsers_budget.
  - intros email groupID. unfold AddUserToGroupByEmail, bind.
    pose proof (SearchUserByEmail_budget email s) as Hb.
    pose proof (SearchUserByEmail_extends email s) as He.
    assert (H36 : (3 <= 6)%nat) by lia.
    destruct (SearchUserByEmail email s) as [[users|err] s1]; cbn [snd] in Hb, He;
      [|cbn [snd]; exact (Nat.le_trans _ _ _ Hb H36)].
    destruct users as [|u [|u' rest]]; cbn [length Nat.eqb Nat.ltb Nat.leb snd];
      try exact (Nat.le_trans _ _ _ Hb H36).
    rewrite (new_calls_trans s s1 _ He (AddUserToGroup_extends (User_ID u) groupID s1)).
    rewrite length_app.
    exact (Nat.add_le_mono _ 3 _ 3 Hb (AddUserToGroup_budget (User_ID u) groupID s1)).
  - intros groups s1 H. unfold ListGroupsWithUsers, bind.
    pose proof (ListGroups_budget s) as Hb.
    pose proof (ListGroups_extends s) as He.
    rewrite H in *. cbn [snd] in Hb, He.
    rewrite (new_calls_trans s s1 _ He (ListGroupsWithUsers_loop_extends groups [] s1)).
    rewrite length_app.
    exact (Nat.add_le_mono _ 3 _ _ Hb (ListGroupsWithUsers_loop_budget groups [] s1)).
Qed.
End Budget.

Lemma operations_request_budget_witness :
  (length (new_calls sim.stale (snd (ListGroupsWithUsers sim.stale))) <= 9)%nat
  /\ length (new_calls sim.stale (snd (ListGroupsWithUsers sim.stale))) = 5%nat.
Proof.
  split; [|reflexivity].
  destruct (operations_request_budget sim.stale) as (_ & _ & Hlisting).
  exact (Hlisting [sim.admins; sim.staff] (snd (ListGroups sim.stale)) eq_refl).
Defined.

(** ** The handlers *)
Section Handlers.
Context {P : Platform}.

(** A handler, on the outcome of the operation it calls. *)
Ltac handled :=
  unfold maps_success, logs_failure, bind; intros;
  match goal with
  | Hv : context [fst (?op ?s)] |- _ =>
    let r := fresh "r" in
    destruct (op s) as [r ?]; destruct r; cbn in Hv; try discriminate;
    injection Hv as <-; reflexivity
  end.

(** X16.  When the operation of the service succeeds, each handler replies
    with the value the operation returned -- nothing for a deletion or a
    membership change -- and with the status of its endpoint: 201 for the
    two creations, 204 for deletions and membership changes, 200 for all
    the others, updates included.  It logs nothing and leaves the state as
    the operation left it. *)
Theorem handlers_reply_on_success :
  (forall c,
       maps_success success services.ListUsers (handlers.ListUsers c) StatusOK handlers.J_Users)
  /\ (forall c user,
       ShouldBindJSON_User (handlers.InBody c) = Ok user ->
       maps_success success (services.CreateUser user) (handlers.CreateUser c) StatusCreated handlers.J_User)
  /\ (forall c,
       maps_success success (services.GetUser (handlers.Param c "id")) (handlers.GetUser c) StatusOK handlers.J_User)
  /\ (forall c,
       handlers.Query c "email" <> EmptyString ->
       maps_success success (services.SearchUserByEmail (handlers.Query c "email")) (handlers.SearchUserByEmail c) StatusOK handlers.J_Users)
  /\ (forall c user,
       ShouldBindJSON_User (handlers.InBody c) = Ok user ->
       maps_success success (services.UpdateUser (handlers.Param c "id") user) (handlers.UpdateUser c) StatusOK handlers.J_User)
  /\ (forall c,
       maps_success done (services.DeleteUser (handlers.Param c "id")) (handlers.DeleteUser c) StatusNoContent
         (fun _ => handlers.J_nil))
  /\ (forall c,
       maps_success success services.ListGroups (handlers.ListGroups c) StatusOK handlers.J_Groups)
  /\ (forall c group,
       ShouldBindJSON_Group (handlers.InBody c) = Ok group ->
       maps_success success (services.CreateGroup group) (handlers.CreateGroup c) StatusCreated handlers.J_Group)
  /\ (forall c,
       maps_success success services.ListGroupsWithUsers (handlers.ListGroupsWithUsers c) StatusOK handlers.J_GroupsWithUsers)
  /\ (forall c,
       maps_success success (services.GetGroup (handlers.Param c "id")) (handlers.GetGroup c) StatusOK handlers.J_Group)
  /\ (forall c group,
       ShouldBindJSON_Group (handlers.InBody c) = Ok group ->
       maps_success success (services.UpdateGroup (handlers.Param c "id") group) (handlers.UpdateGroup c) StatusOK handlers.J_Group)
  /\ (forall c,
       maps_success done (services.DeleteGroup (handlers.Param c "id")) (handlers.DeleteGroup c) StatusNoContent
         (fun _ => handlers.J_nil))
  /\ (forall c,
       maps_success success (services.ListUserGroups (handlers.Param c "id")) (handlers.ListUserGroups c) StatusOK handlers.J_Groups)
  /\ (forall c,
       maps_success done (services.AddUserToGroup (handlers.Param c "id") (handlers.Param c "groupId")) (handlers.AddUserToGroup c) StatusNoContent
         (fun _ => handlers.J_nil))
  /\ (forall c,
       maps_success done (services.RemoveUserFromGroup (handlers.Param c "id") (handlers.Param c "groupId")) (handlers.RemoveUserFromGroup c) StatusNoContent
         (fun _ => handlers.J_nil))
  /\ (forall c,
       maps_success success (services.ListGroupUsers (handlers.Param c "id")) (handlers.ListGroupUsers c) StatusOK handlers.J_Users).
Proof.
  repeat match goal with |- _ /\ _ => split end; intros.
  - unfold handlers.ListUsers; handled.
  - unfold handlers.CreateUser; rewrite H; handled.
  - unfold handlers.GetUser; handled.
  - unfold handlers.SearchUserByEmail; apply String.eqb_neq in H; rewrite H; handled.
  - unfold handlers.UpdateUser; rewrite H; handled.
  - unfold handlers.DeleteUser; handled.
  - unfold handlers.ListGroups; handled.
  - unfold handlers.CreateGroup; rewrite H; handled.
  - unfold handlers.ListGroupsWithUsers; handled.
  - unfold handlers.GetGroup; handled.
  - unfold handlers.UpdateGroup; rewrite H; handled.
  - unfold handlers.DeleteGroup; handled.
  - unfold handlers.ListUserGroups; handled.
  - unfold handlers.AddUserToGroup; handled.
  - unfold handlers.RemoveUserFromGroup; handled.
  - unfold handlers.ListGroupUsers; handled.
Qed.

(** X17.  When the operation of the service fails, each handler logs the
    failure once, at level Error, with the error attached and a message of
    its own, and otherwise leaves the state as the operation left it: a
    handler sends nothing to the backend itself. *)
Theorem handlers_log_each_failure_once :
  (forall c,
       logs_failure failure services.ListUsers (handlers.ListUsers c) "Error listing users")
  /\ (forall c user,
       ShouldBindJSON_User (handlers.InBody c) = Ok user ->
       logs_failure failure (services.CreateUser user) (handlers.CreateUser c) "Error creating user")
  /\ (forall c,
       logs_failure failure (services.GetUser (handlers.Param c "id")) (handlers.GetUser c) "Error fetching user")
  /\ (forall c,
       handlers.Query c "email" <> EmptyString ->
       logs_failure failure (services.SearchUserByEmail (handlers.Query c "email")) (handlers.SearchUserByEmail c) "Error searching user by email")
  /\ (forall c user,
       ShouldBindJSON_User (handlers.InBody c) = Ok user ->
       logs_failure failure (services.UpdateUser (handlers.Param c "id") user) (handlers.UpdateUser c) "Error updating user")
  /\ (forall c,
       logs_failure (fun e => e) (services.DeleteUser (handlers.Param c "id")) (handlers.DeleteUser c) "Error deleting user")
  /\ (forall c,
       logs_failure failure services.ListGroups (handlers.ListGroups c) "Error listing groups")
  /\ (forall c group,
       ShouldBindJSON_Group (handlers.InBody c) = Ok group ->
       logs_failure failure (services.CreateGroup group) (handlers.CreateGroup c) "Error creating group")
  /\ (forall c,
       logs_failure failure services.ListGroupsWithUsers (handlers.ListGroupsWithUsers c) "Error listing groups with users")
  /\ (forall c,
       logs_failure failure (services.GetGroup (handlers.Param c "id")) (handlers.GetGroup c) "Error fetching group")
  /\ (forall c group,
       ShouldBindJSON_Group (handlers.InBody c) = Ok group ->
       logs_failure failure (services.UpdateGroup (handlers.Param c "id") group) (handlers.UpdateGroup c) "Error updating group")
  /\ (forall c,
       logs_failure (fun e => e) (services.DeleteGroup (handlers.Param c "id")) (handlers.DeleteGroup c) "Error deleting group")
  /\ (forall c,
       logs_failure failure (services.ListUserGroups (handlers.Param c "id")) (handlers.ListUserGroups c) "Error listing groups for user")
  /\ (forall c,
       logs_failure (fun e => e) (services.AddUserToGroup (handlers.Param c "id") (handlers.Param c "groupId")) (handlers.AddUserToGroup c) "Error adding user to group")
  /\ (forall c,
       logs_failure (fun e => e) (services.RemoveUserFromGroup (handlers.Param c "id") (handlers.Param c "groupId")) (handlers.RemoveUserFromGroup c) "Error removing user from group")
  /\ (forall c,
       logs_failure failure (services.ListGroupUsers (handlers.Param c "id")) (handlers.ListGroupUsers c) "Error listing users in group").
Proof.
  repeat match goal with |- _ /\ _ => split end; intros.
  - unfold handlers.ListUsers; handled.
  - unfold handlers.CreateUser; rewrite H; handled.
  - unfold handlers.GetUser; handled.
  - unfold handlers.SearchUserByEmail; apply String.eqb_neq in H; rewrite H; handled.
  - unfold handlers.UpdateUser; rewrite H; handled.
  - unfold handlers.DeleteUser; handled.
  - unfold handlers.ListGroups; handled.
  - unfold handlers.CreateGroup; rewrite H; handled.
  - unfold handlers.ListGroupsWithUsers; handled.
  - unfold handlers.GetGroup; handled.
  - unfold handlers.UpdateGroup; rewrite H; handled.
  - unfold handlers.DeleteGroup; handled.
  - unfold handlers.ListUserGroups; handled.
  - unfold handlers.AddUserToGroup; handled.
  - unfold handlers.RemoveUserFromGroup; handled.
  - unfold handlers.ListGroupUsers; handled.
Qed.
End Handlers.

Lemma handlers_reply_on_success_witness :
  fst (handlers.UpdateUser (sim.with_body "1" (sim.encode_User sim.alice)) sim.current)
  = {| handlers.code := 200; handlers.obj := handlers.J_User sim.alice |}
  /\ handlers.CreateGroup (sim.with_body "1" (sim.encode_Group sim.admins)) sim.current
     = ({| handlers.code := 201; handlers.obj := handlers.J_Group sim.admins |},
        snd (services.CreateGroup sim.admins sim.current)).
Proof.
  destruct (@handlers_reply_on_success sim.working)
    as (_ & _ & _ & _ & Hupdate & _ & _ & Hcreate & _).
  split.
  - now rewrite (Hupdate (sim.with_body "1" (sim.encode_User sim.alice)) sim.alice
                   eq_refl sim.current sim.alice eq_refl).
  - exact (Hcreate (sim.with_body "1" (sim.encode_Group sim.admins)) sim.admins
             eq_refl sim.current sim.admins eq_refl).
Defined.

Lemma handlers_log_each_failure_once_witness :
  logs (snd (handlers.ListGroups (sim.with_id "1") sim.offline))
  = [{| level := LError; attached := Some "dial tcp: connection refused";
        msg := "Error listing groups" |}]
  /\ length (calls (snd (handlers.ListGroups (sim.with_id "1") sim.offline))) = 1%nat.
Proof.
  destruct (@handlers_log_each_failure_once sim.unreachable)
    as (_ & _ & _ & _ & _ & _ & Hlist & _).
  rewrite (Hlist (sim.with_id "1") sim.offline "dial tcp: connection refused" eq_refl).
  split; reflexivity.
Defined.

(** ** Requests the boundary turns away *)
Section TurnedAway.
Context {P : Platform}.

(** X18.  A request the boundary rejects on its own costs nothing: when the
    body does not bind, when the search has no email, or when the by-email
    endpoint lacks a path parameter, the handler sends nothing to the
    backend, logs nothing and leaves the service as it was.  When the
    by-email endpoint finds no user, or more than one, it stops after the
    search: no membership request goes out and nothing is logged. *)
Theorem rejected_requests_cost_nothing (c : handlers.gin_Context) (s : State) :
  (forall err,
      ShouldBindJSON_User (handlers.InBody c) = Err err ->
      snd (handlers.CreateUser c s) = s /\ snd (handlers.UpdateUser c s) = s)
  /\ (forall err,
         ShouldBindJSON_Group (handlers.InBody c) = Err err ->
         snd (handlers.CreateGroup c s) = s /\ snd (handlers.UpdateGroup c s) = s)
  /\ (handlers.Query c "email" = EmptyString ->
      snd (handlers.SearchUserByEmail c s) = s)
  /\ (handlers.Param c "email" = EmptyString \/ handlers.Param c "groupId" = EmptyString ->
      snd (handlers.AddUserToGroupByEmail c s) = s)
  /\ (forall users s1,
         handlers.Param c "email" <> EmptyString ->
         handlers.Param c "groupId" <> EmptyString ->
         services.SearchUserByEmail (handlers.Param c "email") s = (Ok users, s1) ->
         length users <> 1%nat ->
         snd (handlers.AddUserToGroupByEmail c s) = s1).
Proof.
  repeat match goal with |- _ /\ _ => split end.
  - intros err H. unfold handlers.CreateUser, handlers.UpdateUser. rewrite H.
    split; reflexivity.
  - intros err H. unfold handlers.CreateGroup, handlers.UpdateGroup. rewrite H.
    split; reflexivity.
  - intros H. unfold handlers.SearchUserByEmail. now rewrite H.
  - unfold handlers.AddUserToGroupByEmail.
    intros [H|H]; rewrite H; [reflexivity|]. now rewrite orb_true_r.
  - intros users s1 He Hg H Hl. unfold handlers.AddUserToGroupByEmail.
    apply String.eqb_neq in He, Hg. rewrite He, Hg. cbn [orb]. unfold bind.
    rewrite H. destruct users as [|u [|u' rest]]; try reflexivity.
    now destruct Hl.
Qed.

(** X19.  The by-email endpoint does not call [AddUserToGroupByEmail] of
    the service; it repeats its steps.  The two agree all the same: given
    an email and a group, the handler replies 204 exactly when the
    operation of the service returns no error, and both leave the same
    service, the same backend and the same requests sent.  They differ in
    the log alone, where the handler records its failures. *)
Theorem by_email_endpoint_agrees_with_service (c : handlers.gin_Context) (s : State) :
  handlers.Param c "email" <> EmptyString ->
  handlers.Param c "groupId" <> EmptyString ->
  let viaService :=
    services.AddUserToGroupByEmail (handlers.Param c "email")
      (handlers.Param c "groupId") s in
  let viaHandler := handlers.AddUserToGroupByEmail c s in
  (handlers.code (fst viaHandler) = StatusNoContent <-> fst viaService = None)
  /\ svc (snd viaHandler) = svc (snd viaService)
  /\ net (snd viaHandler) = net (snd viaService)
  /\ calls (snd viaHandler) = calls (snd viaService).
Proof.
  intros He Hg viaService viaHandler. subst viaService viaHandler.
  unfold handlers.AddUserToGroupByEmail, services.AddUserToGroupByEmail.
  apply String.eqb_neq in He, Hg. rewrite He, Hg. cbn [orb]. unfold bind.
  destruct (services.SearchUserByEmail (handlers.Param c "email") s)
    as [[users|err] s1].
  - destruct users as [|u [|u' rest]]; cbn [length Nat.eqb Nat.ltb Nat.leb].
    + cbn. repeat split; discriminate.
    + destruct (services.AddUserToGroup (User_ID u) (handlers.Param c "groupId") s1)
        as [[err|] s2]; cbn; repeat split; discriminate.
    + cbn. repeat split; discriminate.
  - cbn. repeat split; discriminate.
Qed.
End TurnedAway.

Lemma rejected_requests_cost_nothing_witness :
  snd (handlers.UpdateUser (sim.with_body "1" "{") sim.current) = sim.current
  /\ calls (snd (handlers.AddUserToGroupByEmail (sim.by_email "dup@example.com" "A")
                   sim.current))
     = [ {| Method := "GET";
            URL := "http://kc/admin/realms/master/users?email=dup@example.com";
            Headers := [("Authorization", "Bearer fresh-token")]; Payload := None |} ].
Proof.
  split.
  - destruct (@rejected_requests_cost_nothing sim.working (sim.with_body "1" "{")
                sim.current) as (Hbind & _).
    exact (proj2 (Hbind "invalid character" eq_refl)).
  - destruct (@rejected_requests_cost_nothing sim.working
                (sim.by_email "dup@example.com" "A") sim.current)
      as (_ & _ & _ & _ & Hmany).
    rewrite (Hmany [sim.bob; sim.bobby]
               (snd (services.SearchUserByEmail "dup@example.com" sim.current))).
    + reflexivity.
    + discriminate.
    + discriminate.
    + reflexivity.
    + discriminate.
Defined.

Lemma by_email_endpoint_agrees_with_service_witness :
  handlers.code (fst (handlers.AddUserToGroupByEmail
                        (sim.by_email "alice@example.com" "A") sim.current)) = 204
  /\ fst (services.AddUserToGroupByEmail "alice@example.com" "A" sim.current) = None.
Proof.
  assert (He : handlers.Param (sim.by_email "alice@example.com" "A") "email"
               <> EmptyString) by discriminate.
  assert (Hg : handlers.Param (sim.by_email "alice@example.com" "A") "groupId"
               <> EmptyString) by discriminate.
  destruct (@by_email_endpoint_agrees_with_service sim.working
              (sim.by_email "alice@example.com" "A") sim.current He Hg) as [Hiff _].
  split; [reflexivity|]. apply Hiff. reflexivity.
Defined.

(** ** Start-up *)
Section StartUp.
Context {P : Platform}.

Lemma NewKeycloakService_config (cfg : Config) (w : W) (cs : list Request)
    (ls : list LogEvent) :
  config (svc (NewKeycloakService cfg w cs ls)) = cfg.
Proof.
  unfold NewKeycloakService, bind. fold (fresh_service cfg w cs ls).
  pose proof (getAdminToken_svc (fresh_service cfg w cs ls)) as Hs.
  destruct (getAdminToken (fresh_service cfg w cs ls)) as [[t [e|]] s1];
    cbn in *; now rewrite Hs.
Qed.

Lemma NewKeycloakService_calls (cfg : Config) (w : W) (cs : list Request)
    (ls : list LogEvent) :
  calls (NewKeycloakService cfg w cs ls)
  = calls (snd (getAdminToken (fresh_service cfg w cs ls))).
Proof.
  unfold NewKeycloakService, bind. fold (fresh_service cfg w cs ls).
  now destruct (getAdminToken (fresh_service cfg w cs ls)) as [[t [e|]] s1].
Qed.

Lemma NewKeycloakService_sent (cfg : Config) (w : W) (cs : list Request)
    (ls : list LogEvent) :
  NewRequest_err "POST" (URL (token_request_of cfg)) = None ->
  calls (NewKeycloakService cfg w cs ls) = (cs ++ [token_request_of cfg])%list.
Proof.
  intros Hn. rewrite NewKeycloakService_calls.
  rewrite (getAdminToken_sent (fresh_service cfg w cs ls) Hn). cbn [snd].
  now rewrite clientDo_calls.
Qed.

Lemma NewKeycloakService_unsent (cfg : Config) (w : W) (cs : list Request)
    (ls : list LogEvent) (err : error) :
  NewRequest_err "POST" (URL (token_request_of cfg)) = Some err ->
  NewKeycloakService cfg w cs ls
  = {| svc := {| config := cfg; token := EmptyString |}; net := w; calls := cs;
       logs := (ls ++ [{| level := LError; attached := Some err;
                          msg := "Failed to get admin token from Keycloak" |}])%list |}.
Proof.
  intros Hn. unfold NewKeycloakService, bind. fold (fresh_service cfg w cs ls).
  now rewrite (getAdminToken_unsent (fresh_service cfg w cs ls) err Hn).
Qed.

(** X20.  [main] makes three handlers and each makes a service of its own,
    so start-up asks for three admin tokens, one after the other and each
    with the credentials of the loaded configuration, whatever the backend
    answers to the earlier ones.  When the token request cannot even be
    built, nothing is sent, the three services start with the empty token
    and three errors are logged. *)
Theorem startup_asks_for_three_tokens (environ : Environ) (w : W) :
  let cfg := LoadConfig environ in
  let userHandler := fst (fst (app.main_handlers environ w)) in
  let groupHandler := snd (fst (app.main_handlers environ w)) in
  let membershipHandler := snd (app.main_handlers environ w) in
  (config (svc userHandler) = cfg /\ config (svc groupHandler) = cfg
   /\ config (svc membershipHandler) = cfg)
  /\ (NewRequest_err "POST" (URL (token_request_of cfg)) = None ->
      calls membershipHandler
      = [token_request_of cfg; token_request_of cfg; token_request_of cfg])
  /\ (forall err,
         NewRequest_err "POST" (URL (token_request_of cfg)) = Some err ->
         calls membershipHandler = []
         /\ token (svc userHandler) = EmptyString
         /\ token (svc groupHandler) = EmptyString
         /\ token (svc membershipHandler) = EmptyString
         /\ length (logs membershipHandler) = 3%nat).
Proof.
  cbv zeta. unfold app.main_handlers, app.NewUserHandler, app.NewGroupHandler,
    app.NewMembershipHandler. cbv zeta. cbn [fst snd].
  split; [|split].
  - repeat split; apply NewKeycloakService_config.
  - intros Hn. now rewrite !(NewKeycloakService_sent _ _ _ _ Hn).
  - intros err Hn. rewrite !(NewKeycloakService_unsent _ _ _ _ err Hn). cbn.
    repeat split.
Qed.
End StartUp.

Lemma startup_asks_for_three_tokens_witness :
  calls (snd (@app.main_handlers sim.late
                (Setenv "KEYCLOAK_URL" "http://kc" (fun _ => None)) 0%nat))
  = [sim.token_request; sim.token_request; sim.token_request]
  /\ token (svc (fst (fst (@app.main_handlers sim.late
                (Setenv "KEYCLOAK_URL" "http://kc" (fun _ => None)) 0%nat)))) = EmptyString
  /\ token (svc (snd (@app.main_handlers sim.late
                (Setenv "KEYCLOAK_URL" "http://kc" (fun _ => None)) 0%nat))) = "fresh-token".
Proof.
  destruct (@startup_asks_for_three_tokens sim.late
              (Setenv "KEYCLOAK_URL" "http://kc" (fun _ => None)) 0%nat)
    as (_ & Hsent & _).
  split; [exact (Hsent eq_refl) | split; reflexivity].
Defined.
